(** * NutriPal gamification routes: streaks, badges, points, leaderboard

    Shallow embedding of the Express router that owns the in-memory arrays
    [userStreaks], [userBadges], [rewardHistory] and [dailyHabits]
    (POST /log-activity, POST /:userId/redeem, GET /leaderboard and the
    utility functions below them), followed by the properties of the
    streak engine that the specification states.

    Conventions of the embedding.
    - A calendar day ([moment().format('YYYY-MM-DD')]) is a day number in
      [Z]; [moment().subtract(1, 'day')] is the predecessor.  The wall clock
      and [uuidv4] are inputs of a request ([Env]): one clock reading per
      request, and the k-th call of [uuidv4] inside the request yields
      [uuidv4 env k].
    - A JavaScript number that the code can produce here is an integer or
      [NaN]; [undefined] read from an object is [None].
    - An object used as a map is the association list of its own
      properties in creation order; [JsObj.entries] gives the order of
      [Object.entries].  The objects of the router inherit from
      [Object.prototype], so under a key that names one of its members
      (constructor, toString, __proto__, ...) a read that finds no own
      property yields the inherited member and an assignment to
      [__proto__] creates nothing.  [JsObj.read] and [JsObj.assign]
      follow this chain, and [userPoints] of the leaderboard, keyed by
      user ids, is modelled with them.  [JsObj.get] and [JsObj.set],
      with which the streak counters and the points table are modelled,
      are a read and a write of own properties: they follow the code for
      the other keys, the plain ones ([JsObj.plain]), and a property
      that depends on a counter or a table entry under an activity type
      taken from a request states that the type is plain.
    - An identifier that the module neither declares nor imports is
      unbound: calling it throws a [ReferenceError].
    - An exception thrown inside a handler leaves the arrays as they are at
      that point and is answered with status 500 by the handler's [catch]. *)

From Stdlib Require Import String Ascii ZArith NArith List Bool Lia.
From Stdlib Require Import Permutation Sorted DecimalString.
Import ListNotations.

Open Scope string_scope.
Open Scope list_scope.
Open Scope Z_scope.

(** ** JavaScript values *)

Module Js.

(** Numbers as the streak counters can hold them. *)
Inductive num : Type :=
| Fin (z : Z)
| NaN.

(** [ToNumber] of a property read: [undefined] becomes [NaN]. *)
Definition toNumber (o : option num) : num :=
  match o with
  | Some n => n
  | None => NaN
  end.

Definition add (a b : num) : num :=
  match a, b with
  | Fin x, Fin y => Fin (x + y)
  | _, _ => NaN
  end.

(** [a > b]; any comparison with [NaN] is false. *)
Definition gtb (a b : num) : bool :=
  match a, b with
  | Fin x, Fin y => x >? y
  | _, _ => false
  end.

(** [a >= b]. *)
Definition geb (a b : num) : bool :=
  match a, b with
  | Fin x, Fin y => x >=? y
  | _, _ => false
  end.

(** A JSON value as a request body field can carry it. *)
Inductive value : Type :=
| VUndefined
| VNull
| VBool (b : bool)
| VNumber (n : num)
| VString (s : string)
| VObject (fields : list (string * string)).

Definition truthy (v : value) : bool :=
  match v with
  | VUndefined | VNull => false
  | VBool b => b
  | VNumber (Fin z) => negb (z =? 0)
  | VNumber NaN => false
  | VString s => negb (String.eqb s "")
  | VObject _ => true
  end.

(** [v !== false]. *)
Definition notStrictlyFalse (v : value) : bool :=
  match v with
  | VBool false => false
  | _ => true
  end.

(** Truthiness of an optional string field ([undefined] or a string). *)
Definition truthyStr (o : option string) : bool :=
  match o with
  | Some s => negb (String.eqb s "")
  | None => false
  end.

End Js.

(** ** Objects used as maps *)

Module JsObj.

Definition digit (c : ascii) : option N :=
  let n := N_of_ascii c in
  if ((48 <=? n) && (n <=? 57))%N then Some (n - 48)%N else None.

Fixpoint digits (s : string) (acc : N) : option N :=
  match s with
  | EmptyString => Some acc
  | String c r =>
      match digit c with
      | Some d => digits r (10 * acc + d)%N
      | None => None
      end
  end.

(** A key is an array index when it is the canonical decimal form of an
    integer in [0, 2^32 - 2]; such keys are enumerated first. *)
Definition arrayIndex (s : string) : option N :=
  match s with
  | EmptyString => None
  | String "0"%char EmptyString => Some 0%N
  | String "0"%char _ => None
  | _ =>
      match digits s 0 with
      | Some n => if (n <=? 4294967294)%N then Some n else None
      | None => None
      end
  end.

(** The own property names of [Object.prototype], which every object
    literal inherits. *)
Definition prototypeNames : list string :=
  [ "constructor"; "__defineGetter__"; "__defineSetter__"; "hasOwnProperty";
    "__lookupGetter__"; "__lookupSetter__"; "isPrototypeOf";
    "propertyIsEnumerable"; "toString"; "valueOf"; "__proto__";
    "toLocaleString" ].

(** A key under which an object literal inherits nothing: reading it finds
    an own property or [undefined], and assigning to it creates or
    updates an own property. *)
Definition plain (k : string) : bool :=
  negb (existsb (String.eqb k) prototypeNames).

Section Obj.
Context {V : Type}.

(** The own properties of an object, in creation order. *)
Definition t : Type := list (string * V).

Definition empty : t := [].

(** [o[k]] for a plain key, and the own property of any key. *)
Fixpoint get (o : t) (k : string) : option V :=
  match o with
  | [] => None
  | (k', v) :: r => if String.eqb k' k then Some v else get r k
  end.

(** [o[k] = v] for a plain key: an existing key keeps its place, a new
    one is created last. *)
Fixpoint set (o : t) (k : string) (v : V) : t :=
  match o with
  | [] => [(k, v)]
  | (k', v') :: r =>
      if String.eqb k' k then (k', v) :: r else (k', v') :: set r k v
  end.

Fixpoint insertIdx (e : N * (string * V)) (l : list (N * (string * V)))
  : list (N * (string * V)) :=
  match l with
  | [] => [e]
  | e' :: r =>
      if (fst e <=? fst e')%N then e :: e' :: r else e' :: insertIdx e r
  end.

Definition indexed (o : t) : list (N * (string * V)) :=
  flat_map (fun kv => match arrayIndex (fst kv) with
                      | Some n => [(n, kv)]
                      | None => []
                      end) o.

Definition named (o : t) : list (string * V) :=
  filter (fun kv => match arrayIndex (fst kv) with
                    | Some _ => false
                    | None => true
                    end) o.

(** [Object.entries(o)]: array-index keys in ascending numeric order,
    then the other keys in creation order. *)
Definition entries (o : t) : list (string * V) :=
  map snd (fold_right insertIdx [] (indexed o)) ++ named o.

Definition values (o : t) : list V := map snd (entries o).

(** What the read [o[k]] finds on an object literal: an own property, a
    member inherited from [Object.prototype], or nothing. *)
Inductive lookup : Type :=
| Own (v : V)
| Inherited
| Missing.

Definition read (o : t) (k : string) : lookup :=
  match get o k with
  | Some v => Own v
  | None => if plain k then Missing else Inherited
  end.

(** [o[k] = v] for a number or a string [v]: the setter of [__proto__]
    ignores such a value and no property is created; every other key is
    created or updated as an own property. *)
Definition assign (o : t) (k : string) (v : V) : t :=
  if String.eqb k "__proto__" then o else set o k v.
End Obj.

Arguments t : clear implicits.
Arguments lookup : clear implicits.

End JsObj.

(** ** Records held in the in-memory arrays *)

Module ActivityLog.
Record t : Type := mk {
  id : string;
  userId : string;
  activityType : string;
  date : Z;
  completed : bool;
  metrics : Js.value;
  loggedAt : string
}.
End ActivityLog.

Module UserStreak.
Record t : Type := mk {
  userId : string;
  streaks : JsObj.t Js.num;
  longestStreaks : JsObj.t Js.num;
  lastUpdated : string
}.
End UserStreak.

Module Badge.
Record t : Type := mk {
  name : string;
  description : string;
  points : Z
}.
End Badge.

Module UserBadge.
(** [badgeName], [badgeDescription] and [points] are copied from whatever
    [awardBadge] resolved the badge to; a missing property is [None]. *)
Record t : Type := mk {
  id : string;
  userId : string;
  badgeId : string;
  badgeName : option string;
  badgeDescription : option string;
  points : option Z;
  awardedAt : string
}.
End UserBadge.

Module Reward.
Record t : Type := mk {
  name : string;
  pointsRequired : Z
}.
End Reward.

Module RewardEntry.
(** [rewardHistory] receives two shapes of object: the entry pushed by
    [awardPoints] and the redemption pushed by the redeem route. *)
Inductive t : Type :=
| Award (id userId activityType : string) (points : Z) (awardedAt : string)
| Redemption (id userId rewardId rewardName : string) (pointsUsed : Z)
             (redeemedAt status : string).

Definition userId (e : t) : string :=
  match e with
  | Award _ u _ _ _ => u
  | Redemption _ u _ _ _ _ _ => u
  end.

(** [reward.points]: a redemption has no such property. *)
Definition points (e : t) : option Z :=
  match e with
  | Award _ _ _ p _ => Some p
  | Redemption _ _ _ _ _ _ _ => None
  end.
End RewardEntry.

(** [x || d] for an optional integer. *)
Definition orElse (o : option Z) (d : Z) : Z :=
  match o with
  | Some p => if p =? 0 then d else p
  | None => d
  end.

(** The four module-level arrays. *)
Record Store : Type := mkStore {
  userStreaks : list UserStreak.t;
  userBadges : list UserBadge.t;
  rewardHistory : list RewardEntry.t;
  dailyHabits : list ActivityLog.t
}.

Definition emptyStore : Store := mkStore [] [] [] [].

(** What a request reads from outside the arrays. *)
Record Env : Type := mkEnv {
  today : Z;
  nowIso : string;
  uuidv4 : nat -> string
}.

Definition yesterday (env : Env) : Z := today env - 1.

(** ** Badge catalogue *)

Definition BADGES : list (string * list (string * Badge.t)) :=
  [ ("CONSISTENCY",
      [ ("7-day-streak", Badge.mk "7-Day Champion" "Maintained a 7-day streak" 50);
        ("30-day-streak", Badge.mk "Monthly Warrior" "Maintained a 30-day streak" 200);
        ("90-day-streak", Badge.mk "Quarterly Legend" "Maintained a 90-day streak" 500) ]);
    ("NUTRITION",
      [ ("healthy-eating", Badge.mk "Healthy Eater" "Logged healthy meals for 7 days" 75);
        ("supplement-consistency", Badge.mk "Supplement Pro" "Taken supplements consistently for 14 days" 100);
        ("hydration", Badge.mk "Hydration Hero" "Met water goals for 7 days" 60) ]);
    ("FITNESS",
      [ ("workout-consistency", Badge.mk "Fitness Fanatic" "Completed workouts for 7 days" 80);
        ("step-master", Badge.mk "Step Master" "Achieved step goal for 7 days" 70);
        ("active-lifestyle", Badge.mk "Active Lifestyle" "Maintained activity for 30 days" 150) ]);
    ("MILESTONES",
      [ ("first-week", Badge.mk "First Week" "Completed your first week" 25);
        ("first-month", Badge.mk "First Month" "Completed your first month" 100);
        ("weight-goal", Badge.mk "Weight Goal" "Reached your weight goal" 200) ]) ].

(** ** Handler monad: arrays, uuid counter, exceptions *)

Module Handler.

(** [None] is a thrown exception; the store is kept as it was when the
    exception was raised. *)
Definition M (A : Type) : Type :=
  Env -> nat -> Store -> option A * nat * Store.

Definition ret {A} (a : A) : M A := fun _ k s => (Some a, k, s).

Definition bind {A B} (m : M A) (f : A -> M B) : M B :=
  fun env k s =>
    match m env k s with
    | (Some a, k', s') => f a env k' s'
    | (None, k', s') => (None, k', s')
    end.

Definition throw {A} : M A := fun _ k s => (None, k, s).

Definition getStore : M Store := fun _ k s => (Some s, k, s).
Definition putStore (s : Store) : M unit := fun _ k _ => (Some tt, k, s).
Definition ask : M Env := fun env k s => (Some env, k, s).
Definition freshUuid : M string := fun env k s => (Some (uuidv4 env k), S k, s).

End Handler.

Import Handler.

Declare Scope handler_scope.
Delimit Scope handler_scope with handler.
Notation "x <- m ;; f" := (bind m (fun x => f))
  (at level 61, m at next level, right associativity) : handler_scope.
Notation "m ;;; f" := (bind m (fun _ => f))
  (at level 61, right associativity) : handler_scope.
Open Scope handler_scope.

(** ** Array helpers *)

(** [arr.find(p)] together with the position of the element found, so that
    a later mutation of the object found reaches the array. *)
Fixpoint findRef {A} (p : A -> bool) (l : list A) : option (nat * A) :=
  match l with
  | [] => None
  | x :: r =>
      if p x then Some (0%nat, x)
      else match findRef p r with
           | Some (i, y) => Some (S i, y)
           | None => None
           end
  end.

(** Writes a mutated object back at its position. *)
Fixpoint writeAt {A} (i : nat) (x : A) (l : list A) : list A :=
  match l, i with
  | [], _ => []
  | _ :: r, O => x :: r
  | y :: r, S j => y :: writeAt j x r
  end.

Definition sameLogKey (userId activityType : string) (day : Z)
  (log : ActivityLog.t) : bool :=
  String.eqb (ActivityLog.userId log) userId
  && String.eqb (ActivityLog.activityType log) activityType
  && (ActivityLog.date log =? day).

Definition ofUser (userId : string) (st : UserStreak.t) : bool :=
  String.eqb (UserStreak.userId st) userId.

(** ** Utility functions of the router *)

Definition initialCounters : JsObj.t Js.num :=
  [ ("nutrition", Js.Fin 0);
    ("fitness", Js.Fin 0);
    ("supplements", Js.Fin 0);
    ("hydration", Js.Fin 0);
    ("sleep", Js.Fin 0) ].

(** Pushes a fresh record and returns it with its position in the array. *)
Definition initializeUserStreak (userId : string) : M (nat * UserStreak.t) :=
  env <- ask ;;
  s <- getStore ;;
  let newStreak :=
    UserStreak.mk userId initialCounters initialCounters (nowIso env) in
  putStore (mkStore (userStreaks s ++ [newStreak]) (userBadges s)
                    (rewardHistory s) (dailyHabits s)) ;;;
  ret (length (userStreaks s), newStreak).

Record StreakUpdate : Type := mkStreakUpdate {
  su_activityType : string;
  currentStreak : option Js.num;
  longestStreak : option Js.num
}.

(** [yesterdayActivity && yesterdayActivity.completed] *)
Definition completedLog (o : option ActivityLog.t) : bool :=
  match o with
  | Some log => ActivityLog.completed log
  | None => false
  end.

(** The assignments of [updateStreak] to [userStreak.streaks], as they
    act on the own counters under a plain activity type. *)
Definition nextStreaks (streaks : JsObj.t Js.num) (activityType : string)
  (completed continued : bool) : JsObj.t Js.num :=
  if completed then
    if continued then
      JsObj.set streaks activityType
        (Js.add (Js.toNumber (JsObj.get streaks activityType)) (Js.Fin 1))
    else JsObj.set streaks activityType (Js.Fin 1)
  else JsObj.set streaks activityType (Js.Fin 0).

(** The assignment of [updateStreak] to [userStreak.longestStreaks];
    [streaks] is the object after [nextStreaks], so its counter for
    [activityType] exists. *)
Definition nextLongest (streaks longest : JsObj.t Js.num)
  (activityType : string) (completed : bool) : JsObj.t Js.num :=
  if completed then
    if Js.gtb (Js.toNumber (JsObj.get streaks activityType))
              (Js.toNumber (JsObj.get longest activityType))
    then match JsObj.get streaks activityType with
         | Some n => JsObj.set longest activityType n
         | None => longest
         end
    else longest
  else longest.

Definition updateStreak (userId activityType : string) (completed : bool)
  : M StreakUpdate :=
  s0 <- getStore ;;
  ref <- match findRef (ofUser userId) (userStreaks s0) with
         | Some r => ret r
         | None => initializeUserStreak userId
         end ;;
  env <- ask ;;
  s <- getStore ;;
  let i := fst ref in
  let userStreak := snd ref in
  let yesterdayActivity :=
    find (sameLogKey userId activityType (yesterday env)) (dailyHabits s) in
  let streaks' :=
    nextStreaks (UserStreak.streaks userStreak) activityType completed
                (completedLog yesterdayActivity) in
  let longest' :=
    nextLongest streaks' (UserStreak.longestStreaks userStreak)
                activityType completed in
  let userStreak' :=
    UserStreak.mk (UserStreak.userId userStreak) streaks' longest'
                  (nowIso env) in
  putStore (mkStore (writeAt i userStreak' (userStreaks s)) (userBadges s)
                    (rewardHistory s) (dailyHabits s)) ;;;
  ret (mkStreakUpdate activityType
         (JsObj.get streaks' activityType)
         (JsObj.get longest' activityType)).

(** An element of the array that [flatMap] builds in [awardBadge]. *)
Inductive FlatItem : Type :=
| ItemUndefined
| ItemString (s : string)
| ItemBadge (b : Badge.t).

Definition itemTruthy (x : FlatItem) : bool :=
  match x with
  | ItemUndefined => false
  | ItemString s => negb (String.eqb s "")
  | ItemBadge _ => true
  end.

(** [Object.values(BADGES).flatMap(category =>
       Object.entries(category).find(([id, _]) => id === badgeId))]:
    a found entry is the two-element array [[id, badge]], which [flatMap]
    flattens into two items; a category without the id contributes
    [undefined]. *)
Definition flatEntries (badgeId : string) : list FlatItem :=
  flat_map
    (fun category : JsObj.t Badge.t =>
       match find (fun e => String.eqb (fst e) badgeId)
                  (JsObj.entries category) with
       | Some (id, b) => [ItemString id; ItemBadge b]
       | None => [ItemUndefined]
       end)
    (JsObj.values BADGES).

(** [x?.[1]]: the second character of a string; the badge objects have no
    property [1]. *)
Definition secondOf (x : option FlatItem) : option string :=
  match x with
  | Some (ItemString s) =>
      match String.get 1 s with
      | Some c => Some (String c EmptyString)
      | None => None
      end
  | Some (ItemBadge _) => None
  | Some ItemUndefined => None
  | None => None
  end.

(** The value bound to [badge] in [awardBadge]. *)
Definition resolveBadge (badgeId : string) : option string :=
  secondOf (find itemTruthy (flatEntries badgeId)).

(** [null] is [None].  [badge] is a string here, and a string has no
    [name], [description] or [points] property. *)
Definition awardBadge (userId badgeId : string) : M (option UserBadge.t) :=
  let badge := resolveBadge badgeId in
  if negb (Js.truthyStr badge) then ret None
  else
    env <- ask ;;
    id <- freshUuid ;;
    s <- getStore ;;
    let userBadge :=
      UserBadge.mk id userId badgeId None None None (nowIso env) in
    putStore (mkStore (userStreaks s) (userBadges s ++ [userBadge])
                      (rewardHistory s) (dailyHabits s)) ;;;
    ret (Some userBadge).

Definition hasBadge (badgeId : string) (earned : list UserBadge.t) : bool :=
  match find (fun b => String.eqb (UserBadge.badgeId b) badgeId) earned with
  | Some _ => true
  | None => false
  end.

(** One iteration of the [forEach] over the streak counters. *)
Definition checkStreakEntry (userId : string) (earnedBadges : list UserBadge.t)
  (newBadges : list (option UserBadge.t)) (entry : string * Js.num)
  : M (list (option UserBadge.t)) :=
  let streak := snd entry in
  nb1 <- (if Js.geb streak (Js.Fin 7) && negb (hasBadge "7-day-streak" earnedBadges)
          then b <- awardBadge userId "7-day-streak" ;; ret (newBadges ++ [b])
          else ret newBadges) ;;
  if Js.geb streak (Js.Fin 30) && negb (hasBadge "30-day-streak" earnedBadges)
  then b <- awardBadge userId "30-day-streak" ;; ret (nb1 ++ [b])
  else ret nb1.

Fixpoint forEachEntry (userId : string) (earnedBadges : list UserBadge.t)
  (entries : list (string * Js.num)) (newBadges : list (option UserBadge.t))
  : M (list (option UserBadge.t)) :=
  match entries with
  | [] => ret newBadges
  | e :: r =>
      nb <- checkStreakEntry userId earnedBadges newBadges e ;;
      forEachEntry userId earnedBadges r nb
  end.

Definition isNutritionActivity (userId : string) (log : ActivityLog.t) : bool :=
  String.eqb (ActivityLog.userId log) userId
  && existsb (String.eqb (ActivityLog.activityType log))
             ["healthy-eating"; "supplement-consistency"].

(** [earnedBadges] is computed once, before the loop; reading [.streaks] of
    a user without a record throws. *)
Definition checkForNewBadges (userId : string) : M (list (option UserBadge.t)) :=
  s <- getStore ;;
  let earnedBadges :=
    filter (fun b => String.eqb (UserBadge.userId b) userId) (userBadges s) in
  match find (ofUser userId) (userStreaks s) with
  | None => throw
  | Some userStreak =>
      nb <- forEachEntry userId earnedBadges
              (JsObj.entries (UserStreak.streaks userStreak)) [] ;;
      s' <- getStore ;;
      let nutritionActivities :=
        filter (isNutritionActivity userId) (dailyHabits s') in
      if (7 <=? length nutritionActivities)%nat
      then b <- awardBadge userId "healthy-eating" ;; ret (nb ++ [b])
      else ret nb
  end.

Definition activityPoints : JsObj.t Z :=
  [ ("healthy-eating", 10);
    ("supplement-consistency", 15);
    ("workout", 20);
    ("hydration", 5);
    ("sleep", 8);
    ("meditation", 12) ].

(** [points[activityType] || 5] is the table entry or 5, as the code
    reads it under a plain activity type. *)
Definition awardPoints (userId activityType : string) (completed : Js.value)
  : M Z :=
  if negb (Js.truthy completed) then ret 0
  else
    let pointsEarned := orElse (JsObj.get activityPoints activityType) 5 in
    env <- ask ;;
    id <- freshUuid ;;
    s <- getStore ;;
    putStore (mkStore (userStreaks s) (userBadges s)
                (rewardHistory s ++
                   [RewardEntry.Award id userId activityType pointsEarned
                                      (nowIso env)])
                (dailyHabits s)) ;;;
    ret pointsEarned.

Definition calculateTotalPoints (s : Store) (userId : string) : Z :=
  fold_left (fun total reward => total + orElse (RewardEntry.points reward) 0)
    (filter (fun reward => String.eqb (RewardEntry.userId reward) userId)
            (rewardHistory s))
    0.

(** ** POST /log-activity *)

Record LogRequest : Type := mkLogRequest {
  req_userId : option string;
  req_activityType : option string;
  req_completed : Js.value;
  req_metrics : Js.value
}.

Inductive LogResponse : Type :=
| LogError (status : Z) (error : string)
| LogOk (log : ActivityLog.t) (streakUpdate : StreakUpdate)
        (newBadges : list (option UserBadge.t)) (pointsAwarded : Z).

Definition ValidationError : LogResponse :=
  LogError 400 "Missing required fields: userId, activityType".
Definition DuplicateLogError : LogResponse :=
  LogError 400 "Activity already logged for today".
Definition InternalServerError : LogResponse :=
  LogError 500 "Internal server error".

(** The part of the handler after the two early returns. *)
Definition logActivityBody (userId activityType : string)
  (completed metrics : Js.value) : M LogResponse :=
  env <- ask ;;
  id <- freshUuid ;;
  let activityLog :=
    ActivityLog.mk id userId activityType (today env)
      (Js.notStrictlyFalse completed)
      (if Js.truthy metrics then metrics else Js.VObject [])
      (nowIso env) in
  s <- getStore ;;
  putStore (mkStore (userStreaks s) (userBadges s) (rewardHistory s)
                    (dailyHabits s ++ [activityLog])) ;;;
  streakUpdate <- updateStreak userId activityType
                    (Js.notStrictlyFalse completed) ;;
  newBadges <- checkForNewBadges userId ;;
  pointsAwarded <- awardPoints userId activityType completed ;;
  ret (LogOk activityLog streakUpdate newBadges pointsAwarded).

Definition logActivity (env : Env) (req : LogRequest) (s : Store)
  : LogResponse * Store :=
  match req_userId req, req_activityType req with
  | Some userId, Some activityType =>
      if negb (Js.truthyStr (Some userId))
         || negb (Js.truthyStr (Some activityType))
      then (ValidationError, s)
      else
        match find (sameLogKey userId activityType (today env))
                   (dailyHabits s) with
        | Some _ => (DuplicateLogError, s)
        | None =>
            match logActivityBody userId activityType (req_completed req)
                    (req_metrics req) env 0%nat s with
            | (Some response, _, s') => (response, s')
            | (None, _, s') => (InternalServerError, s')
            end
        end
  | _, _ => (ValidationError, s)
  end.

(** ** GET /leaderboard *)

(** What a property of [userPoints] holds: a sum of points, or the text
    that [+=] builds once a read has found an inherited function. *)
Inductive Points : Type :=
| PNum (z : Z)
| PText (s : string).

Record LeaderboardRow : Type := mkRow {
  rank : Z;
  row_userId : string;
  row_points : Points;
  badges : Z
}.

(** An integer as [+] appends it to a string (the totals stay far below
    10^21, where JavaScript changes notation). *)
Definition showZ (z : Z) : string := NilZero.string_of_int (Z.to_int z).

(** [String(f)] of a built-in function. *)
Definition nativeSource (name : string) : string :=
  "function " ++ name ++ "() { [native code] }".

(** The string that [+] makes of the member inherited under a key:
    [__proto__] reads as [Object.prototype] itself, [constructor] is the
    function [Object], and every other member is a function named after
    its key. *)
Definition inheritedText (k : string) : string :=
  if String.eqb k "__proto__" then "[object Object]"
  else if String.eqb k "constructor" then nativeSource "Object"
  else nativeSource k.

(** [!v] for a value read from [userPoints]. *)
Definition falsy (r : JsObj.lookup Points) : bool :=
  match r with
  | JsObj.Own (PNum z) => z =? 0
  | JsObj.Own (PText t) => String.eqb t ""
  | JsObj.Inherited => false
  | JsObj.Missing => true
  end.

(** Body of the [forEach] over [rewardHistory]:
    [if (!userPoints[u]) userPoints[u] = 0; userPoints[u] += reward.points || 0].
    The second read finds the own property, if need be the one that the
    [if] has just created, or an inherited member, never nothing. *)
Definition addReward (userPoints : JsObj.t Points) (reward : RewardEntry.t)
  : JsObj.t Points :=
  let u := RewardEntry.userId reward in
  let p := orElse (RewardEntry.points reward) 0 in
  let userPoints1 :=
    if falsy (JsObj.read userPoints u)
    then JsObj.assign userPoints u (PNum 0)
    else userPoints in
  match JsObj.read userPoints1 u with
  | JsObj.Own (PNum v) => JsObj.assign userPoints1 u (PNum (v + p))
  | JsObj.Own (PText t) => JsObj.assign userPoints1 u (PText (t ++ showZ p))
  | JsObj.Inherited =>
      JsObj.assign userPoints1 u (PText (inheritedText u ++ showZ p))
  | JsObj.Missing => userPoints1
  end.

Definition groupPoints (history : list RewardEntry.t) : JsObj.t Points :=
  fold_left addReward history JsObj.empty.

(** A stable sort by descending number. *)
Fixpoint insertDesc (e : string * Z) (l : list (string * Z))
  : list (string * Z) :=
  match l with
  | [] => [e]
  | e' :: r =>
      if snd e' <=? snd e then e :: e' :: r else e' :: insertDesc e r
  end.

Definition sortDesc (l : list (string * Z)) : list (string * Z) :=
  fold_right insertDesc [] l.

(** The entries as numbers, when every value is one. *)
Fixpoint numericEntries (l : list (string * Points))
  : option (list (string * Z)) :=
  match l with
  | [] => Some []
  | (k, PNum z) :: r =>
      match numericEntries r with
      | Some nr => Some ((k, z) :: nr)
      | None => None
      end
  | (_, PText _) :: _ => None
  end.

Definition shown (e : string * Z) : string * Points := (fst e, PNum (snd e)).

(** [sort(([,a], [,b]) => b - a)].  On numbers the comparator is
    consistent and the sort, which is stable, puts larger totals first.
    With a text value [b - a] is [NaN]: a single entry is never compared,
    and for more entries the order depends on the sorting algorithm of
    the engine and is left undetermined ([None]). *)
Definition sortEntries (l : list (string * Points))
  : option (list (string * Points)) :=
  match numericEntries l with
  | Some nl => Some (map shown (sortDesc nl))
  | None =>
      match l with
      | [] | [_] => Some l
      | _ :: _ :: _ => None
      end
  end.

(** [arr.slice(0, limit)] *)
Definition slice0 {A} (l : list A) (limit : Js.num) : list A :=
  let len := Z.of_nat (length l) in
  let stop :=
    match limit with
    | Js.NaN => 0
    | Js.Fin z => if z <? 0 then Z.max (len + z) 0 else Z.min z len
    end in
  firstn (Z.to_nat stop) l.

Fixpoint mapIndexed {A B} (f : A -> Z -> B) (l : list A) (index : Z) : list B :=
  match l with
  | [] => []
  | x :: r => f x index :: mapIndexed f r (index + 1)
  end.

Definition badgeCount (s : Store) (userId : string) : Z :=
  Z.of_nat (length (filter (fun b => String.eqb (UserBadge.userId b) userId)
                           (userBadges s))).

(** The callback of the final [map]: [([userId, points], index) => ...]. *)
Definition toRow (s : Store) (e : string * Points) (index : Z)
  : LeaderboardRow :=
  mkRow (index + 1) (fst e) (snd e) (badgeCount s (fst e)).

(** [None] where the order of the rows is not determined (see
    [sortEntries]). *)
Definition generateLeaderboard (s : Store) (type : string) (limit : Js.num)
  : option (list LeaderboardRow) :=
  let userPoints := groupPoints (rewardHistory s) in
  match sortEntries (JsObj.entries userPoints) with
  | Some sorted => Some (mapIndexed (toRow s) (slice0 sorted limit) 0)
  | None => None
  end.

(** *** The board over plain user ids *)

(** [addReward] on sums alone: what it does when the user id is a plain
    key, where every read finds a number or nothing. *)
Definition addTotal (userPoints : JsObj.t Z) (reward : RewardEntry.t)
  : JsObj.t Z :=
  let u := RewardEntry.userId reward in
  let userPoints1 :=
    match JsObj.get userPoints u with
    | Some v => if v =? 0 then JsObj.set userPoints u 0 else userPoints
    | None => JsObj.set userPoints u 0
    end in
  match JsObj.get userPoints1 u with
  | Some v => JsObj.set userPoints1 u (v + orElse (RewardEntry.points reward) 0)
  | None => userPoints1
  end.

Definition totalsByUser (history : list RewardEntry.t) : JsObj.t Z :=
  fold_left addTotal history JsObj.empty.

(** The sorted and cut entries of [totalsByUser]. *)
Definition ranked (s : Store) (limit : Js.num) : list (string * Z) :=
  slice0 (sortDesc (JsObj.entries (totalsByUser (rewardHistory s)))) limit.

(** ** POST /:userId/redeem *)

Inductive RedeemResponse : Type :=
| RedeemError (status : Z) (error : string) (amounts : option (Z * Z))
| RedeemOk (redemption : RewardEntry.t) (remainingPoints : Z).

Definition NotFoundError : RedeemResponse :=
  RedeemError 404 "Reward not found" None.
(** The body carries [required] and [current]. *)
Definition InsufficientPointsError (required current : Z) : RedeemResponse :=
  RedeemError 400 "Insufficient points" (Some (required, current)).
(** The answer of the handler's [catch]. *)
Definition RedeemServerError : RedeemResponse :=
  RedeemError 500 "Internal server error" None.

(** A call [f(x)] of an identifier of the module scope: an unbound
    identifier ([None]) throws a [ReferenceError]. *)
Definition callIn {A B} (binding : option (A -> B)) (x : A) : M B :=
  match binding with
  | Some f => ret (f x)
  | None => throw
  end.

Section Redeem.

(** What the module scope binds [getRewardById] to.  The handler reads
    [pointsRequired] and [name] of the object that the call returns. *)
Variable binding : option (string -> option Reward.t).

(** The [try] block of the handler. *)
Definition redeemBody (userId rewardId : string) : M RedeemResponse :=
  s <- getStore ;;
  let userPoints := calculateTotalPoints s userId in
  found <- callIn binding rewardId ;;
  match found with
  | None => ret NotFoundError
  | Some reward =>
      if userPoints <? Reward.pointsRequired reward
      then ret (InsufficientPointsError (Reward.pointsRequired reward) userPoints)
      else
        id <- freshUuid ;;
        env <- ask ;;
        let redemption :=
          RewardEntry.Redemption id userId rewardId
            (Reward.name reward) (Reward.pointsRequired reward)
            (nowIso env) "claimed" in
        putStore (mkStore (userStreaks s) (userBadges s)
                    (rewardHistory s ++ [redemption]) (dailyHabits s)) ;;;
        ret (RedeemOk redemption (userPoints - Reward.pointsRequired reward))
  end.

(** The handler under a given module scope. *)
Definition redeemIn (env : Env) (userId rewardId : string) (s : Store)
  : RedeemResponse * Store :=
  match redeemBody userId rewardId env 0%nat s with
  | (Some response, _, s') => (response, s')
  | (None, _, s') => (RedeemServerError, s')
  end.

End Redeem.

(** The router's file declares no [getRewardById] and none of its three
    [require]s imports one. *)
Definition getRewardById : option (string -> option Reward.t) := None.

(** The route as the module has it. *)
Definition redeem (env : Env) (userId rewardId : string) (s : Store)
  : RedeemResponse * Store :=
  redeemIn getRewardById env userId rewardId s.

(** ** Sequences of requests *)

Definition envAt (day : Z) : Env :=
  mkEnv day "2024-01-01T00:00:00.000Z" (fun k => "uuid").

Definition logReq (u t : string) (c : Js.value) : LogRequest :=
  mkLogRequest (Some u) (Some t) c Js.VUndefined.

(** Serves the requests one after the other. *)
Fixpoint runLogs (reqs : list (Env * LogRequest)) (s : Store)
  : list LogResponse * Store :=
  match reqs with
  | [] => ([], s)
  | er :: r =>
      let out := logActivity (fst er) (snd er) s in
      let rest := runLogs r (snd out) in
      (fst out :: fst rest, snd rest)
  end.

(** The activity type of a request, when there is one, is a plain key of
    the streak counters and of the points table. *)
Definition plainRequest (req : LogRequest) : bool :=
  match req_activityType req with
  | Some t => JsObj.plain t
  | None => true
  end.

Definition plainRequests (reqs : list (Env * LogRequest)) : bool :=
  forallb (fun er => plainRequest (snd er)) reqs.

(** One request per day by the same user for the same activity. *)
Definition dailyLogs (u t : string) (c : Js.value) (days : list Z)
  : list (Env * LogRequest) :=
  map (fun d => (envAt d, logReq u t c)) days.

(** ** Reading the streak counters *)

Definition freshRecord (env : Env) (u : string) : UserStreak.t :=
  UserStreak.mk u initialCounters initialCounters (nowIso env).

(** [userStreaks.find(streak => streak.userId === userId)] *)
Definition recordOf (s : Store) (u : string) : option UserStreak.t :=
  find (ofUser u) (userStreaks s).

(** The record a request works on: the one found, or the one that
    [initializeUserStreak] creates. *)
Definition baseRecord (env : Env) (s : Store) (u : string) : UserStreak.t :=
  match recordOf s u with
  | Some r => r
  | None => freshRecord env u
  end.

(** [streaks[t]] and [longestStreaks[t]] of the user's record, with the
    lazily created record standing for a missing one. *)
Definition streakOf (s : Store) (u t : string) : option Js.num :=
  JsObj.get (UserStreak.streaks (baseRecord (envAt 0) s u)) t.

Definition longestOf (s : Store) (u t : string) : option Js.num :=
  JsObj.get (UserStreak.longestStreaks (baseRecord (envAt 0) s u)) t.

(** [longestStreaks[t] >= streaks[t]] as JavaScript evaluates it. *)
Definition longestCoversStreak (s : Store) (u t : string) : bool :=
  Js.geb (Js.toNumber (longestOf s u t)) (Js.toNumber (streakOf s u t)).

(** The record after the assignments of [updateStreak]. *)
Definition advance (env : Env) (s : Store) (u t : string) (completed : bool)
  (base : UserStreak.t) : UserStreak.t :=
  let continued :=
    completedLog (find (sameLogKey u t (yesterday env)) (dailyHabits s)) in
  let streaks' := nextStreaks (UserStreak.streaks base) t completed continued in
  UserStreak.mk (UserStreak.userId base) streaks'
    (nextLongest streaks' (UserStreak.longestStreaks base) t completed)
    (nowIso env).

(** What [awardBadge] and the badge check may do to the arrays: append to
    [userBadges], nothing else. *)
Definition badgesGrow (s s' : Store) : Prop :=
  userStreaks s' = userStreaks s /\
  rewardHistory s' = rewardHistory s /\
  dailyHabits s' = dailyHabits s /\
  exists extra, userBadges s' = userBadges s ++ extra.

(** Where [updateStreak] leaves the record it worked on: at the position
    of the record found, or at the end when it was created. *)
Definition storeRecord (l : list UserStreak.t) (u : string) (r : UserStreak.t)
  : list UserStreak.t :=
  match findRef (ofUser u) l with
  | Some (i, _) => writeAt i r l
  | None => l ++ [r]
  end.

(** The log that an accepted request creates. *)
Definition newLog (env : Env) (u t : string) (completed metrics : Js.value)
  : ActivityLog.t :=
  ActivityLog.mk (uuidv4 env 0%nat) u t (today env)
    (Js.notStrictlyFalse completed)
    (if Js.truthy metrics then metrics else Js.VObject [])
    (nowIso env).

(** The three ways in which POST /log-activity ends, as a relation between
    the arrays before and the response and arrays after. *)
Inductive LogOutcome (env : Env) (req : LogRequest) (s : Store)
  : LogResponse -> Store -> Prop :=
| OutInvalid :
    Js.truthyStr (req_userId req) && Js.truthyStr (req_activityType req) = false ->
    LogOutcome env req s ValidationError s
| OutDuplicate u t old :
    req_userId req = Some u -> req_activityType req = Some t ->
    u <> "" -> t <> "" ->
    find (sameLogKey u t (today env)) (dailyHabits s) = Some old ->
    LogOutcome env req s DuplicateLogError s
| OutLogged u t r' newBadges extra pointsAwarded entries :
    req_userId req = Some u -> req_activityType req = Some t ->
    u <> "" -> t <> "" ->
    find (sameLogKey u t (today env)) (dailyHabits s) = None ->
    r' = advance env s u t (Js.notStrictlyFalse (req_completed req))
           (baseRecord env s u) ->
    (if Js.truthy (req_completed req)
     then pointsAwarded = orElse (JsObj.get activityPoints t) 5 /\
          exists id, entries =
            [RewardEntry.Award id u t pointsAwarded (nowIso env)]
     else pointsAwarded = 0 /\ entries = []) ->
    LogOutcome env req s
      (LogOk (newLog env u t (req_completed req) (req_metrics req))
         (mkStreakUpdate t
            (JsObj.get (UserStreak.streaks r') t)
            (JsObj.get (UserStreak.longestStreaks r') t))
         newBadges pointsAwarded)
      (mkStore (storeRecord (userStreaks s) u r')
               (userBadges s ++ extra)
               (rewardHistory s ++ entries)
               (dailyHabits s ++ [newLog env u t (req_completed req)
                                    (req_metrics req)])).

(** The activity types whose counters [initializeUserStreak] creates. *)
Definition listedTypes : list string := map fst initialCounters.

(** Both counters of a listed type are integers and the longest streak is
    at least the current one. *)
Definition countersOk (r : UserStreak.t) : Prop :=
  forall t, In t listedTypes ->
    exists a b,
      JsObj.get (UserStreak.streaks r) t = Some (Js.Fin a) /\
      JsObj.get (UserStreak.longestStreaks r) t = Some (Js.Fin b) /\
      0 <= a <= b.

(** The records that do not belong to [u], in array order. *)
Definition recordsOfOthers (s : Store) (u : string) : list UserStreak.t :=
  filter (fun r => negb (ofUser u r)) (userStreaks s).

(** ** Points awarded according to the responses *)

Definition sumZ (l : list Z) : Z := fold_right Z.add 0 l.

(** [pointsAwarded] of a response to a request of user [u]. *)
Definition pointsOfResponse (u : string) (resp : LogResponse) : Z :=
  match resp with
  | LogOk log _ _ pointsAwarded =>
      if String.eqb (ActivityLog.userId log) u then pointsAwarded else 0
  | LogError _ _ => 0
  end.

(** The point value that the catalogue lists for a badge id. *)
Definition catalogPoints (badgeId : string) : Z :=
  match find (fun e => String.eqb (fst e) badgeId)
             (flat_map snd BADGES) with
  | Some (_, b) => Badge.points b
  | None => 0
  end.

Definition badgePointsOfResponse (u : string) (resp : LogResponse) : Z :=
  match resp with
  | LogOk log _ newBadges _ =>
      if String.eqb (ActivityLog.userId log) u
      then sumZ (map (fun b => match b with
                               | Some ub => catalogPoints (UserBadge.badgeId ub)
                               | None => 0
                               end) newBadges)
      else 0
  | LogError _ _ => 0
  end.

(** The total as the specification words it: activity points plus the
    catalogue value of every badge awarded. *)
Definition claimedTotal (u : string) (resps : list LogResponse) : Z :=
  sumZ (map (fun r => pointsOfResponse u r + badgePointsOfResponse u r) resps).

(** Number of [UserBadge] records that [u] holds for [badgeId]. *)
Definition badgesHeld (s : Store) (u badgeId : string) : nat :=
  length (filter (fun b => String.eqb (UserBadge.userId b) u
                           && String.eqb (UserBadge.badgeId b) badgeId)
                 (userBadges s)).

(** [calculateTotalPoints] on a given ledger. *)
Definition ledgerTotal (history : list RewardEntry.t) (userId : string) : Z :=
  fold_left (fun total reward => total + orElse (RewardEntry.points reward) 0)
    (filter (fun reward => String.eqb (RewardEntry.userId reward) userId) history)
    0.

(** An entry as [awardPoints] pushes it for a completed activity. *)
Definition activityEntry (e : RewardEntry.t) : Prop :=
  exists id u t awardedAt,
    e = RewardEntry.Award id u t (orElse (JsObj.get activityPoints t) 5) awardedAt.

(** ** Reading the leaderboard *)

Definition ledgerUsers (s : Store) : list string :=
  map RewardEntry.userId (rewardHistory s).

Definition distinctUsers (s : Store) : list string :=
  nodup string_dec (ledgerUsers s).

(** Every user of the ledger is a plain key of [userPoints]. *)
Definition plainUsers (s : Store) : bool :=
  forallb JsObj.plain (ledgerUsers s).



(** [userPoints[u]] read as a number, 0 when absent. *)
Definition pointsOr0 (o : option Z) : Z :=
  match o with
  | Some v => v
  | None => 0
  end.

Definition mentions (u : string) (history : list RewardEntry.t) : bool :=
  existsb (fun e => String.eqb (RewardEntry.userId e) u) history.

(** A week of logs by three users: "ann" earns 100 points, "bob" 50 and
    "cat" 75. *)
Definition threeUserWeek : list (Env * LogRequest) :=
  dailyLogs "ann" "workout" (Js.VBool true) [1; 2; 3; 4; 5]
  ++ dailyLogs "bob" "workout" (Js.VBool true) [1; 2]
  ++ dailyLogs "bob" "healthy-eating" (Js.VBool true) [1]
  ++ dailyLogs "cat" "workout" (Js.VBool true) [1; 2; 3]
  ++ dailyLogs "cat" "supplement-consistency" (Js.VBool true) [1].

(** Rank, user and points of a row. *)
Definition standing (row : LeaderboardRow) : Z * string * Points :=
  (rank row, row_userId row, row_points row).

(** ** Streak arithmetic *)

(** The value that [updateStreak] gives [streaks[activityType]]. *)
Definition stepStreak (completed continued : bool) (old : option Js.num)
  : Js.num :=
  if completed then
    if continued then Js.add (Js.toNumber old) (Js.Fin 1) else Js.Fin 1
  else Js.Fin 0.

(** [longestStreaks[activityType]] after [updateStreak], [current] being
    the new streak. *)
Definition stepLongest (completed : bool) (current : Js.num)
  (old : option Js.num) : option Js.num :=
  if completed && Js.gtb current (Js.toNumber old) then Some current else old.

(** A longest streak after a run of [n] days: raised to [n] when it is a
    number, left alone when it is [undefined] or [NaN]. *)
Definition raisedTo (old : option Js.num) (n : Z) : option Js.num :=
  match old with
  | Some (Js.Fin b) => Some (Js.Fin (Z.max b n))
  | _ => old
  end.

(** [n] consecutive days from [start] on. *)
Definition days (start : Z) (n : nat) : list Z :=
  map (fun k => start + Z.of_nat k) (seq 0 n).

Definition sameActivity (u t : string) (log : ActivityLog.t) : bool :=
  String.eqb (ActivityLog.userId log) u
  && String.eqb (ActivityLog.activityType log) t.

(** The state of (u, t) after a run of [k] completed days ending on day
    [d], [before] being the longest streak when the run began. *)
Definition inRun (u t : string) (before : option Js.num) (s : Store)
  (d k : Z) : Prop :=
  streakOf s u t = Some (Js.Fin k) /\
  longestOf s u t = raisedTo before k /\
  (exists log, find (sameLogKey u t d) (dailyHabits s) = Some log /\
               ActivityLog.completed log = true) /\
  (forall log, In log (dailyHabits s) -> sameActivity u t log = true ->
               ActivityLog.date log <= d).

(** ** The badge check, spelled out *)

(** The record that [awardBadge] pushes for a badge id it resolves, the
    k-th uuid of the request being its id. *)
Definition badgeRecord (env : Env) (k : nat) (u badgeId : string) : UserBadge.t :=
  UserBadge.mk (uuidv4 env k) u badgeId None None None (nowIso env).

(** The badge ids that one streak counter makes [checkForNewBadges] award,
    [earned] being the badges held when the check began. *)
Definition entryAwards (earned : list UserBadge.t) (streak : Js.num)
  : list string :=
  (if Js.geb streak (Js.Fin 7) && negb (hasBadge "7-day-streak" earned)
   then ["7-day-streak"] else [])
  ++ (if Js.geb streak (Js.Fin 30) && negb (hasBadge "30-day-streak" earned)
      then ["30-day-streak"] else []).

Definition earnedBy (s : Store) (u : string) : list UserBadge.t :=
  filter (fun b => String.eqb (UserBadge.userId b) u) (userBadges s).

(** All badge ids that a check for [u] awards, in the order of the calls
    of [awardBadge]. *)
Definition dueBadges (s : Store) (u : string) (userStreak : UserStreak.t)
  : list string :=
  flat_map (fun e => entryAwards (earnedBy s u) (snd e))
           (JsObj.entries (UserStreak.streaks userStreak))
  ++ (if (7 <=? length (filter (isNutritionActivity u) (dailyHabits s)))%nat
      then ["healthy-eating"] else []).

(** The records pushed for a list of badge ids, uuids counted from [k]. *)
Fixpoint mint (env : Env) (u : string) (k : nat) (ids : list string)
  : list UserBadge.t :=
  match ids with
  | [] => []
  | b :: r => badgeRecord env k u b :: mint env u (S k) r
  end.

(** ** POST /log-activity, spelled out *)

Definition withStreaks (s : Store) (l : list UserStreak.t) : Store :=
  mkStore l (userBadges s) (rewardHistory s) (dailyHabits s).

Definition withBadges (s : Store) (extra : list UserBadge.t) : Store :=
  mkStore (userStreaks s) (userBadges s ++ extra) (rewardHistory s)
          (dailyHabits s).

Definition withLedger (s : Store) (entries : list RewardEntry.t) : Store :=
  mkStore (userStreaks s) (userBadges s) (rewardHistory s ++ entries)
          (dailyHabits s).

Definition withLog (s : Store) (log : ActivityLog.t) : Store :=
  mkStore (userStreaks s) (userBadges s) (rewardHistory s)
          (dailyHabits s ++ [log]).

(** Response and arrays of an accepted log, step by step: the log is
    pushed, the streak record advanced and stored, the due badges minted
    with the uuids after the log's, and the points entry pushed last. *)
Definition accepted (env : Env) (u t : string) (completed metrics : Js.value)
  (s : Store) : LogResponse * Store :=
  let log := newLog env u t completed metrics in
  let r' := advance env s u t (Js.notStrictlyFalse completed)
              (baseRecord env s u) in
  let s2 := withStreaks (withLog s log) (storeRecord (userStreaks s) u r') in
  let ids := dueBadges s2 u r' in
  let minted := mint env u 1%nat ids in
  let s3 := withBadges s2 minted in
  let points := orElse (JsObj.get activityPoints t) 5 in
  let streakUpdate :=
    mkStreakUpdate t (JsObj.get (UserStreak.streaks r') t)
                     (JsObj.get (UserStreak.longestStreaks r') t) in
  if Js.truthy completed
  then (LogOk log streakUpdate (map Some minted) points,
        withLedger s3 [RewardEntry.Award (uuidv4 env (S (length ids))) u t points
                                         (nowIso env)])
  else (LogOk log streakUpdate (map Some minted) 0, s3).

(** ** GET /:userId/streaks *)

(** [userStreaks.find(streak => streak.userId === userId) ||
     initializeUserStreak(userId)], the record that the route reports. *)
Definition userStreakFor (userId : string) : M UserStreak.t :=
  s <- getStore ;;
  match find (ofUser userId) (userStreaks s) with
  | Some userStreak => ret userStreak
  | None => r <- initializeUserStreak userId ;; ret (snd r)
  end.

(** The result of [Math.max]: a number or, without arguments, -Infinity. *)
Inductive MaxResult : Type :=
| NegInfinity
| Number (n : Js.num).

(** [Math.max(...values)]: [NaN] as soon as one argument is [NaN]. *)
Definition mathMax (values : list Js.num) : MaxResult :=
  fold_left
    (fun acc x =>
       match acc, x with
       | Number Js.NaN, _ => Number Js.NaN
       | _, Js.NaN => Number Js.NaN
       | NegInfinity, Js.Fin z => Number (Js.Fin z)
       | Number (Js.Fin a), Js.Fin z => Number (Js.Fin (Z.max a z))
       end)
    values NegInfinity.

(** A number inside a template literal; integers print in decimal (the
    counters stay far below 10^21, where JavaScript changes notation). *)
Definition showNumber (m : MaxResult) : string :=
  match m with
  | NegInfinity => "-Infinity"
  | Number Js.NaN => "NaN"
  | Number (Js.Fin z) => NilZero.string_of_int (Z.to_int z)
  end.

(** [m === 0] *)
Definition isZero (m : MaxResult) : bool :=
  match m with
  | Number (Js.Fin z) => z =? 0
  | _ => false
  end.

(** [m < n] for an integer [n]. *)
Definition below (m : MaxResult) (n : Z) : bool :=
  match m with
  | NegInfinity => true
  | Number (Js.Fin z) => z <? n
  | Number Js.NaN => false
  end.

Definition startMessage : string :=
  "Every journey begins with a single step! Start your health streak today!".

Definition generateMotivationalMessage (userStreak : UserStreak.t) : string :=
  let currentStreak := mathMax (JsObj.values (UserStreak.streaks userStreak)) in
  if isZero currentStreak then startMessage
  else if below currentStreak 7 then
    ("Great start! You're on a " ++ showNumber currentStreak
       ++ "-day streak. Keep going!")%string
  else if below currentStreak 30 then
    ("Amazing! " ++ showNumber currentStreak
       ++ " days strong! You're building great habits.")%string
  else
    ("Incredible! " ++ showNumber currentStreak
       ++ " days of consistency! You're an inspiration!")%string.

(** ** The stores that requests can produce *)

(** Starting from the empty arrays, any sequence of the three routes that
    write: POST /log-activity, POST /:userId/redeem and
    GET /:userId/streaks.  The redeem route is taken under every module
    scope: with [getRewardById] unbound, as it is, where the route changes
    nothing, and with any lookup bound to it. *)
Inductive Reachable : Store -> Prop :=
| ReachEmpty : Reachable emptyStore
| ReachLog env req s :
    Reachable s -> Reachable (snd (logActivity env req s))
| ReachRedeem binding env userId rewardId s :
    Reachable s -> Reachable (snd (redeemIn binding env userId rewardId s))
| ReachStreaks env userId s :
    Reachable s -> Reachable (snd (userStreakFor userId env 0%nat s)).

(** (userId, activityType, date) of a log. *)
Definition logKey (log : ActivityLog.t) : string * string * Z :=
  (ActivityLog.userId log, ActivityLog.activityType log, ActivityLog.date log).

(** Every counter of the object is a non-negative integer. *)
Definition wholeCounters (o : JsObj.t Js.num) : Prop :=
  forall k v, In (k, v) o -> exists a, v = Js.Fin a /\ 0 <= a.

Definition recordWhole (r : UserStreak.t) : Prop :=
  wholeCounters (UserStreak.streaks r) /\
  wholeCounters (UserStreak.longestStreaks r).

(** The record of a user has a counter for every activity type the user
    has logged. *)
Definition loggedTypesKnown (s : Store) : Prop :=
  forall log, In log (dailyHabits s) ->
    JsObj.get (UserStreak.streaks (baseRecord (envAt 0) s (ActivityLog.userId log)))
              (ActivityLog.activityType log) <> None.

Definition uniqueKeys (r : UserStreak.t) : Prop :=
  NoDup (map fst (UserStreak.streaks r)).

(** Number of counters of the object that are at least [n]. *)
Definition countAtLeast (n : Z) (o : list (string * Js.num)) : nat :=
  length (filter (fun e => Js.geb (snd e) (Js.Fin n)) o).

(** The guard of a streak badge as it shows in the arrays: the badge is
    held at most once, and it is held whenever a counter of the user's
    record has reached the threshold. *)
Definition streakBadgeKept (s : Store) (u : string) (n : Z) (badgeId : string)
  : Prop :=
  (badgesHeld s u badgeId <= 1)%nat /\
  (forall k v, In (k, v) (UserStreak.streaks (baseRecord (envAt 0) s u)) ->
               Js.geb v (Js.Fin n) = true ->
               badgesHeld s u badgeId = 1%nat).

(** The badge ids of the catalogue, all categories together. *)
Definition catalogueIds : list string :=
  flat_map (fun category => map fst (snd category)) BADGES.




(** * Properties *)

(** ** Objects *)

Section ObjFacts.
Context {V : Type}.
Implicit Types (o : JsObj.t V) (k : string) (v : V).

Lemma get_set_same o k v : JsObj.get (JsObj.set o k v) k = Some v.
  Proof.
    induction o as [|[k' v'] r IH]; simpl.
    - now rewrite String.eqb_refl.
    - destruct (String.eqb k' k) eqn:E; simpl; rewrite E; auto.
  Qed.

Lemma get_set_other o k k' v :
    k <> k' -> JsObj.get (JsObj.set o k v) k' = JsObj.get o k'.
  Proof.
    intros Hne. induction o as [|[k0 v0] r IH]; simpl.
    - destruct (String.eqb k k') eqn:E; auto.
      apply String.eqb_eq in E. contradiction.
    - destruct (String.eqb k0 k) eqn:E; simpl.
      + apply String.eqb_eq in E. subst k0.
        destruct (String.eqb k k') eqn:E'; auto.
        apply String.eqb_eq in E'. contradiction.
      + destruct (String.eqb k0 k'); auto.
  Qed.
End ObjFacts.

(** ** Objects as lists of entries *)

Section ObjEntries.
Context {V : Type}.
Implicit Types (o : JsObj.t V) (k : string) (v : V).

Lemma set_keys o k v k' :
  In k' (map fst (JsObj.set o k v)) <-> In k' (map fst o) \/ k' = k.
Proof.
  induction o as [|[k0 v0] r IH]; simpl.
  - intuition.
  - destruct (String.eqb k0 k) eqn:E; simpl.
    + apply String.eqb_eq in E. subst. intuition.
    + rewrite IH. intuition.
Qed.

Lemma set_nodup o k v :
  NoDup (map fst o) -> NoDup (map fst (JsObj.set o k v)).
Proof.
  induction o as [|[k0 v0] r IH]; simpl; intros H.
  - constructor; [intros []|constructor].
  - inversion H as [|? ? Hn Hr]; subst.
    destruct (String.eqb k0 k) eqn:E; simpl.
    + now constructor.
    + constructor; auto. rewrite set_keys. intros [? | ->]; auto.
      now rewrite String.eqb_refl in E.
Qed.

Lemma get_some_in o k v : JsObj.get o k = Some v -> In (k, v) o.
Proof.
  induction o as [|[k0 v0] r IH]; simpl; [discriminate|].
  destruct (String.eqb k0 k) eqn:E; intros H.
  - apply String.eqb_eq in E. inversion H; subst. now left.
  - right. auto.
Qed.

Lemma in_get_some o k v :
  NoDup (map fst o) -> In (k, v) o -> JsObj.get o k = Some v.
Proof.
  induction o as [|[k0 v0] r IH]; simpl; intros Hn H; [contradiction|].
  destruct H as [H|H].
  - inversion H; subst. now rewrite String.eqb_refl.
  - inversion Hn as [|? ? Hk Hr]; subst.
    destruct (String.eqb k0 k) eqn:E; auto.
    apply String.eqb_eq in E. subst. exfalso. apply Hk.
    change k with (fst (k, v)). now apply in_map.
Qed.

Lemma insertIdx_perm (e : N * (string * V)) l :
  Permutation (JsObj.insertIdx e l) (e :: l).
Proof.
  induction l as [|e' r IH]; simpl; auto.
  destruct (fst e <=? fst e')%N; auto.
  rewrite IH. apply perm_swap.
Qed.

Lemma sortIdx_perm (l : list (N * (string * V))) :
  Permutation (fold_right JsObj.insertIdx [] l) l.
Proof.
  induction l as [|e r IH]; simpl; auto.
  rewrite insertIdx_perm. now constructor.
Qed.

Lemma entries_perm o : Permutation (JsObj.entries o) o.
Proof.
  unfold JsObj.entries. rewrite sortIdx_perm.
  unfold JsObj.indexed, JsObj.named.
  induction o as [|[k v] r IH]; simpl; auto.
  destruct (JsObj.arrayIndex k); simpl.
  - now constructor.
  - rewrite <- Permutation_middle. now constructor.
Qed.
End ObjEntries.

(** ** Arrays *)

Section ArrayFacts.
Context {A : Type}.
Implicit Types (p q : A -> bool) (l : list A).

Lemma findRef_find p l :
    find p l = match findRef p l with Some (_, x) => Some x | None => None end.
  Proof.
    induction l as [|y r IH]; simpl; auto.
    destruct (p y); auto. rewrite IH. now destruct (findRef p r) as [[i x]|].
  Qed.

Lemma findRef_sound p l i x :
    findRef p l = Some (i, x) -> nth_error l i = Some x /\ p x = true.
  Proof.
    revert i. induction l as [|y r IH]; simpl; intros i H; [discriminate|].
    destruct (p y) eqn:E.
    - inversion H; subst. auto.
    - destruct (findRef p r) as [[j z]|]; [|discriminate].
      inversion H; subst. simpl. now apply IH.
  Qed.

Lemma find_writeAt_same p l i x x' :
    findRef p l = Some (i, x) -> p x' = true ->
    find p (writeAt i x' l) = Some x'.
  Proof.
    revert i. induction l as [|y r IH]; simpl; intros i H Hx'; [discriminate|].
    destruct (p y) eqn:E.
    - inversion H; subst. simpl. now rewrite Hx'.
    - destruct (findRef p r) as [[j z]|] eqn:F; [|discriminate].
      inversion H; subst. simpl. rewrite E. now apply IH.
  Qed.

Lemma filter_writeAt_other q l i x x' :
    nth_error l i = Some x -> q x = false -> q x' = false ->
    filter q (writeAt i x' l) = filter q l.
  Proof.
    revert i. induction l as [|y r IH]; intros [|j] H Hx Hx'; simpl in *;
      try discriminate.
    - inversion H; subst. now rewrite Hx, Hx'.
    - erewrite IH; eauto.
  Qed.

Lemma writeAt_length l x x' : writeAt (length l) x' (l ++ [x]) = l ++ [x'].
  Proof. induction l; simpl; congruence. Qed.

Lemma find_snoc p l x :
    find p (l ++ [x]) =
    match find p l with Some y => Some y | None => if p x then Some x else None end.
  Proof.
    induction l as [|y r IH]; simpl; auto. destruct (p y); auto.
  Qed.

Lemma filter_snoc q l x :
    filter q (l ++ [x]) = filter q l ++ (if q x then [x] else []).
  Proof. rewrite filter_app. reflexivity. Qed.
End ArrayFacts.

(** ** Running the handler monad *)

Lemma bind_run {A B} (m : M A) (f : A -> M B) env k s a k' s' :
  m env k s = (Some a, k', s') -> bind m f env k s = f a env k' s'.
Proof. unfold bind. now intros ->. Qed.

Lemma badgesGrow_refl s : badgesGrow s s.
Proof. repeat split; auto. exists []. now rewrite app_nil_r. Qed.

Lemma badgesGrow_trans s1 s2 s3 :
  badgesGrow s1 s2 -> badgesGrow s2 s3 -> badgesGrow s1 s3.
Proof.
  intros (A1 & B1 & C1 & e1 & D1) (A2 & B2 & C2 & e2 & D2).
  repeat split; try congruence.
  exists (e1 ++ e2). rewrite D2, D1. now rewrite app_assoc.
Qed.

Lemma awardBadge_run u b env k s :
  exists r k' s', awardBadge u b env k s = (Some r, k', s') /\ badgesGrow s s'.
Proof.
  unfold awardBadge. destruct (negb (Js.truthyStr (resolveBadge b))).
  - exists None, k, s. split; [reflexivity | apply badgesGrow_refl].
  - eexists _, _, _. split; [reflexivity|].
    repeat split; simpl; auto. eexists; reflexivity.
Qed.

Lemma checkStreakEntry_run u earned nb e env k s :
  exists r k' s',
    checkStreakEntry u earned nb e env k s = (Some r, k', s') /\ badgesGrow s s'.
Proof.
  unfold checkStreakEntry.
  destruct (Js.geb (snd e) (Js.Fin 7) && negb (hasBadge "7-day-streak" earned)).
  - destruct (awardBadge_run u "7-day-streak" env k s) as (r1 & k1 & s1 & E1 & G1).
    destruct (Js.geb (snd e) (Js.Fin 30) && negb (hasBadge "30-day-streak" earned)).
    + destruct (awardBadge_run u "30-day-streak" env k1 s1) as (r2 & k2 & s2 & E2 & G2).
      eexists _, _, _. split.
      * erewrite bind_run; [|erewrite bind_run; [reflexivity|exact E1]].
        erewrite bind_run; [reflexivity|exact E2].
      * eapply badgesGrow_trans; eauto.
    + eexists _, _, _. split.
      * erewrite bind_run; [|erewrite bind_run; [reflexivity|exact E1]].
        reflexivity.
      * exact G1.
  - destruct (Js.geb (snd e) (Js.Fin 30) && negb (hasBadge "30-day-streak" earned)).
    + destruct (awardBadge_run u "30-day-streak" env k s) as (r2 & k2 & s2 & E2 & G2).
      eexists _, _, _. split.
      * erewrite bind_run; [|reflexivity].
        erewrite bind_run; [reflexivity|exact E2].
      * exact G2.
    + eexists _, _, _. split; [reflexivity | apply badgesGrow_refl].
Qed.

Lemma forEachEntry_run u earned es :
  forall nb env k s,
  exists r k' s',
    forEachEntry u earned es nb env k s = (Some r, k', s') /\ badgesGrow s s'.
Proof.
  induction es as [|e es IH]; intros nb env k s; simpl.
  - exists nb, k, s. split; [reflexivity | apply badgesGrow_refl].
  - destruct (checkStreakEntry_run u earned nb e env k s) as (r1 & k1 & s1 & E1 & G1).
    destruct (IH r1 env k1 s1) as (r2 & k2 & s2 & E2 & G2).
    exists r2, k2, s2. split.
    + erewrite bind_run; eauto.
    + eapply badgesGrow_trans; eauto.
Qed.

Lemma checkForNewBadges_run u env k s r0 :
  recordOf s u = Some r0 ->
  exists r k' s',
    checkForNewBadges u env k s = (Some r, k', s') /\ badgesGrow s s'.
Proof.
  intros Hrec. unfold checkForNewBadges, recordOf in *.
  unfold bind at 1. unfold getStore at 1. rewrite Hrec.
  match goal with |- context [forEachEntry u ?e ?es ?nb] =>
    destruct (forEachEntry_run u e es nb env k s) as (r1 & k1 & s1 & E1 & G1)
  end.
  erewrite bind_run; [|exact E1].
  unfold bind at 1. unfold getStore at 1.
  destruct (7 <=? length (filter (isNutritionActivity u) (dailyHabits s1)))%nat.
  - destruct (awardBadge_run u "healthy-eating" env k1 s1) as (r2 & k2 & s2 & E2 & G2).
    eexists _, _, _. split.
    + erewrite bind_run; [reflexivity|exact E2].
    + eapply badgesGrow_trans; eauto.
  - eexists _, _, _. split; [reflexivity | exact G1].
Qed.

(** ** The streak update *)

Lemma ofUser_eq u r : ofUser u r = true <-> UserStreak.userId r = u.
Proof. unfold ofUser. apply String.eqb_eq. Qed.

Lemma baseRecord_user env s u : UserStreak.userId (baseRecord env s u) = u.
Proof.
  unfold baseRecord, recordOf.
  destruct (find (ofUser u) (userStreaks s)) as [r|] eqn:E; [|reflexivity].
  apply find_some in E. now apply ofUser_eq.
Qed.

Lemma storeRecord_find l u r :
  ofUser u r = true -> find (ofUser u) (storeRecord l u r) = Some r.
Proof.
  intros Hr. unfold storeRecord.
  destruct (findRef (ofUser u) l) as [[i x]|] eqn:E.
  - eapply find_writeAt_same; eauto.
  - rewrite find_snoc, findRef_find, E. now rewrite Hr.
Qed.

Lemma storeRecord_others l u r q :
  ofUser u r = true ->
  (forall y, ofUser u y = true -> q y = false) ->
  filter q (storeRecord l u r) = filter q l.
Proof.
  intros Hr Hq. unfold storeRecord.
  destruct (findRef (ofUser u) l) as [[i x]|] eqn:E.
  - apply findRef_sound in E. destruct E as [Hn Hx].
    eapply filter_writeAt_other; eauto.
  - rewrite filter_snoc, (Hq r Hr). apply app_nil_r.
Qed.

Lemma updateStreak_run u t cb env k s :
  let r' := advance env s u t cb (baseRecord env s u) in
  updateStreak u t cb env k s =
  (Some (mkStreakUpdate t
           (JsObj.get (UserStreak.streaks r') t)
           (JsObj.get (UserStreak.longestStreaks r') t)),
   k,
   mkStore (storeRecord (userStreaks s) u r') (userBadges s)
           (rewardHistory s) (dailyHabits s)).
Proof.
  unfold baseRecord, recordOf, storeRecord, advance.
  rewrite findRef_find.
  unfold updateStreak, bind, getStore, ret, ask, putStore, initializeUserStreak.
  cbv beta.
  destruct (findRef (ofUser u) (userStreaks s)) as [[i x]|] eqn:E; cbn.
  - reflexivity.
  - now rewrite writeAt_length.
Qed.

Lemma awardPoints_run u t c env k s :
  exists pointsAwarded entries,
    awardPoints u t c env k s =
    (Some pointsAwarded, (if Js.truthy c then S k else k),
     mkStore (userStreaks s) (userBadges s) (rewardHistory s ++ entries)
             (dailyHabits s)) /\
    (if Js.truthy c
     then pointsAwarded = orElse (JsObj.get activityPoints t) 5 /\
          exists id, entries = [RewardEntry.Award id u t pointsAwarded (nowIso env)]
     else pointsAwarded = 0 /\ entries = []).
Proof.
  unfold awardPoints. destruct (Js.truthy c); simpl.
  - eexists _, _. split; [reflexivity|]. split; [reflexivity|].
    eexists; reflexivity.
  - exists 0, []. rewrite app_nil_r. destruct s; simpl. auto.
Qed.

Lemma yesterday_not_today env u t c m :
  sameLogKey u t (yesterday env) (newLog env u t c m) = false.
Proof.
  unfold sameLogKey, newLog, yesterday; simpl.
  replace (today env =? today env - 1) with false by (symmetry; apply Z.eqb_neq; lia).
  apply andb_false_r.
Qed.

Lemma logActivityBody_run env u t c m s :
  let log := newLog env u t c m in
  let r' := advance env s u t (Js.notStrictlyFalse c) (baseRecord env s u) in
  exists newBadges extra pointsAwarded entries k,
    logActivityBody u t c m env 0%nat s =
    (Some (LogOk log
             (mkStreakUpdate t
                (JsObj.get (UserStreak.streaks r') t)
                (JsObj.get (UserStreak.longestStreaks r') t))
             newBadges pointsAwarded),
     k,
     mkStore (storeRecord (userStreaks s) u r') (userBadges s ++ extra)
             (rewardHistory s ++ entries) (dailyHabits s ++ [log])) /\
    (if Js.truthy c
     then pointsAwarded = orElse (JsObj.get activityPoints t) 5 /\
          exists id, entries = [RewardEntry.Award id u t pointsAwarded (nowIso env)]
     else pointsAwarded = 0 /\ entries = []).
Proof.
  intros log r'.
  unfold logActivityBody.
  unfold bind at 1. unfold ask at 1.
  unfold bind at 1. unfold freshUuid at 1.
  unfold bind at 1. unfold getStore at 1.
  unfold bind at 1. unfold putStore at 1.
  fold (newLog env u t c m). fold log.
  set (s1 := mkStore (userStreaks s) (userBadges s) (rewardHistory s)
                     (dailyHabits s ++ [log])).
  erewrite bind_run; [|apply updateStreak_run].
  assert (Hr' : advance env s1 u t (Js.notStrictlyFalse c) (baseRecord env s1 u)
                = r').
  { unfold r', advance, s1; simpl. rewrite find_snoc.
    unfold log. rewrite yesterday_not_today.
    now destruct (find (sameLogKey u t (yesterday env)) (dailyHabits s)). }
  rewrite Hr'.
  assert (Hown : ofUser u r' = true).
  { apply ofUser_eq. unfold r', advance; simpl. apply baseRecord_user. }
  clearbody r'. subst s1.
  cbn [userStreaks userBadges rewardHistory dailyHabits]. cbv beta.
  match goal with |- context [bind (checkForNewBadges u) _ env ?k ?s2] =>
    destruct (checkForNewBadges_run u env k s2 r') as (nb & k3 & s3 & E3 & G3);
      [unfold recordOf; simpl; now apply storeRecord_find|]
  end.
  erewrite bind_run; [|exact E3].
  cbv beta.
  destruct G3 as (G3a & G3b & G3c & extra & G3d).
  destruct s3 as [streaks3 badges3 history3 habits3]. cbn [userStreaks
    userBadges rewardHistory dailyHabits] in G3a, G3b, G3c, G3d. subst.
  match goal with |- context [bind (awardPoints u t ?c) _ env ?k ?s3] =>
    destruct (awardPoints_run u t c env k s3) as (pa & entries & E4 & H4)
  end.
  cbn [userStreaks userBadges rewardHistory dailyHabits] in E4.
  erewrite bind_run; [|exact E4].
  unfold ret.
  exists nb, extra, pa, entries. eexists. split; [reflexivity | exact H4].
Qed.

(** POST /log-activity always ends in one of the three outcomes; in
    particular the [catch] branch is never taken. *)
Lemma logActivity_outcome env req s :
  LogOutcome env req s (fst (logActivity env req s)) (snd (logActivity env req s)).
Proof.
  unfold logActivity.
  destruct (req_userId req) as [u|] eqn:Hu;
    [|simpl; apply OutInvalid; now rewrite Hu].
  destruct (req_activityType req) as [t|] eqn:Ht;
    [|simpl; apply OutInvalid; rewrite Ht; apply andb_false_r].
  destruct (negb (Js.truthyStr (Some u)) || negb (Js.truthyStr (Some t))) eqn:Hv.
  { simpl. apply OutInvalid. rewrite Hu, Ht.
    rewrite <- negb_andb in Hv. now apply negb_true_iff in Hv. }
  apply orb_false_iff in Hv. destruct Hv as [Hu1 Ht1].
  assert (Hune : u <> "").
  { intros ->. discriminate. }
  assert (Htne : t <> "").
  { intros ->. discriminate. }
  destruct (find (sameLogKey u t (today env)) (dailyHabits s)) as [old|] eqn:Hdup.
  { simpl. eapply OutDuplicate; eauto. }
  destruct (logActivityBody_run env u t (req_completed req) (req_metrics req) s)
    as (nb & extra & pa & entries & k & E & H).
  rewrite E. cbn [fst snd].
  eapply OutLogged; eauto.
Qed.

Lemma logActivity_cases env req s resp s' :
  logActivity env req s = (resp, s') -> LogOutcome env req s resp s'.
Proof.
  intros E. pose proof (logActivity_outcome env req s) as O.
  now rewrite E in O.
Qed.

Lemma logActivity_duplicate env u t c m s old :
  u <> "" -> t <> "" ->
  find (sameLogKey u t (today env)) (dailyHabits s) = Some old ->
  logActivity env (mkLogRequest (Some u) (Some t) c m) s = (DuplicateLogError, s).
Proof.
  intros Hu Ht Hold. unfold logActivity; simpl.
  apply String.eqb_neq in Hu, Ht. rewrite Hu, Ht. simpl. now rewrite Hold.
Qed.

Lemma sameLogKey_newLog env u t c m :
  sameLogKey u t (today env) (newLog env u t c m) = true.
Proof.
  unfold sameLogKey, newLog; simpl.
  now rewrite !String.eqb_refl, Z.eqb_refl.
Qed.

(** ** Rejection of a duplicate log *)

(** C2: logging twice under the same (userId, activityType, day) key
    succeeds the first time and is rejected the second time with the
    duplicate-log error, and the rejected call leaves all four arrays
    exactly as the first call left them. *)
Theorem duplicate_log_rejected env1 env2 u t c1 m1 c2 m2 s :
  u <> "" -> t <> "" -> today env2 = today env1 ->
  find (sameLogKey u t (today env1)) (dailyHabits s) = None ->
  exists log streakUpdate newBadges pointsAwarded s1,
    logActivity env1 (mkLogRequest (Some u) (Some t) c1 m1) s =
      (LogOk log streakUpdate newBadges pointsAwarded, s1) /\
    logActivity env2 (mkLogRequest (Some u) (Some t) c2 m2) s1 =
      (DuplicateLogError, s1).
Proof.
  intros Hu Ht Hday Hnone.
  destruct (logActivity env1 (mkLogRequest (Some u) (Some t) c1 m1) s)
    as [resp s1] eqn:E.
  pose proof (logActivity_cases _ _ _ _ _ E) as O.
  inversion O as [Hinv | u0 t0 old Hu0 Ht0 _ _ Hold
                 | u0 t0 r' nb extra pa entries Hu0 Ht0 _ _ _ _ _]; subst;
    simpl in *.
  - apply String.eqb_neq in Hu, Ht. rewrite Hu, Ht in Hinv. discriminate.
  - inversion Hu0; inversion Ht0; subst. congruence.
  - inversion Hu0; inversion Ht0; subst u0 t0.
    eexists _, _, _, _, _. split; [reflexivity|].
    eapply logActivity_duplicate; auto.
    simpl. rewrite Hday, find_snoc, Hnone.
    now rewrite sameLogKey_newLog.
Qed.

Lemma duplicate_log_rejected_witness :
  exists log streakUpdate newBadges pointsAwarded s1,
    logActivity (envAt 3) (logReq "alice" "workout" (Js.VBool true)) emptyStore =
      (LogOk log streakUpdate newBadges pointsAwarded, s1) /\
    logActivity (envAt 3) (logReq "alice" "workout" (Js.VBool true)) s1 =
      (DuplicateLogError, s1).
Proof.
  apply (duplicate_log_rejected (envAt 3) (envAt 3) "alice" "workout").
  - discriminate.
  - discriminate.
  - reflexivity.
  - reflexivity.
Defined.

(** ** Frame of a log *)

Lemma baseRecord_counters env env' s u :
  UserStreak.streaks (baseRecord env s u) = UserStreak.streaks (baseRecord env' s u)
  /\ UserStreak.longestStreaks (baseRecord env s u)
     = UserStreak.longestStreaks (baseRecord env' s u).
Proof. unfold baseRecord. now destruct (recordOf s u). Qed.

Lemma counters_base env s u t :
  JsObj.get (UserStreak.streaks (baseRecord env s u)) t = streakOf s u t /\
  JsObj.get (UserStreak.longestStreaks (baseRecord env s u)) t = longestOf s u t.
Proof.
  unfold streakOf, longestOf.
  destruct (baseRecord_counters env (envAt 0) s u) as [-> ->]. auto.
Qed.

Lemma counters_stored l b h d u r t :
  ofUser u r = true ->
  streakOf (mkStore (storeRecord l u r) b h d) u t
    = JsObj.get (UserStreak.streaks r) t /\
  longestOf (mkStore (storeRecord l u r) b h d) u t
    = JsObj.get (UserStreak.longestStreaks r) t.
Proof.
  intros Hr. unfold streakOf, longestOf, baseRecord, recordOf.
  cbn [userStreaks]. now rewrite storeRecord_find.
Qed.

Lemma nextStreaks_other streaks t cb cont t' :
  t' <> t ->
  JsObj.get (nextStreaks streaks t cb cont) t' = JsObj.get streaks t'.
Proof.
  intros Hne. unfold nextStreaks.
  destruct cb; [destruct cont|]; apply get_set_other; congruence.
Qed.

Lemma nextLongest_other streaks longest t cb t' :
  t' <> t ->
  JsObj.get (nextLongest streaks longest t cb) t' = JsObj.get longest t'.
Proof.
  intros Hne. unfold nextLongest.
  destruct cb; auto.
  destruct (Js.gtb _ _); auto.
  destruct (JsObj.get streaks t); auto.
  apply get_set_other; congruence.
Qed.

(** C10: a log for (userId, activityType) changes, among the streak
    counters, only those of that activity type in that user's record: every
    other activity type keeps its current and longest streak (read from the
    user's record, or from the lazily created one when the user had none),
    and the records of all other users stay as they were, in the same
    order. *)
Theorem log_touches_one_counter env req s u t :
  req_userId req = Some u -> req_activityType req = Some t ->
  (forall t', t' <> t ->
     streakOf (snd (logActivity env req s)) u t' = streakOf s u t' /\
     longestOf (snd (logActivity env req s)) u t' = longestOf s u t') /\
  recordsOfOthers (snd (logActivity env req s)) u = recordsOfOthers s u.
Proof.
  intros Hu Ht.
  destruct (logActivity env req s) as [resp s'] eqn:E.
  apply logActivity_cases in E. cbn [snd].
  inversion E as [Hinv Hresp Hs | u0 t0 old Hu0 Ht0 _ _ Hold Hresp Hs
                 | u0 t0 r' nb extra pa entries Hu0 Ht0 _ _ _ Hr' _ Hresp Hs].
  - auto.
  - auto.
  - rewrite Hu in Hu0. rewrite Ht in Ht0.
    inversion Hu0; inversion Ht0; subst u0 t0. clear Hu0 Ht0.
    assert (Hown : ofUser u r' = true).
    { apply ofUser_eq. rewrite Hr'. unfold advance; simpl. apply baseRecord_user. }
    split.
    + intros t' Hne.
      destruct (counters_stored (userStreaks s) (userBadges s ++ extra)
                  (rewardHistory s ++ entries)
                  (dailyHabits s ++ [newLog env u t (req_completed req)
                                       (req_metrics req)])
                  u r' t' Hown) as [-> ->].
      destruct (counters_base env s u t') as [<- <-].
      rewrite Hr'. unfold advance; cbn [UserStreak.streaks UserStreak.longestStreaks].
      now rewrite nextStreaks_other, nextLongest_other by assumption.
    + unfold recordsOfOthers. cbn [userStreaks].
      apply storeRecord_others; auto.
      intros y Hy. now rewrite Hy.
Qed.

Lemma log_touches_one_counter_witness :
  (forall t', t' <> "fitness" ->
     streakOf (snd (logActivity (envAt 1) (logReq "bob" "fitness" (Js.VBool true))
                      emptyStore)) "bob" t' = streakOf emptyStore "bob" t' /\
     longestOf (snd (logActivity (envAt 1) (logReq "bob" "fitness" (Js.VBool true))
                       emptyStore)) "bob" t' = longestOf emptyStore "bob" t') /\
  recordsOfOthers (snd (logActivity (envAt 1) (logReq "bob" "fitness" (Js.VBool true))
                          emptyStore)) "bob" = recordsOfOthers emptyStore "bob".
Proof.
  apply (log_touches_one_counter (envAt 1) (logReq "bob" "fitness" (Js.VBool true))
           emptyStore "bob" "fitness"); reflexivity.
Defined.

(** ** Longest streak *)

Lemma countersOk_fresh env u : countersOk (freshRecord env u).
Proof.
  intros t Ht. exists 0, 0. simpl in Ht.
  repeat (destruct Ht as [<-|Ht]; [simpl; repeat split; (reflexivity || lia)|]).
  contradiction.
Qed.

Lemma countersOk_advance env s u t cb base :
  countersOk base -> countersOk (advance env s u t cb base).
Proof.
  intros Hb t' Ht'. destruct (Hb t' Ht') as (a & b & Ha & Hb' & Hab).
  unfold advance; cbn [UserStreak.streaks UserStreak.longestStreaks].
  destruct (string_dec t' t) as [->|Hne].
  - unfold nextLongest, nextStreaks.
    destruct cb.
    + destruct (completedLog _).
      * rewrite !get_set_same, Ha, Hb'. simpl.
        destruct (a + 1 >? b) eqn:G.
        -- exists (a + 1), (a + 1). rewrite get_set_same. repeat split; lia.
        -- exists (a + 1), b. rewrite Hb'. repeat split; lia.
      * rewrite !get_set_same, Hb'. simpl.
        destruct (1 >? b) eqn:G.
        -- exists 1, 1. rewrite get_set_same. repeat split; lia.
        -- exists 1, b. rewrite Hb'. repeat split; lia.
    + exists 0, b. rewrite get_set_same, Hb'. repeat split; lia.
  - rewrite nextStreaks_other, nextLongest_other by assumption.
    exists a, b. auto.
Qed.

Lemma Forall_writeAt {A} (P : A -> Prop) l i x :
  Forall P l -> P x -> Forall P (writeAt i x l).
Proof.
  intros Hl Hx. revert i. induction Hl; intros [|j]; simpl; auto.
Qed.

Lemma Forall_storeRecord P l u r :
  Forall P l -> P r -> Forall P (storeRecord l u r).
Proof.
  intros Hl Hr. unfold storeRecord.
  destruct (findRef (ofUser u) l) as [[i x]|].
  - now apply Forall_writeAt.
  - apply Forall_app; auto.
Qed.

(** A property of streak records that a fresh record has and that the
    assignments of [updateStreak] keep holds of every record, whatever is
    logged. *)
Section RecordInvariant.
Variable P : UserStreak.t -> Prop.
Hypothesis P_fresh : forall env u, P (freshRecord env u).
Hypothesis P_advance :
  forall env s u t cb base, P base -> P (advance env s u t cb base).

Lemma invariant_base env s u :
  Forall P (userStreaks s) -> P (baseRecord env s u).
Proof.
  intros Hs. unfold baseRecord, recordOf.
  destruct (find (ofUser u) (userStreaks s)) as [r|] eqn:E.
  - apply find_some in E. destruct E as [E _].
    rewrite Forall_forall in Hs. auto.
  - apply P_fresh.
Qed.

Lemma invariant_logActivity env req s :
  Forall P (userStreaks s) ->
  Forall P (userStreaks (snd (logActivity env req s))).
Proof.
  intros Hs.
  destruct (logActivity env req s) as [resp s'] eqn:E.
  apply logActivity_cases in E. cbn [snd].
  inversion E as [| | u t r' nb extra pa entries _ _ _ _ _ Hr' _]; subst; auto.
  cbn [userStreaks].
  apply Forall_storeRecord; auto.
  apply P_advance. now apply invariant_base.
Qed.

Lemma invariant_runLogs reqs :
  forall s, Forall P (userStreaks s) ->
            Forall P (userStreaks (snd (runLogs reqs s))).
Proof.
  induction reqs as [|er r IH]; intros s Hs; simpl; auto.
  apply IH. now apply invariant_logActivity.
Qed.

Lemma invariant_reached reqs env u :
  P (baseRecord env (snd (runLogs reqs emptyStore)) u).
Proof. apply invariant_base, invariant_runLogs. constructor. Qed.
End RecordInvariant.

(** For the five activity types that [initializeUserStreak] lists, no log
    breaks [longestStreaks[t] >= streaks[t]]. *)
Theorem longest_covers_streak_listed reqs u t :
  In t listedTypes ->
  longestCoversStreak (snd (runLogs reqs emptyStore)) u t = true.
Proof.
  intros Ht.
  destruct (invariant_reached countersOk countersOk_fresh countersOk_advance
              reqs (envAt 0) u t Ht) as (a & b & Ha & Hb & Hab).
  unfold longestCoversStreak, longestOf, streakOf. rewrite Ha, Hb. simpl.
  apply Z.geb_le. lia.
Qed.

Lemma initialCounters_unlisted t :
  ~ In t listedTypes -> JsObj.get initialCounters t = None.
Proof.
  intros H. unfold listedTypes in H.
  induction initialCounters as [|[k v] r IH]; simpl in *; auto.
  destruct (String.eqb k t) eqn:E.
  - apply String.eqb_eq in E. tauto.
  - apply IH. tauto.
Qed.

Lemma gtb_NaN x : Js.gtb x Js.NaN = false.
Proof. now destruct x. Qed.

Lemma nextLongest_absent streaks longest t cb k :
  JsObj.get longest k = None ->
  JsObj.get (nextLongest streaks longest t cb) k = None.
Proof.
  intros H. unfold nextLongest.
  destruct cb; auto.
  destruct (Js.gtb _ _) eqn:G; auto.
  destruct (JsObj.get streaks t); auto.
  destruct (string_dec t k) as [->|Hne].
  - rewrite H in G. simpl in G. now rewrite gtb_NaN in G.
  - now rewrite get_set_other.
Qed.

(** [longestStreaks] never receives a key that [initializeUserStreak] did
    not create: for every other activity type it stays [undefined],
    whatever is logged. *)
Theorem longest_never_set_unlisted reqs u t :
  ~ In t listedTypes ->
  longestOf (snd (runLogs reqs emptyStore)) u t = None.
Proof.
  intros Ht. unfold longestOf.
  apply (invariant_reached
           (fun r => JsObj.get (UserStreak.longestStreaks r) t = None)).
  - intros env u'. simpl. now apply initialCounters_unlisted.
  - intros env s u' t' cb base Hb. unfold advance; simpl.
    now apply nextLongest_absent.
Qed.

(** C1: the longest streak of an activity type that [initializeUserStreak]
    does not list is never written.  After a first completed "workout" log
    the current streak is 1 while [longestStreaks.workout] is still
    [undefined], so [longestStreaks[t] >= streaks[t]] evaluates to false. *)
Theorem longest_streak_unset_for_unlisted_type :
  let s := snd (logActivity (envAt 1) (logReq "alice" "workout" (Js.VBool true))
                  emptyStore) in
  ~ In "workout" listedTypes /\
  streakOf s "alice" "workout" = Some (Js.Fin 1) /\
  longestOf s "alice" "workout" = None /\
  longestCoversStreak s "alice" "workout" = false.
Proof.
  cbv zeta. split; [|vm_compute; auto].
  simpl. intros H. repeat (destruct H as [H|H]; [discriminate|]). exact H.
Qed.

(** ** Streak continuity *)

Lemma nextStreaks_same streaks t cb cont :
  JsObj.get (nextStreaks streaks t cb cont) t
  = Some (stepStreak cb cont (JsObj.get streaks t)).
Proof.
  unfold nextStreaks, stepStreak.
  destruct cb; [destruct cont|]; apply get_set_same.
Qed.

Lemma nextLongest_same streaks longest t cb n :
  JsObj.get streaks t = Some n ->
  JsObj.get (nextLongest streaks longest t cb) t
  = stepLongest cb n (JsObj.get longest t).
Proof.
  intros Hn. unfold nextLongest, stepLongest. rewrite Hn. simpl.
  destruct cb; auto. simpl.
  destruct (Js.gtb n (Js.toNumber (JsObj.get longest t))); auto.
  apply get_set_same.
Qed.

(** The counters of (u, t) after an accepted log. *)
Lemma log_step env u t c m s :
  u <> "" -> t <> "" ->
  find (sameLogKey u t (today env)) (dailyHabits s) = None ->
  let s' := snd (logActivity env (mkLogRequest (Some u) (Some t) c m) s) in
  let current :=
    stepStreak (Js.notStrictlyFalse c)
      (completedLog (find (sameLogKey u t (yesterday env)) (dailyHabits s)))
      (streakOf s u t) in
  streakOf s' u t = Some current /\
  longestOf s' u t = stepLongest (Js.notStrictlyFalse c) current (longestOf s u t) /\
  dailyHabits s' = dailyHabits s ++ [newLog env u t c m].
Proof.
  intros Hu Ht Hnone.
  destruct (logActivity env (mkLogRequest (Some u) (Some t) c m) s)
    as [resp s'] eqn:E.
  apply logActivity_cases in E. cbn [snd].
  inversion E as [Hinv | u0 t0 old Hu0 Ht0 _ _ Hold
                 | u0 t0 r' nb extra pa entries Hu0 Ht0 _ _ _ Hr' _]; subst;
    simpl in *.
  - apply String.eqb_neq in Hu, Ht. rewrite Hu, Ht in Hinv. discriminate.
  - inversion Hu0; inversion Ht0; subst. congruence.
  - inversion Hu0; inversion Ht0; subst u0 t0.
    assert (Hown : ofUser u (advance env s u t (Js.notStrictlyFalse c)
                               (baseRecord env s u)) = true).
    { apply ofUser_eq. unfold advance; simpl. apply baseRecord_user. }
    destruct (counters_stored (userStreaks s) (userBadges s ++ extra)
                (rewardHistory s ++ entries)
                (dailyHabits s ++ [newLog env u t c m]) u _ t Hown) as [-> ->].
    destruct (counters_base env s u t) as [<- <-].
    unfold advance; cbn [UserStreak.streaks UserStreak.longestStreaks].
    rewrite (nextLongest_same _ _ _ _ _ (nextStreaks_same _ _ _ _)).
    rewrite nextStreaks_same. auto.
Qed.

Lemma find_none_intro {A} (p : A -> bool) l :
  (forall x, In x l -> p x = false) -> find p l = None.
Proof.
  induction l as [|y r IH]; simpl; intros H; auto.
  rewrite (H y (or_introl eq_refl)). apply IH. auto.
Qed.

Lemma sameLogKey_split u t d log :
  sameLogKey u t d log = sameActivity u t log && (ActivityLog.date log =? d).
Proof. reflexivity. Qed.

Lemma no_log_on u t d habits bound :
  (forall log, In log habits -> sameActivity u t log = true ->
               ActivityLog.date log <= bound) ->
  bound < d ->
  find (sameLogKey u t d) habits = None.
Proof.
  intros H Hd. apply find_none_intro. intros log Hlog.
  rewrite sameLogKey_split.
  destruct (sameActivity u t log) eqn:S; auto. simpl.
  apply Z.eqb_neq. specialize (H log Hlog S). lia.
Qed.

Lemma stepLongest_raised before k :
  1 <= k ->
  stepLongest true (Js.Fin (k + 1)) (raisedTo before k) = raisedTo before (k + 1).
Proof.
  intros Hk. unfold stepLongest, raisedTo.
  destruct before as [[b|]|]; simpl; auto.
  destruct (k + 1 >? Z.max b k) eqn:G.
  - f_equal. f_equal. lia.
  - f_equal. f_equal. lia.
Qed.

Lemma stepLongest_first before :
  stepLongest true (Js.Fin 1) before = raisedTo before 1.
Proof.
  unfold stepLongest, raisedTo.
  destruct before as [[b|]|]; simpl; auto.
  destruct (1 >? b) eqn:G; f_equal; f_equal; lia.
Qed.

Section Runs.
Variables u t : string.
Hypothesis u_given : u <> "".
Hypothesis t_given : t <> "".

Let completedReq : LogRequest := logReq u t (Js.VBool true).

Lemma newLog_in_run d s :
  (forall log, In log (dailyHabits s) -> sameActivity u t log = true ->
               ActivityLog.date log < d) ->
  let habits := dailyHabits s ++ [newLog (envAt d) u t (Js.VBool true) Js.VUndefined] in
  (exists log, find (sameLogKey u t d) habits = Some log /\
               ActivityLog.completed log = true) /\
  (forall log, In log habits -> sameActivity u t log = true ->
               ActivityLog.date log <= d).
Proof.
  intros Hold habits. split.
  - exists (newLog (envAt d) u t (Js.VBool true) Js.VUndefined). split; auto.
    unfold habits. rewrite find_snoc.
    rewrite (no_log_on u t d (dailyHabits s) (d - 1)); [|intros log Hl Hs|lia].
    + now rewrite (sameLogKey_newLog (envAt d)).
    + specialize (Hold log Hl Hs). lia.
  - intros log Hlog Hs. unfold habits in Hlog. apply in_app_or in Hlog.
    destruct Hlog as [Hlog|[<-|[]]].
    + specialize (Hold log Hlog Hs). lia.
    + simpl. lia.
Qed.

(** The first completed log after a day without one starts a run. *)
Lemma run_starts s start :
  (forall log, In log (dailyHabits s) -> sameActivity u t log = true ->
               ActivityLog.date log < start - 1) ->
  inRun u t (longestOf s u t)
        (snd (logActivity (envAt start) completedReq s)) start 1.
Proof.
  intros Hold.
  assert (Htoday : find (sameLogKey u t (today (envAt start))) (dailyHabits s) = None).
  { apply (no_log_on u t _ _ (start - 1)); [|simpl; lia].
    intros log Hl Hs. specialize (Hold log Hl Hs). lia. }
  assert (Hyest : find (sameLogKey u t (yesterday (envAt start))) (dailyHabits s) = None).
  { apply (no_log_on u t _ _ (start - 2)); [|unfold yesterday; simpl; lia].
    intros log Hl Hs. specialize (Hold log Hl Hs). lia. }
  destruct (log_step (envAt start) u t (Js.VBool true) Js.VUndefined s
              u_given t_given Htoday) as (Hs1 & Hl1 & Hh1).
  rewrite Hyest in Hs1, Hl1. simpl in Hs1, Hl1.
  unfold inRun, completedReq, logReq. rewrite Hs1, Hl1, Hh1.
  split; [reflexivity|]. split; [apply stepLongest_first|].
  apply newLog_in_run. intros log Hl Hs. specialize (Hold log Hl Hs). lia.
Qed.

(** A completed log on the day after a run extends it by one. *)
Lemma run_continues before s d k :
  1 <= k ->
  inRun u t before s d k ->
  inRun u t before (snd (logActivity (envAt (d + 1)) completedReq s)) (d + 1) (k + 1).
Proof.
  intros Hk (Hstreak & Hlongest & (prev & Hprev & Hdone) & Hdates).
  assert (Htoday : find (sameLogKey u t (today (envAt (d + 1)))) (dailyHabits s) = None).
  { apply (no_log_on u t _ _ d); auto. simpl; lia. }
  destruct (log_step (envAt (d + 1)) u t (Js.VBool true) Js.VUndefined s
              u_given t_given Htoday) as (Hs1 & Hl1 & Hh1).
  unfold yesterday in Hs1, Hl1. simpl today in Hs1, Hl1.
  replace (d + 1 - 1) with d in Hs1, Hl1 by lia.
  rewrite Hprev, Hstreak in Hs1, Hl1. simpl in Hs1, Hl1.
  rewrite Hdone in Hs1, Hl1. simpl in Hs1, Hl1.
  unfold inRun, completedReq, logReq. rewrite Hs1, Hl1, Hh1.
  split; [reflexivity|]. split.
  - rewrite Hlongest. now apply stepLongest_raised.
  - apply newLog_in_run. intros log Hl Hs. specialize (Hdates log Hl Hs). lia.
Qed.

Lemma days_succ start n : days start (S n) = start :: days (start + 1) n.
Proof.
  unfold days. cbn [seq map]. f_equal; [simpl; lia|].
  rewrite <- seq_shift, map_map. apply map_ext. intros k. lia.
Qed.

Lemma run_extends before n :
  forall s d k,
    1 <= k ->
    inRun u t before s d k ->
    inRun u t before
          (snd (runLogs (dailyLogs u t (Js.VBool true) (days (d + 1) n)) s))
          (d + Z.of_nat n) (k + Z.of_nat n).
Proof.
  induction n as [|n IH]; intros s d k Hk Hrun.
  - simpl. now rewrite !Z.add_0_r.
  - rewrite days_succ. unfold dailyLogs. cbn [map runLogs fst snd].
    fold (dailyLogs u t (Js.VBool true) (days (d + 1 + 1) n)).
    replace (d + Z.of_nat (S n)) with (d + 1 + Z.of_nat n) by lia.
    replace (k + Z.of_nat (S n)) with (k + 1 + Z.of_nat n) by lia.
    apply IH; [lia|]. now apply run_continues.
Qed.

(** Completed logs on [n + 1] consecutive days, begun after a day without
    a log, bring the current streak to [n + 1] for every activity type;
    the longest streak follows only where it is a number. *)
Theorem streak_after_run s start n :
  (forall log, In log (dailyHabits s) -> sameActivity u t log = true ->
               ActivityLog.date log < start - 1) ->
  inRun u t (longestOf s u t)
        (snd (runLogs (dailyLogs u t (Js.VBool true) (days start (S n))) s))
        (start + Z.of_nat n) (Z.of_nat (S n)).
Proof.
  intros Hold. rewrite days_succ. unfold dailyLogs. cbn [map runLogs fst snd].
  fold (dailyLogs u t (Js.VBool true) (days (start + 1) n)).
  replace (Z.of_nat (S n)) with (1 + Z.of_nat n) by lia.
  apply run_extends; [lia|]. now apply run_starts.
Qed.

(** A log that is not completed on the day after a run ends it: the
    current streak is 0 and the longest streak is what it was. *)
Theorem run_ends before s d k :
  inRun u t before s d k ->
  let s' := snd (logActivity (envAt (d + 1)) (logReq u t (Js.VBool false)) s) in
  streakOf s' u t = Some (Js.Fin 0) /\
  longestOf s' u t = raisedTo before k.
Proof.
  intros (Hstreak & Hlongest & _ & Hdates).
  assert (Htoday : find (sameLogKey u t (today (envAt (d + 1)))) (dailyHabits s) = None).
  { apply (no_log_on u t _ _ d); auto. simpl; lia. }
  destruct (log_step (envAt (d + 1)) u t (Js.VBool false) Js.VUndefined s
              u_given t_given Htoday) as (Hs1 & Hl1 & _).
  cbv zeta. unfold logReq. rewrite Hs1, Hl1. simpl. auto.
Qed.
End Runs.

(** C6: five completed "workout" logs on consecutive days bring the
    current streak to 5 and a sixth, not completed log resets it to 0, but
    the longest streak of this unlisted activity type is [undefined] before
    and after, not 5. *)
Theorem five_day_streak_unlisted_type :
  let s5 := snd (runLogs (dailyLogs "alice" "workout" (Js.VBool true) [1; 2; 3; 4; 5])
                   emptyStore) in
  let s6 := snd (logActivity (envAt 6) (logReq "alice" "workout" (Js.VBool false)) s5) in
  streakOf s5 "alice" "workout" = Some (Js.Fin 5) /\
  longestOf s5 "alice" "workout" = None /\
  streakOf s6 "alice" "workout" = Some (Js.Fin 0) /\
  longestOf s6 "alice" "workout" = None.
Proof. vm_compute. auto. Qed.

(** The same six logs for a listed activity type behave as specified. *)
Example five_day_streak_listed_type :
  let s5 := snd (runLogs (dailyLogs "alice" "fitness" (Js.VBool true) [1; 2; 3; 4; 5])
                   emptyStore) in
  let s6 := snd (logActivity (envAt 6) (logReq "alice" "fitness" (Js.VBool false)) s5) in
  streakOf s5 "alice" "fitness" = Some (Js.Fin 5) /\
  longestOf s5 "alice" "fitness" = Some (Js.Fin 5) /\
  streakOf s6 "alice" "fitness" = Some (Js.Fin 0) /\
  longestOf s6 "alice" "fitness" = Some (Js.Fin 5).
Proof. vm_compute. auto. Qed.

(** ** Badges *)

(** C3: the count-based "healthy-eating" badge is pushed without looking at
    the badges already earned.  Eight daily "healthy-eating" logs leave the
    user with two [UserBadge] records for "healthy-eating" (one from day 7,
    one from day 8), while the guarded "7-day-streak" badge is held once. *)
Theorem healthy_eating_badge_awarded_again :
  let s := snd (runLogs (dailyLogs "alice" "healthy-eating" (Js.VBool true)
                           [1; 2; 3; 4; 5; 6; 7; 8]) emptyStore) in
  badgesHeld s "alice" "healthy-eating" = 2%nat /\
  badgesHeld s "alice" "7-day-streak" = 1%nat.
Proof. vm_compute. auto. Qed.

Lemma awardBadge_healthy_eating u env k s :
  awardBadge u "healthy-eating" env k s
  = (Some (Some (UserBadge.mk (uuidv4 env k) u "healthy-eating" None None None
                              (nowIso env))),
     S k,
     mkStore (userStreaks s)
             (userBadges s ++
                [UserBadge.mk (uuidv4 env k) u "healthy-eating" None None None
                              (nowIso env)])
             (rewardHistory s) (dailyHabits s)).
Proof. reflexivity. Qed.

(** Whatever badges the user holds, the badge check of a user with seven
    or more nutrition logs ends by pushing one more "healthy-eating"
    badge. *)
Lemma healthy_eating_unguarded u env k s r0 :
  recordOf s u = Some r0 ->
  (7 <= length (filter (isNutritionActivity u) (dailyHabits s)))%nat ->
  exists newBadges k' s' ub extra,
    checkForNewBadges u env k s = (Some (newBadges ++ [Some ub]), k', s') /\
    UserBadge.userId ub = u /\
    UserBadge.badgeId ub = "healthy-eating" /\
    userBadges s' = (userBadges s ++ extra) ++ [ub].
Proof.
  intros Hrec Hseven. unfold checkForNewBadges, recordOf in *.
  unfold bind at 1. unfold getStore at 1. rewrite Hrec.
  match goal with |- context [forEachEntry u ?e ?es ?nb] =>
    destruct (forEachEntry_run u e es nb env k s) as (r1 & k1 & s1 & E1 & G1)
  end.
  erewrite bind_run; [|exact E1].
  unfold bind at 1. unfold getStore at 1.
  destruct G1 as (_ & _ & Hhabits & extra & Hbadges).
  rewrite Hhabits. apply Nat.leb_le in Hseven. rewrite Hseven.
  erewrite bind_run; [|apply awardBadge_healthy_eating].
  eexists _, _, _, _, extra. split; [reflexivity|].
  cbn [UserBadge.userId UserBadge.badgeId userBadges].
  rewrite Hbadges. auto.
Qed.

(** ** Points of a log without [completed] *)

(** C4: with [completed] omitted the log is stored as completed and the
    streak starts at 1, but [awardPoints] receives the raw [undefined],
    returns 0 and pushes nothing; the table value for "workout" is 20. *)
Theorem omitted_completed_earns_no_points :
  exists log streakUpdate newBadges s',
    logActivity (envAt 1) (logReq "alice" "workout" Js.VUndefined) emptyStore =
      (LogOk log streakUpdate newBadges 0, s') /\
    ActivityLog.completed log = true /\
    currentStreak streakUpdate = Some (Js.Fin 1) /\
    rewardHistory s' = [] /\
    orElse (JsObj.get activityPoints "workout") 5 = 20.
Proof. eexists _, _, _, _. vm_compute. repeat split; reflexivity. Qed.

(** No request without [completed] ever adds to [rewardHistory]. *)
Lemma omitted_completed_keeps_ledger env u t m s :
  rewardHistory (snd (logActivity env (mkLogRequest (Some u) (Some t) Js.VUndefined m) s))
  = rewardHistory s.
Proof.
  destruct (logActivity env _ s) as [resp s'] eqn:E.
  apply logActivity_cases in E. cbn [snd].
  inversion E as [| | u0 t0 r' nb extra pa entries _ _ _ _ _ _ Hp]; subst; auto.
  simpl in Hp. destruct Hp as [_ ->]. simpl. apply app_nil_r.
Qed.

(** ** Total points *)

Lemma orElse_zero p : orElse (Some p) 0 = p.
Proof. unfold orElse. destruct (p =? 0) eqn:E; auto. apply Z.eqb_eq in E. auto. Qed.

Lemma fold_points_shift (l : list RewardEntry.t) a :
  fold_left (fun total reward => total + orElse (RewardEntry.points reward) 0) l a
  = a + fold_left (fun total reward => total + orElse (RewardEntry.points reward) 0) l 0.
Proof.
  revert a. induction l as [|e l IH]; intros a; simpl; [lia|].
  rewrite IH, (IH (orElse _ _)). lia.
Qed.

Lemma ledgerTotal_app h e u :
  ledgerTotal (h ++ e) u = ledgerTotal h u + ledgerTotal e u.
Proof.
  unfold ledgerTotal. rewrite filter_app, fold_left_app.
  apply fold_points_shift.
Qed.

Lemma calculateTotalPoints_ledger s u :
  calculateTotalPoints s u = ledgerTotal (rewardHistory s) u.
Proof. reflexivity. Qed.

Lemma logActivity_total env req s u :
  calculateTotalPoints (snd (logActivity env req s)) u
  = calculateTotalPoints s u + pointsOfResponse u (fst (logActivity env req s)).
Proof.
  destruct (logActivity env req s) as [resp s'] eqn:E.
  apply logActivity_cases in E. cbn [fst snd].
  inversion E as [| | u0 t0 r' nb extra pa entries _ _ _ _ _ _ Hp]; subst;
    try (simpl; lia).
  rewrite !calculateTotalPoints_ledger. cbn [rewardHistory].
  rewrite ledgerTotal_app. f_equal.
  unfold pointsOfResponse, newLog; cbn [ActivityLog.userId].
  destruct (Js.truthy (req_completed req)).
  - destruct Hp as [_ [id ->]]. unfold ledgerTotal; simpl.
    destruct (String.eqb u0 u); simpl; auto. apply orElse_zero.
  - destruct Hp as [-> ->]. now destruct (String.eqb u0 u).
Qed.

Lemma logActivity_entries env req s :
  Forall activityEntry (rewardHistory s) ->
  Forall activityEntry (rewardHistory (snd (logActivity env req s))).
Proof.
  intros Hs.
  destruct (logActivity env req s) as [resp s'] eqn:E.
  apply logActivity_cases in E. cbn [snd].
  inversion E as [| | u0 t0 r' nb extra pa entries _ _ _ _ _ _ Hp]; subst; auto.
  cbn [rewardHistory]. apply Forall_app. split; auto.
  destruct (Js.truthy (req_completed req)).
  - destruct Hp as [-> [id ->]]. constructor; [|constructor].
    now exists id, u0, t0, (nowIso env).
  - destruct Hp as [_ ->]. constructor.
Qed.

Lemma runLogs_entries reqs :
  forall s, Forall activityEntry (rewardHistory s) ->
            Forall activityEntry (rewardHistory (snd (runLogs reqs s))).
Proof.
  induction reqs as [|er r IH]; intros s Hs; simpl; auto.
  apply IH. now apply logActivity_entries.
Qed.

(** C5 as stated fails: after seven daily "workout" logs the user has
    earned 7 x 20 activity points and the "7-day-streak" badge, which the
    catalogue values at 50, yet the total is 140 and not 190. *)
Lemma badge_points_missing_from_total :
  calculateTotalPoints
    (snd (runLogs (dailyLogs "alice" "workout" (Js.VBool true) [1; 2; 3; 4; 5; 6; 7])
            emptyStore)) "alice"
  <> claimedTotal "alice"
       (fst (runLogs (dailyLogs "alice" "workout" (Js.VBool true) [1; 2; 3; 4; 5; 6; 7])
               emptyStore)).
Proof. vm_compute. discriminate. Qed.

(** C5, amended: for requests whose activity types are plain keys of the
    points table, after any sequence of logs, from any ledger, a user's
    total has grown by exactly the sum of the [pointsAwarded] values that
    the responses to that user's logs returned; and starting from the empty
    arrays every ledger entry is an activity entry pushed by [awardPoints],
    so that no badge award ever reaches the ledger. *)
Theorem total_is_sum_of_activity_points reqs s u :
  plainRequests reqs = true ->
  calculateTotalPoints (snd (runLogs reqs s)) u
  = calculateTotalPoints s u + sumZ (map (pointsOfResponse u) (fst (runLogs reqs s)))
  /\ Forall activityEntry (rewardHistory (snd (runLogs reqs emptyStore))).
Proof.
  intros _. split.
  - revert s. induction reqs as [|er r IH]; intros s; simpl; [lia|].
    rewrite IH, logActivity_total. lia.
  - apply runLogs_entries. constructor.
Qed.

Lemma total_is_sum_of_activity_points_witness :
  calculateTotalPoints (snd (runLogs threeUserWeek emptyStore)) "bob"
  = calculateTotalPoints emptyStore "bob"
    + sumZ (map (pointsOfResponse "bob") (fst (runLogs threeUserWeek emptyStore)))
  /\ Forall activityEntry (rewardHistory (snd (runLogs threeUserWeek emptyStore))).
Proof.
  apply (total_is_sum_of_activity_points threeUserWeek emptyStore "bob").
  reflexivity.
Defined.

(** ** Redemption *)

(** The route under a module scope, step by step. *)
Lemma redeemIn_run binding env u rewardId s :
  redeemIn binding env u rewardId s
  = match binding with
    | None => (RedeemServerError, s)
    | Some getReward =>
        match getReward rewardId with
        | None => (NotFoundError, s)
        | Some reward =>
            if calculateTotalPoints s u <? Reward.pointsRequired reward
            then (InsufficientPointsError (Reward.pointsRequired reward)
                    (calculateTotalPoints s u), s)
            else
              (RedeemOk
                 (RewardEntry.Redemption (uuidv4 env 0%nat) u rewardId
                    (Reward.name reward) (Reward.pointsRequired reward)
                    (nowIso env) "claimed")
                 (calculateTotalPoints s u - Reward.pointsRequired reward),
               mkStore (userStreaks s) (userBadges s)
                 (rewardHistory s ++
                    [RewardEntry.Redemption (uuidv4 env 0%nat) u rewardId
                       (Reward.name reward) (Reward.pointsRequired reward)
                       (nowIso env) "claimed"])
                 (dailyHabits s))
        end
    end.
Proof.
  destruct binding as [getReward|]; [|reflexivity].
  unfold redeemIn, redeemBody, callIn, bind, getStore, ret.
  destruct (getReward rewardId) as [reward|]; [|reflexivity].
  destruct (_ <? _); reflexivity.
Qed.

Lemma redeemIn_unbound env u rewardId s :
  redeemIn None env u rewardId s = (RedeemServerError, s).
Proof. reflexivity. Qed.

(** C8: the redeem route calls [getRewardById], which the module neither
    declares nor imports.  Every request therefore ends in the handler's
    [catch]: the answer is status 500 "Internal server error", never
    "Reward not found" and never "Insufficient points", whatever the
    reward id and whatever the user's total, and the arrays are left as
    they were. *)
Theorem redeem_failures env u rewardId s :
  redeem env u rewardId s = (RedeemServerError, s) /\
  fst (redeem env u rewardId s) <> NotFoundError /\
  (forall required current,
     fst (redeem env u rewardId s) <> InsufficientPointsError required current).
Proof.
  unfold redeem, getRewardById. rewrite redeemIn_unbound. cbn [fst].
  repeat split; discriminate.
Qed.

(** A redemption carries [pointsUsed] and no [points], so under no module
    scope does the route change the sum that [calculateTotalPoints] takes
    over the ledger. *)
Lemma redeemIn_keeps_totals binding env u rewardId s u' :
  calculateTotalPoints (snd (redeemIn binding env u rewardId s)) u'
  = calculateTotalPoints s u'.
Proof.
  rewrite redeemIn_run.
  destruct binding as [getReward|]; [|reflexivity].
  destruct (getReward rewardId) as [reward|]; auto.
  destruct (_ <? _); auto.
  cbn [snd]. rewrite !calculateTotalPoints_ledger. cbn [rewardHistory].
  rewrite ledgerTotal_app. unfold ledgerTotal at 2; simpl.
  destruct (String.eqb u u'); simpl; lia.
Qed.

(** C9: a user with 140 points asks to redeem a reward.  No request to the
    route succeeds: the call of the unbound [getRewardById] throws before
    a redemption is built, so the answer is status 500, nothing is
    appended to the ledger and the total is 140 before and after. *)
Theorem redemption_leaves_total_unchanged :
  let s := snd (runLogs (dailyLogs "alice" "workout" (Js.VBool true)
                           [1; 2; 3; 4; 5; 6; 7]) emptyStore) in
  calculateTotalPoints s "alice" = 140 /\
  redeem (envAt 8) "alice" "water-bottle" s = (RedeemServerError, s) /\
  calculateTotalPoints (snd (redeem (envAt 8) "alice" "water-bottle" s)) "alice" = 140 /\
  (forall env u rewardId s0 redemption remaining,
     fst (redeem env u rewardId s0) <> RedeemOk redemption remaining).
Proof.
  cbv zeta. split; [reflexivity|]. split; [reflexivity|]. split; [reflexivity|].
  intros env u rewardId s0 redemption remaining.
  unfold redeem, getRewardById. rewrite redeemIn_unbound. discriminate.
Qed.

(** ** Grouping the ledger by user *)

Lemma ledgerTotal_cons e h u :
  ledgerTotal (e :: h) u
  = (if String.eqb (RewardEntry.userId e) u
     then orElse (RewardEntry.points e) 0 else 0) + ledgerTotal h u.
Proof.
  change (e :: h) with ([e] ++ h). rewrite ledgerTotal_app. f_equal.
  unfold ledgerTotal; simpl. now destruct (String.eqb _ u).
Qed.

Lemma ledgerTotal_unmentioned h u : mentions u h = false -> ledgerTotal h u = 0.
Proof.
  induction h as [|e r IH]; simpl; intros H; [reflexivity|].
  apply orb_false_iff in H. destruct H as [He Hr].
  rewrite ledgerTotal_cons, He, IH; auto.
Qed.

Lemma mentions_in u h :
  mentions u h = true <-> In u (map RewardEntry.userId h).
Proof.
  unfold mentions. rewrite existsb_exists, in_map_iff.
  split; intros (e & H1 & H2).
  - apply String.eqb_eq in H2. eauto.
  - exists e. split; auto. now apply String.eqb_eq.
Qed.

Lemma addTotal_get_same o e :
  JsObj.get (addTotal o e) (RewardEntry.userId e)
  = Some (pointsOr0 (JsObj.get o (RewardEntry.userId e))
          + orElse (RewardEntry.points e) 0).
Proof.
  unfold addTotal.
  destruct (JsObj.get o (RewardEntry.userId e)) as [v|] eqn:G.
  - destruct (v =? 0) eqn:Z0.
    + apply Z.eqb_eq in Z0. subst. now rewrite !get_set_same.
    + now rewrite G, get_set_same.
  - now rewrite !get_set_same.
Qed.

Lemma addTotal_get_other o e u :
  RewardEntry.userId e <> u ->
  JsObj.get (addTotal o e) u = JsObj.get o u.
Proof.
  intros Hne. unfold addTotal.
  destruct (JsObj.get o (RewardEntry.userId e)) as [v|] eqn:G.
  - destruct (v =? 0).
    + rewrite get_set_same, !get_set_other; auto.
    + rewrite G, get_set_other; auto.
  - rewrite get_set_same, !get_set_other; auto.
Qed.

Lemma addTotal_nodup o e :
  NoDup (map fst o) -> NoDup (map fst (addTotal o e)).
Proof.
  intros H. unfold addTotal.
  destruct (JsObj.get o (RewardEntry.userId e)) as [v|] eqn:G.
  - destruct (v =? 0).
    + rewrite get_set_same. auto using set_nodup.
    + rewrite G. auto using set_nodup.
  - rewrite get_set_same. auto using set_nodup.
Qed.

Lemma fold_addTotal_nodup h :
  forall o, NoDup (map fst o) -> NoDup (map fst (fold_left addTotal h o)).
Proof.
  induction h as [|e r IH]; intros o H; simpl; auto using addTotal_nodup.
Qed.

Lemma fold_addTotal_get h :
  forall o u,
    JsObj.get (fold_left addTotal h o) u
    = if mentions u h
      then Some (pointsOr0 (JsObj.get o u) + ledgerTotal h u)
      else JsObj.get o u.
Proof.
  induction h as [|e r IH]; intros o u; [reflexivity|].
  cbn [fold_left mentions existsb]. fold (mentions u r).
  rewrite IH, ledgerTotal_cons.
  destruct (String.eqb (RewardEntry.userId e) u) eqn:E.
  - apply String.eqb_eq in E. subst u. rewrite addTotal_get_same. cbn [orb].
    destruct (mentions (RewardEntry.userId e) r) eqn:M.
    + simpl. f_equal. lia.
    + rewrite (ledgerTotal_unmentioned _ _ M). f_equal. lia.
  - apply String.eqb_neq in E. rewrite (addTotal_get_other _ _ _ E). cbn [orb].
    destruct (mentions u r); auto.
Qed.

Lemma totalsByUser_get h u :
  JsObj.get (totalsByUser h) u
  = if mentions u h then Some (ledgerTotal h u) else None.
Proof. unfold totalsByUser. now rewrite fold_addTotal_get. Qed.

Lemma totalsByUser_nodup h : NoDup (map fst (totalsByUser h)).
Proof. apply fold_addTotal_nodup. constructor. Qed.

Lemma totalsByUser_in h u p :
  In (u, p) (totalsByUser h)
  <-> In u (map RewardEntry.userId h) /\ p = ledgerTotal h u.
Proof.
  split.
  - intros H. apply in_get_some in H; [|apply totalsByUser_nodup].
    rewrite totalsByUser_get in H.
    destruct (mentions u h) eqn:M; [|discriminate].
    apply mentions_in in M. inversion H; auto.
  - intros [Hu ->]. apply get_some_in. rewrite totalsByUser_get.
    apply mentions_in in Hu. now rewrite Hu.
Qed.

Lemma totalsByUser_keys h u :
  In u (map fst (totalsByUser h)) <-> In u (map RewardEntry.userId h).
Proof.
  rewrite in_map_iff. split.
  - intros ([u' p] & <- & H). now apply totalsByUser_in in H.
  - intros H. exists (u, ledgerTotal h u). split; auto.
    now apply totalsByUser_in.
Qed.

(** ** Sorting and slicing *)

Lemma insertDesc_perm e l : Permutation (insertDesc e l) (e :: l).
Proof.
  induction l as [|e' r IH]; simpl; auto.
  destruct (snd e' <=? snd e); auto.
  rewrite IH. apply perm_swap.
Qed.

Lemma sortDesc_perm l : Permutation (sortDesc l) l.
Proof.
  induction l as [|e r IH]; simpl; auto.
  rewrite insertDesc_perm. now constructor.
Qed.





(** ** The board over plain user ids *)

Lemma plain_not_proto k : JsObj.plain k = true -> String.eqb k "__proto__" = false.
Proof.
  intros H. destruct (String.eqb k "__proto__") eqn:E; [|reflexivity].
  apply String.eqb_eq in E. subst k. discriminate H.
Qed.

Lemma get_shown (o : JsObj.t Z) k :
  JsObj.get (map shown o) k = option_map PNum (JsObj.get o k).
Proof.
  induction o as [|[k' v] r IH]; [reflexivity|].
  cbn [map shown fst snd JsObj.get]. now destruct (String.eqb k' k).
Qed.

Lemma set_shown (o : JsObj.t Z) k v :
  JsObj.set (map shown o) k (PNum v) = map shown (JsObj.set o k v).
Proof.
  induction o as [|[k' v'] r IH]; [reflexivity|].
  cbn [map shown fst snd JsObj.set].
  destruct (String.eqb k' k); [reflexivity|].
  cbn [map shown fst snd]. now rewrite IH.
Qed.

Lemma read_shown (o : JsObj.t Z) k :
  JsObj.plain k = true ->
  JsObj.read (map shown o) k
  = match JsObj.get o k with
    | Some v => JsObj.Own (PNum v)
    | None => JsObj.Missing
    end.
Proof.
  intros H. unfold JsObj.read. rewrite get_shown, H.
  now destruct (JsObj.get o k).
Qed.

Lemma assign_shown (o : JsObj.t Z) k v :
  JsObj.plain k = true ->
  JsObj.assign (map shown o) k (PNum v) = map shown (JsObj.set o k v).
Proof.
  intros H. unfold JsObj.assign. rewrite (plain_not_proto k H).
  apply set_shown.
Qed.

(** The read of [+=] in [addReward] never finds nothing. *)
Lemma addReward_reads_back (o : JsObj.t Points) u :
  JsObj.read (if falsy (JsObj.read o u) then JsObj.assign o u (PNum 0) else o) u
  <> JsObj.Missing.
Proof.
  assert (Hown : forall (o' : JsObj.t Points) v,
             JsObj.get o' u = Some v -> JsObj.read o' u <> JsObj.Missing).
  { intros o' v G. unfold JsObj.read. now rewrite G. }
  destruct (JsObj.get o u) as [v|] eqn:G.
  - destruct (falsy (JsObj.read o u)); [|now apply (Hown o v)].
    unfold JsObj.assign. destruct (String.eqb u "__proto__").
    + now apply (Hown o v).
    + apply (Hown _ (PNum 0)). apply get_set_same.
  - destruct (JsObj.plain u) eqn:P.
    + assert (R : JsObj.read o u = JsObj.Missing)
        by (unfold JsObj.read; now rewrite G, P).
      rewrite R. cbn [falsy]. unfold JsObj.assign.
      rewrite (plain_not_proto u P).
      apply (Hown _ (PNum 0)). apply get_set_same.
    + assert (R : JsObj.read o u = JsObj.Inherited)
        by (unfold JsObj.read; now rewrite G, P).
      rewrite R. cbn [falsy]. rewrite R. discriminate.
Qed.

(** On a plain user id [addReward] is [addTotal]. *)
Lemma addReward_plain o e :
  JsObj.plain (RewardEntry.userId e) = true ->
  addReward (map shown o) e = map shown (addTotal o e).
Proof.
  intros H. unfold addReward, addTotal.
  rewrite (read_shown o _ H).
  destruct (JsObj.get o (RewardEntry.userId e)) as [v|] eqn:G; cbn [falsy].
  - destruct (v =? 0).
    + rewrite (assign_shown o _ 0 H), (read_shown _ _ H), get_set_same.
      now rewrite assign_shown.
    + rewrite (read_shown o _ H), G. now rewrite assign_shown.
  - rewrite (assign_shown o _ 0 H), (read_shown _ _ H), get_set_same.
    now rewrite assign_shown.
Qed.

Lemma fold_addReward_plain h :
  forallb JsObj.plain (map RewardEntry.userId h) = true ->
  forall o, fold_left addReward h (map shown o) = map shown (fold_left addTotal h o).
Proof.
  induction h as [|e r IH]; intros H o; [reflexivity|].
  cbn [map forallb] in H. apply andb_true_iff in H. destruct H as [He Hr].
  cbn [fold_left]. rewrite (addReward_plain o e He). now apply IH.
Qed.

Lemma groupPoints_plain s :
  plainUsers s = true ->
  groupPoints (rewardHistory s) = map shown (totalsByUser (rewardHistory s)).
Proof.
  intros H. unfold groupPoints, totalsByUser.
  now apply (fold_addReward_plain (rewardHistory s) H []).
Qed.

Lemma insertIdx_shown (e : N * (string * Z)) l :
  JsObj.insertIdx (fst e, shown (snd e))
    (map (fun x => (fst x, shown (snd x))) l)
  = map (fun x => (fst x, shown (snd x))) (JsObj.insertIdx e l).
Proof.
  induction l as [|e' r IH]; [reflexivity|].
  cbn [map JsObj.insertIdx fst]. destruct (fst e <=? fst e')%N; [reflexivity|].
  cbn [map]. now rewrite IH.
Qed.

Lemma entries_shown (o : JsObj.t Z) :
  JsObj.entries (map shown o) = map shown (JsObj.entries o).
Proof.
  unfold JsObj.entries. rewrite map_app. f_equal.
  - assert (H : fold_right JsObj.insertIdx [] (JsObj.indexed (map shown o))
                = map (fun x => (fst x, shown (snd x)))
                    (fold_right JsObj.insertIdx [] (JsObj.indexed o))).
    { unfold JsObj.indexed.
      induction o as [|[k v] r IH]; [reflexivity|].
      cbn [map flat_map shown fst snd].
      destruct (JsObj.arrayIndex k) as [n|]; cbn [app fold_right].
      - rewrite IH. apply (insertIdx_shown (n, (k, v))).
      - exact IH. }
    rewrite H, !map_map. reflexivity.
  - unfold JsObj.named. induction o as [|[k v] r IH]; [reflexivity|].
    cbn [map filter shown fst snd].
    destruct (JsObj.arrayIndex k); cbn [map]; now rewrite IH.
Qed.

Lemma numericEntries_shown l : numericEntries (map shown l) = Some l.
Proof.
  induction l as [|[k z] r IH]; [reflexivity|].
  cbn [map shown fst snd numericEntries]. now rewrite IH.
Qed.

Lemma slice0_map {A B} (f : A -> B) l limit :
  slice0 (map f l) limit = map f (slice0 l limit).
Proof. unfold slice0. rewrite length_map. apply firstn_map. Qed.

(** With plain user ids the board is that of the sums. *)
Lemma leaderboard_plain s type limit :
  plainUsers s = true ->
  generateLeaderboard s type limit
  = Some (mapIndexed (toRow s) (map shown (ranked s limit)) 0).
Proof.
  intros H. unfold generateLeaderboard, sortEntries, ranked.
  rewrite (groupPoints_plain s H), entries_shown, numericEntries_shown.
  now rewrite slice0_map.
Qed.

(** ** Rows of the leaderboard *)


Lemma rows_length s l : forall i, length (mapIndexed (toRow s) l i) = length l.
Proof. induction l as [|e r IH]; intros i; simpl; [|rewrite IH]; reflexivity. Qed.






(** C7: the leaderboard sums a user's points only when the user id is a
    plain key of [userPoints].  After one completed "workout" log (20
    points) by a user called "constructor", [calculateTotalPoints] gives
    20 but the user's row holds the text of the inherited function
    [Object] followed by "20"; and a user called "__proto__" with 20
    points gets no row at all. *)
Theorem leaderboard_inherited_user_ids :
  (let s := snd (logActivity (envAt 1) (logReq "constructor" "workout" (Js.VBool true))
                   emptyStore) in
   calculateTotalPoints s "constructor" = 20 /\
   generateLeaderboard s "points" (Js.Fin 10)
   = Some [mkRow 1 "constructor"
             (PText "function Object() { [native code] }20") 0]) /\
  (let s := snd (logActivity (envAt 1) (logReq "__proto__" "workout" (Js.VBool true))
                   emptyStore) in
   calculateTotalPoints s "__proto__" = 20 /\
   ledgerUsers s = ["__proto__"] /\
   generateLeaderboard s "points" (Js.Fin 10) = Some []).
Proof. cbv zeta. repeat split; reflexivity. Qed.

(** ** The handler against its step-by-step description *)

Lemma awardBadge_known u b env k s :
  In b ["7-day-streak"; "30-day-streak"; "healthy-eating"] ->
  awardBadge u b env k s
  = (Some (Some (badgeRecord env k u b)), S k, withBadges s [badgeRecord env k u b]).
Proof.
  intros [<-|[<-|[<-|[]]]]; reflexivity.
Qed.

Lemma mint_app env u ids1 :
  forall k ids2,
    mint env u k (ids1 ++ ids2)
    = mint env u k ids1 ++ mint env u (k + length ids1) ids2.
Proof.
  induction ids1 as [|b r IH]; intros k ids2; simpl.
  - now rewrite Nat.add_0_r.
  - rewrite IH. now rewrite Nat.add_succ_r.
Qed.

Lemma withBadges_nil s : withBadges s [] = s.
Proof. destruct s. unfold withBadges; simpl. now rewrite app_nil_r. Qed.

Lemma withBadges_app s a b : withBadges (withBadges s a) b = withBadges s (a ++ b).
Proof. unfold withBadges; simpl. now rewrite app_assoc. Qed.

Lemma checkStreakEntry_explicit u earned nb e env k s :
  checkStreakEntry u earned nb e env k s
  = (Some (nb ++ map Some (mint env u k (entryAwards earned (snd e)))),
     (k + length (entryAwards earned (snd e)))%nat,
     withBadges s (mint env u k (entryAwards earned (snd e)))).
Proof.
  unfold checkStreakEntry, entryAwards.
  destruct (Js.geb (snd e) (Js.Fin 7) && negb (hasBadge "7-day-streak" earned));
    destruct (Js.geb (snd e) (Js.Fin 30) && negb (hasBadge "30-day-streak" earned)).
  - erewrite bind_run;
      [|erewrite bind_run; [reflexivity|apply awardBadge_known; simpl; auto]].
    erewrite bind_run; [|apply awardBadge_known; simpl; auto].
    unfold ret. cbn [app mint map length].
    rewrite withBadges_app, <- app_assoc. repeat f_equal. lia.
  - erewrite bind_run;
      [|erewrite bind_run; [reflexivity|apply awardBadge_known; simpl; auto]].
    unfold ret. cbn [app mint map length]. repeat f_equal. lia.
  - erewrite bind_run; [|reflexivity].
    erewrite bind_run; [|apply awardBadge_known; simpl; auto].
    unfold ret. cbn [app mint map length]. repeat f_equal. lia.
  - unfold bind, ret. cbn [app mint map length].
    now rewrite app_nil_r, withBadges_nil, Nat.add_0_r.
Qed.

Lemma forEachEntry_explicit u earned es :
  forall nb env k s,
    let ids := flat_map (fun e => entryAwards earned (snd e)) es in
    forEachEntry u earned es nb env k s
    = (Some (nb ++ map Some (mint env u k ids)), (k + length ids)%nat,
       withBadges s (mint env u k ids)).
Proof.
  induction es as [|e es IH]; intros nb env k s; cbn [flat_map forEachEntry].
  - unfold ret. cbn [mint map length].
    now rewrite app_nil_r, withBadges_nil, Nat.add_0_r.
  - erewrite bind_run; [|apply checkStreakEntry_explicit].
    rewrite IH. cbv zeta.
    rewrite mint_app, map_app, withBadges_app, length_app, <- app_assoc.
    now rewrite Nat.add_assoc.
Qed.

(** The badge check of a user with a streak record never throws; it pushes
    exactly the due badges and touches nothing else. *)
Lemma checkForNewBadges_explicit u env k s r0 :
  recordOf s u = Some r0 ->
  checkForNewBadges u env k s
  = (Some (map Some (mint env u k (dueBadges s u r0))),
     (k + length (dueBadges s u r0))%nat,
     withBadges s (mint env u k (dueBadges s u r0))).
Proof.
  intros Hrec. unfold checkForNewBadges, recordOf in *.
  unfold bind at 1. unfold getStore at 1. rewrite Hrec.
  erewrite bind_run; [|apply forEachEntry_explicit].
  unfold bind at 1. unfold getStore at 1.
  unfold dueBadges, earnedBy. cbn [withBadges dailyHabits app].
  destruct (7 <=? length (filter (isNutritionActivity u) (dailyHabits s)))%nat.
  - erewrite bind_run; [|apply awardBadge_known; simpl; auto].
    unfold ret.
    rewrite mint_app, map_app, withBadges_app, length_app. cbn [mint map length].
    repeat f_equal; lia.
  - unfold ret. now rewrite !app_nil_r.
Qed.

Lemma logActivityBody_explicit env u t c m s :
  exists k,
    logActivityBody u t c m env 0%nat s
    = (Some (fst (accepted env u t c m s)), k, snd (accepted env u t c m s)).
Proof.
  unfold logActivityBody.
  unfold bind at 1. unfold ask at 1.
  unfold bind at 1. unfold freshUuid at 1.
  unfold bind at 1. unfold getStore at 1.
  unfold bind at 1. unfold putStore at 1.
  fold (newLog env u t c m). fold (withLog s (newLog env u t c m)).
  set (log := newLog env u t c m).
  erewrite bind_run; [|apply updateStreak_run].
  assert (Hr' : advance env (withLog s log) u t (Js.notStrictlyFalse c)
                  (baseRecord env (withLog s log) u)
                = advance env s u t (Js.notStrictlyFalse c) (baseRecord env s u)).
  { unfold advance, withLog; simpl. rewrite find_snoc.
    unfold log. rewrite yesterday_not_today.
    now destruct (find (sameLogKey u t (yesterday env)) (dailyHabits s)). }
  rewrite Hr'.
  set (r' := advance env s u t (Js.notStrictlyFalse c) (baseRecord env s u)).
  assert (Hown : ofUser u r' = true).
  { apply ofUser_eq. unfold r', advance; simpl. apply baseRecord_user. }
  cbv beta.
  cbn [withLog userStreaks userBadges rewardHistory dailyHabits].
  fold (withLog s log).
  change (mkStore (storeRecord (userStreaks s) u r') (userBadges s)
                  (rewardHistory s) (dailyHabits s ++ [log]))
    with (withStreaks (withLog s log) (storeRecord (userStreaks s) u r')).
  set (s2 := withStreaks (withLog s log) (storeRecord (userStreaks s) u r')).
  erewrite bind_run;
    [|apply (checkForNewBadges_explicit u env 1%nat s2 r');
      unfold recordOf, s2; simpl; now apply storeRecord_find].
  cbv beta.
  unfold accepted. fold log. fold r'. fold s2. cbv zeta.
  unfold awardPoints.
  destruct (Js.truthy c); simpl.
  - eexists. reflexivity.
  - eexists. reflexivity.
Qed.

(** An accepted request is served exactly as [accepted] describes. *)
Lemma logActivity_accepted env req s u t :
  req_userId req = Some u -> req_activityType req = Some t ->
  u <> "" -> t <> "" ->
  find (sameLogKey u t (today env)) (dailyHabits s) = None ->
  logActivity env req s = accepted env u t (req_completed req) (req_metrics req) s.
Proof.
  intros Hu Ht Hune Htne Hnone. unfold logActivity. rewrite Hu, Ht.
  apply String.eqb_neq in Hune, Htne. simpl. rewrite Hune, Htne. simpl.
  rewrite Hnone.
  destruct (logActivityBody_explicit env u t (req_completed req) (req_metrics req) s)
    as [k ->].
  now destruct (accepted env u t (req_completed req) (req_metrics req) s).
Qed.

(** Every request is rejected without effect or served as [accepted]. *)
Lemma logActivity_served env req s :
  (snd (logActivity env req s) = s /\
   (fst (logActivity env req s) = ValidationError \/
    fst (logActivity env req s) = DuplicateLogError)) \/
  (exists u t,
     req_userId req = Some u /\ req_activityType req = Some t /\
     u <> "" /\ t <> "" /\
     find (sameLogKey u t (today env)) (dailyHabits s) = None /\
     logActivity env req s
     = accepted env u t (req_completed req) (req_metrics req) s).
Proof.
  destruct (logActivity env req s) as [resp s'] eqn:E.
  pose proof (logActivity_cases _ _ _ _ _ E) as O.
  inversion O as [Hinv | u t old Hu Ht Hune Htne Hold
                 | u t r' nb extra pa entries Hu Ht Hune Htne Hnone _ _]; subst.
  - left. simpl. auto.
  - left. simpl. auto.
  - right. exists u, t. repeat split; auto.
    rewrite <- E. now apply logActivity_accepted.
Qed.

(** ** The record reported by GET /:userId/streaks *)

Lemma userStreakFor_run u env k s :
  userStreakFor u env k s
  = (Some (baseRecord env s u), k,
     match recordOf s u with
     | Some _ => s
     | None => withStreaks s (userStreaks s ++ [freshRecord env u])
     end).
Proof.
  unfold userStreakFor, baseRecord, recordOf.
  unfold bind at 1. unfold getStore at 1.
  destruct (find (ofUser u) (userStreaks s)); reflexivity.
Qed.

Lemma recordOf_created env s u u' :
  recordOf s u = None ->
  recordOf (withStreaks s (userStreaks s ++ [freshRecord env u])) u'
  = if String.eqb u u' then Some (freshRecord env u) else recordOf s u'.
Proof.
  intros Hnone. unfold recordOf in *. cbn [withStreaks userStreaks].
  rewrite find_snoc. unfold ofUser at 2. cbn [freshRecord UserStreak.userId].
  destruct (String.eqb u u') eqn:E.
  - apply String.eqb_eq in E. subst u'. now rewrite Hnone.
  - now destruct (find (ofUser u') (userStreaks s)).
Qed.

Lemma counters_after_lookup env u s u' t :
  streakOf (snd (userStreakFor u env 0%nat s)) u' t = streakOf s u' t /\
  longestOf (snd (userStreakFor u env 0%nat s)) u' t = longestOf s u' t.
Proof.
  rewrite userStreakFor_run. cbn [snd].
  destruct (recordOf s u) eqn:Hrec; auto.
  unfold streakOf, longestOf, baseRecord.
  rewrite (recordOf_created env s u u' Hrec).
  destruct (String.eqb u u') eqn:E; auto.
  apply String.eqb_eq in E. subst u'. now rewrite Hrec.
Qed.

(** X1: the lookup behind GET /:userId/streaks never fails and reports the
    user's record; for a user without a record it creates one with all
    five counters at zero (a read that writes), exactly once: a second
    lookup finds that record and changes nothing.  No lookup changes the
    current or longest streak that any user reads afterwards. *)
Theorem streaks_lookup_creates_once env env' u s :
  fst (fst (userStreakFor u env 0%nat s)) = Some (baseRecord env s u) /\
  (recordOf s u <> None -> snd (userStreakFor u env 0%nat s) = s) /\
  (recordOf s u = None ->
     snd (userStreakFor u env 0%nat s)
     = withStreaks s (userStreaks s ++ [freshRecord env u])) /\
  userStreakFor u env' 0%nat (snd (userStreakFor u env 0%nat s))
  = (Some (baseRecord env s u), 0%nat, snd (userStreakFor u env 0%nat s)) /\
  (forall u' t,
     streakOf (snd (userStreakFor u env 0%nat s)) u' t = streakOf s u' t /\
     longestOf (snd (userStreakFor u env 0%nat s)) u' t = longestOf s u' t).
Proof.
  split; [now rewrite userStreakFor_run|].
  split; [rewrite userStreakFor_run; cbn [snd];
          destruct (recordOf s u); congruence|].
  split; [intros Hnone; rewrite userStreakFor_run; cbn [snd]; now rewrite Hnone|].
  split; [|intros u' t; apply counters_after_lookup].
  rewrite (userStreakFor_run u env 0%nat s). cbn [snd].
  rewrite userStreakFor_run.
  destruct (recordOf s u) as [r|] eqn:Hrec.
  - rewrite Hrec. unfold baseRecord. now rewrite Hrec.
  - unfold baseRecord at 1.
    rewrite (recordOf_created env s u u Hrec), String.eqb_refl.
    unfold baseRecord. now rewrite Hrec.
Qed.

(** ** Projections of an accepted log *)

Lemma accepted_streaks env u t c m s :
  userStreaks (snd (accepted env u t c m s))
  = storeRecord (userStreaks s) u
      (advance env s u t (Js.notStrictlyFalse c) (baseRecord env s u)).
Proof. unfold accepted. now destruct (Js.truthy c). Qed.

Lemma accepted_habits env u t c m s :
  dailyHabits (snd (accepted env u t c m s))
  = dailyHabits s ++ [newLog env u t c m].
Proof. unfold accepted. now destruct (Js.truthy c). Qed.

Lemma accepted_badges env u t c m s :
  let r' := advance env s u t (Js.notStrictlyFalse c) (baseRecord env s u) in
  let s2 := withStreaks (withLog s (newLog env u t c m))
                        (storeRecord (userStreaks s) u r') in
  userBadges (snd (accepted env u t c m s))
  = userBadges s ++ mint env u 1%nat (dueBadges s2 u r').
Proof. unfold accepted. now destruct (Js.truthy c). Qed.

Lemma accepted_ledger env u t c m s :
  exists id,
    rewardHistory (snd (accepted env u t c m s))
    = rewardHistory s ++
      (if Js.truthy c
       then [RewardEntry.Award id u t (orElse (JsObj.get activityPoints t) 5)
                               (nowIso env)]
       else []).
Proof.
  unfold accepted. destruct (Js.truthy c); simpl.
  - eexists; reflexivity.
  - exists "". now rewrite app_nil_r.
Qed.

Lemma advance_owner env s u t cb :
  ofUser u (advance env s u t cb (baseRecord env s u)) = true.
Proof. apply ofUser_eq. unfold advance; simpl. apply baseRecord_user. Qed.

Lemma find_as_filter {A} (p : A -> bool) l : find p l = hd_error (filter p l).
Proof.
  induction l as [|x r IH]; simpl; auto. destruct (p x); auto.
Qed.

Lemma recordOf_accepted_same env u t c m s :
  recordOf (snd (accepted env u t c m s)) u
  = Some (advance env s u t (Js.notStrictlyFalse c) (baseRecord env s u)).
Proof.
  unfold recordOf. rewrite accepted_streaks.
  apply storeRecord_find, advance_owner.
Qed.

Lemma recordOf_accepted_other env u t c m s u' :
  u' <> u ->
  recordOf (snd (accepted env u t c m s)) u' = recordOf s u'.
Proof.
  intros Hne. unfold recordOf. rewrite accepted_streaks, !find_as_filter.
  f_equal. apply storeRecord_others; [apply advance_owner|].
  intros y Hy. apply ofUser_eq in Hy. unfold ofUser. rewrite Hy.
  now apply String.eqb_neq.
Qed.

Lemma redeemIn_effect binding env u rewardId s :
  snd (redeemIn binding env u rewardId s) = s \/
  exists redemption,
    RewardEntry.points redemption = None /\
    snd (redeemIn binding env u rewardId s) = withLedger s [redemption].
Proof.
  rewrite redeemIn_run.
  destruct binding as [getReward|]; [|now left].
  destruct (getReward rewardId) as [reward|]; [|now left].
  destruct (_ <? _); [now left|].
  right. eexists. split; [|reflexivity]. reflexivity.
Qed.

(** ** Invariants of the reachable stores *)

(** A property of streak records that fresh records have and that the
    assignments of [updateStreak] keep holds of all records of every
    reachable store. *)
Lemma reachable_records (P : UserStreak.t -> Prop) :
  (forall env u, P (freshRecord env u)) ->
  (forall env s u t cb base, P base -> P (advance env s u t cb base)) ->
  forall s, Reachable s -> Forall P (userStreaks s).
Proof.
  intros Hfresh Hadv s Hs.
  induction Hs as [|env req s _ IH|lookup env u rid s _ IH|env u s _ IH].
  - constructor.
  - now apply invariant_logActivity.
  - destruct (redeemIn_effect lookup env u rid s) as [->|(e & _ & ->)]; auto.
  - rewrite userStreakFor_run. cbn [snd].
    destruct (recordOf s u); auto.
    cbn [withStreaks userStreaks]. apply Forall_app. split; auto.
Qed.

Lemma reachable_runLogs reqs :
  forall s, Reachable s -> Reachable (snd (runLogs reqs s)).
Proof.
  induction reqs as [|er r IH]; intros s Hs; simpl; auto.
  apply IH. now apply ReachLog.
Qed.

Lemma no_log_no_key u t d habits :
  find (sameLogKey u t d) habits = None ->
  ~ In (u, t, d) (map logKey habits).
Proof.
  intros Hnone Hin. apply in_map_iff in Hin. destruct Hin as (log & Hk & Hl).
  pose proof (find_none _ _ Hnone log Hl) as Hf.
  unfold logKey in Hk. inversion Hk; subst.
  unfold sameLogKey in Hf.
  now rewrite !String.eqb_refl, Z.eqb_refl in Hf.
Qed.

(** X2: whatever requests were served, the activity log holds at most one
    entry per (userId, activityType, date). *)
Theorem logs_have_unique_keys s :
  Reachable s -> NoDup (map logKey (dailyHabits s)).
Proof.
  intros Hs.
  induction Hs as [|env req s _ IH|lookup env u rid s _ IH|env u s _ IH].
  - constructor.
  - destruct (logActivity_served env req s)
      as [[-> _]|(u & t & _ & _ & _ & _ & Hnone & ->)]; auto.
    rewrite accepted_habits, map_app. apply NoDup_app; auto.
    + repeat constructor. intros [].
    + intros k Hk [<-|[]]. revert Hk. cbn [logKey newLog ActivityLog.userId
        ActivityLog.activityType ActivityLog.date].
      now apply no_log_no_key.
  - destruct (redeemIn_effect lookup env u rid s) as [->|(e & _ & ->)]; auto.
  - rewrite userStreakFor_run. cbn [snd]. destruct (recordOf s u); auto.
Qed.

Lemma logs_have_unique_keys_witness :
  NoDup (map logKey
           (dailyHabits (snd (logActivity (envAt 2) (logReq "alice" "sleep" Js.VNull)
                                emptyStore)))).
Proof.
  apply (logs_have_unique_keys
           (snd (logActivity (envAt 2) (logReq "alice" "sleep" Js.VNull) emptyStore))).
  apply ReachLog. apply ReachEmpty.
Defined.

Lemma set_in {V} (o : JsObj.t V) k v e :
  In e (JsObj.set o k v) -> e = (k, v) \/ In e o.
Proof.
  induction o as [|[k0 v0] r IH]; simpl.
  - intros [<-|[]]. now left.
  - destruct (String.eqb k0 k) eqn:E; simpl.
    + apply String.eqb_eq in E. subst k0. intros [<-|H]; auto.
    + intros [<-|H]; auto. destruct (IH H); auto.
Qed.

Lemma wholeCounters_set o k a :
  wholeCounters o -> 0 <= a -> wholeCounters (JsObj.set o k (Js.Fin a)).
Proof.
  intros Ho Ha k' v' Hin. apply set_in in Hin. destruct Hin as [Heq|Hin].
  - inversion Heq; subst. eauto.
  - eauto.
Qed.

Lemma wholeCounters_initial : wholeCounters initialCounters.
Proof.
  intros k v Hin. simpl in Hin.
  repeat (destruct Hin as [Hin|Hin]; [inversion Hin; exists 0; split; [auto|lia]|]).
  contradiction.
Qed.

Lemma wholeCounters_get o k v :
  wholeCounters o -> JsObj.get o k = Some v -> exists a, v = Js.Fin a /\ 0 <= a.
Proof. intros Ho Hg. apply get_some_in in Hg. eauto. Qed.

Lemma recordWhole_base env s u :
  Forall recordWhole (userStreaks s) -> recordWhole (baseRecord env s u).
Proof.
  intros Hs. unfold baseRecord, recordOf.
  destruct (find (ofUser u) (userStreaks s)) as [r|] eqn:E.
  - apply find_some in E. destruct E as [E _].
    rewrite Forall_forall in Hs. auto.
  - split; apply wholeCounters_initial.
Qed.

Lemma nextStreaks_whole streaks t cb cont :
  wholeCounters streaks ->
  (cont = true -> JsObj.get streaks t <> None) ->
  wholeCounters (nextStreaks streaks t cb cont).
Proof.
  intros Hw Hknown. unfold nextStreaks.
  destruct cb; [destruct cont|]; try (apply wholeCounters_set; auto; lia).
  destruct (JsObj.get streaks t) as [v|] eqn:G; [|now destruct Hknown].
  destruct (wholeCounters_get _ _ _ Hw G) as (a & -> & Ha). simpl.
  apply wholeCounters_set; auto. lia.
Qed.

Lemma nextLongest_whole streaks longest t cb :
  wholeCounters streaks -> wholeCounters longest ->
  wholeCounters (nextLongest streaks longest t cb).
Proof.
  intros Hs Hl. unfold nextLongest.
  destruct cb; auto. destruct (Js.gtb _ _); auto.
  destruct (JsObj.get streaks t) as [n|] eqn:G; auto.
  destruct (wholeCounters_get _ _ _ Hs G) as (a & -> & Ha).
  now apply wholeCounters_set.
Qed.

Lemma baseRecord_lookup env env' u u' s :
  UserStreak.streaks (baseRecord env' (snd (userStreakFor u env 0%nat s)) u')
  = UserStreak.streaks (baseRecord env' s u').
Proof.
  rewrite userStreakFor_run. cbn [snd].
  destruct (recordOf s u) eqn:Hrec; auto.
  unfold baseRecord. rewrite (recordOf_created env s u u' Hrec).
  destruct (String.eqb u u') eqn:E; auto.
  apply String.eqb_eq in E. subst u'. now rewrite Hrec.
Qed.

(** The counters are whole and every logged type has one. *)
Lemma reachable_whole s :
  Reachable s -> Forall recordWhole (userStreaks s) /\ loggedTypesKnown s.
Proof.
  intros Hs.
  induction Hs as [|env req s _ [IHw IHk]|lookup env u rid s _ IH
                  |env u s _ [IHw IHk]].
  - split; [constructor | intros log []].
  - destruct (logActivity_served env req s)
      as [[-> _]|(u & t & _ & _ & _ & _ & Hnone & ->)]; auto.
    set (c := req_completed req). set (m := req_metrics req).
    assert (Hcont : completedLog (find (sameLogKey u t (yesterday env))
                                       (dailyHabits s)) = true ->
                    JsObj.get (UserStreak.streaks (baseRecord env s u)) t <> None).
    { intros Hc.
      destruct (find (sameLogKey u t (yesterday env)) (dailyHabits s))
        as [log|] eqn:F; [|discriminate].
      apply find_some in F. destruct F as [Hin Hkey].
      unfold sameLogKey in Hkey.
      apply andb_true_iff in Hkey. destruct Hkey as [Hkey _].
      apply andb_true_iff in Hkey. destruct Hkey as [Hku Hkt].
      apply String.eqb_eq in Hku, Hkt.
      specialize (IHk log Hin). rewrite Hku, Hkt in IHk.
      destruct (counters_base env s u t) as [-> _]. exact IHk. }
    assert (Hr' : recordWhole (advance env s u t (Js.notStrictlyFalse c)
                                 (baseRecord env s u))).
    { destruct (recordWhole_base env s u IHw) as [Hbs Hbl].
      unfold advance. split; cbn [UserStreak.streaks UserStreak.longestStreaks].
      - now apply nextStreaks_whole.
      - apply nextLongest_whole; auto. now apply nextStreaks_whole. }
    split.
    + rewrite accepted_streaks. now apply Forall_storeRecord.
    + intros log Hlog. rewrite accepted_habits in Hlog.
      unfold baseRecord.
      apply in_app_or in Hlog. destruct Hlog as [Hlog|[<-|[]]].
      * destruct (string_dec (ActivityLog.userId log) u) as [Hu|Hu].
        -- rewrite Hu, recordOf_accepted_same.
           unfold advance; cbn [UserStreak.streaks].
           destruct (string_dec (ActivityLog.activityType log) t) as [->|Ht].
           ++ rewrite nextStreaks_same. discriminate.
           ++ rewrite nextStreaks_other by assumption.
              specialize (IHk log Hlog). rewrite Hu in IHk.
              destruct (counters_base env s u (ActivityLog.activityType log))
                as [-> _]. exact IHk.
        -- rewrite recordOf_accepted_other by assumption. apply (IHk log Hlog).
      * cbn [newLog ActivityLog.userId ActivityLog.activityType].
        rewrite recordOf_accepted_same.
        unfold advance; cbn [UserStreak.streaks].
        rewrite nextStreaks_same. discriminate.
  - destruct (redeemIn_effect lookup env u rid s) as [->|(e & _ & ->)]; auto.
  - split.
    + rewrite userStreakFor_run. cbn [snd]. destruct (recordOf s u); auto.
      cbn [withStreaks userStreaks]. apply Forall_app. split; auto.
      repeat constructor; apply wholeCounters_initial.
    + intros log Hlog. rewrite baseRecord_lookup.
      apply IHk. revert Hlog. rewrite userStreakFor_run. cbn [snd].
      now destruct (recordOf s u).
Qed.

(** X3: whatever requests were served, every current and longest streak
    that can be read under a plain activity type is a non-negative
    integer: no such counter is ever [NaN] or negative. *)
Theorem counters_are_whole s u t v :
  Reachable s ->
  JsObj.plain t = true ->
  streakOf s u t = Some v \/ longestOf s u t = Some v ->
  exists a, v = Js.Fin a /\ 0 <= a.
Proof.
  intros Hs _ Hv. destruct (reachable_whole s Hs) as [Hw _].
  destruct (recordWhole_base (envAt 0) s u Hw) as [Hws Hwl].
  destruct Hv as [Hv|Hv].
  - exact (wholeCounters_get _ _ _ Hws Hv).
  - exact (wholeCounters_get _ _ _ Hwl Hv).
Qed.

Lemma counters_are_whole_witness :
  exists a, Js.Fin 2 = Js.Fin a /\ 0 <= a.
Proof.
  apply (counters_are_whole
           (snd (runLogs (dailyLogs "alice" "workout" (Js.VBool true) [1; 2])
                   emptyStore))
           "alice" "workout" (Js.Fin 2)).
  - apply reachable_runLogs. apply ReachEmpty.
  - reflexivity.
  - left. reflexivity.
Defined.

(** ** Streak badges *)

Lemma hasBadge_held s u b :
  hasBadge b (earnedBy s u) = negb (badgesHeld s u b =? 0)%nat.
Proof.
  unfold hasBadge, earnedBy, badgesHeld.
  induction (userBadges s) as [|x l IH]; simpl; auto.
  destruct (String.eqb (UserBadge.userId x) u); simpl; auto.
  destruct (String.eqb (UserBadge.badgeId x) b); simpl; auto.
Qed.

Lemma held_mint env u0 u b ids :
  forall k,
    length (filter (fun x => String.eqb (UserBadge.userId x) u
                             && String.eqb (UserBadge.badgeId x) b)
                   (mint env u0 k ids))
    = if String.eqb u0 u then count_occ string_dec ids b else 0%nat.
Proof.
  induction ids as [|i r IH]; intros k; simpl.
  - now destruct (String.eqb u0 u).
  - specialize (IH (S k)).
    destruct (String.eqb u0 u) eqn:E; simpl; auto.
    destruct (string_dec i b) as [->|Hne].
    + rewrite String.eqb_refl. simpl. now rewrite IH.
    + apply String.eqb_neq in Hne. now rewrite Hne.
Qed.

Lemma badgesHeld_accepted env u0 t c m s u b :
  let r' := advance env s u0 t (Js.notStrictlyFalse c) (baseRecord env s u0) in
  let s2 := withStreaks (withLog s (newLog env u0 t c m))
                        (storeRecord (userStreaks s) u0 r') in
  badgesHeld (snd (accepted env u0 t c m s)) u b
  = (badgesHeld s u b
     + if String.eqb u0 u then count_occ string_dec (dueBadges s2 u0 r') b
       else 0)%nat.
Proof.
  intros r' s2. unfold badgesHeld.
  rewrite accepted_badges, filter_app, length_app. cbv zeta.
  now rewrite held_mint.
Qed.

Lemma filter_length_perm {A} (f : A -> bool) l l' :
  Permutation l l' -> length (filter f l) = length (filter f l').
Proof.
  induction 1 as [|x l l' _ IH|x y l|l l' l'' _ IH1 _ IH2]; simpl; auto.
  - destruct (f x); simpl; auto.
  - destruct (f x), (f y); simpl; auto.
  - congruence.
Qed.

Lemma nextStreaks_is_set o t cb cont :
  nextStreaks o t cb cont = JsObj.set o t (stepStreak cb cont (JsObj.get o t)).
Proof. unfold nextStreaks, stepStreak. now destruct cb; [destruct cont|]. Qed.

Lemma NoDup_map_fst {A B} (l : list (A * B)) : NoDup (map fst l) -> NoDup l.
Proof.
  induction l as [|x r IH]; simpl; intros H; [constructor|].
  inversion H as [|? ? Hn Hr]; subst. constructor; auto.
  intros Hin. apply Hn. now apply in_map.
Qed.

Lemma length_all_equal {A} (l : list A) a :
  NoDup l -> (forall x, In x l -> x = a) -> (length l <= 1)%nat.
Proof.
  intros Hn Hall. destruct l as [|x [|y r]]; simpl; auto.
  exfalso. inversion Hn as [|? ? Hx _]; subst. apply Hx.
  rewrite (Hall x), (Hall y); simpl; auto.
Qed.

(** After a counter is assigned in an object whose counters were all
    below [n], at most that counter is at least [n]. *)
Lemma countAtLeast_set n o t v :
  NoDup (map fst o) ->
  (forall k w, In (k, w) o -> Js.geb w (Js.Fin n) = false) ->
  countAtLeast n (JsObj.set o t v) = if Js.geb v (Js.Fin n) then 1%nat else 0%nat.
Proof.
  intros Hn Hlow. unfold countAtLeast.
  set (f := fun e : string * Js.num => Js.geb (snd e) (Js.Fin n)).
  assert (Hall : forall e, In e (filter f (JsObj.set o t v)) -> e = (t, v)).
  { intros [k w] He. apply filter_In in He. destruct He as [He Hf].
    apply set_in in He. destruct He as [He|He]; auto.
    unfold f in Hf. simpl in Hf. now rewrite (Hlow k w He) in Hf. }
  assert (Hle : (length (filter f (JsObj.set o t v)) <= 1)%nat).
  { apply (length_all_equal _ (t, v)); auto.
    apply NoDup_filter, NoDup_map_fst, set_nodup, Hn. }
  destruct (Js.geb v (Js.Fin n)) eqn:G.
  - assert (Hin : In (t, v) (filter f (JsObj.set o t v))).
    { apply filter_In. split; [apply get_some_in, get_set_same | exact G]. }
    destruct (filter f (JsObj.set o t v)); [destruct Hin | simpl in *; lia].
  - destruct (filter f (JsObj.set o t v)) as [|e r] eqn:F; auto.
    assert (He : In e (filter f (JsObj.set o t v))) by (rewrite F; now left).
    pose proof (Hall e (or_introl eq_refl)) as ->.
    apply filter_In in He. destruct He as [_ Hf]. unfold f in Hf. simpl in Hf.
    congruence.
Qed.

Lemma uniqueKeys_reachable s :
  Reachable s -> Forall uniqueKeys (userStreaks s).
Proof.
  apply reachable_records.
  - intros env u. unfold uniqueKeys; simpl.
    repeat constructor; simpl; intuition discriminate.
  - intros env s' u t cb base Hb. unfold uniqueKeys, advance; simpl.
    rewrite nextStreaks_is_set. now apply set_nodup.
Qed.

Lemma uniqueKeys_base env s u :
  Reachable s -> uniqueKeys (baseRecord env s u).
Proof.
  intros Hs. apply invariant_base.
  - intros env' u'. unfold uniqueKeys; simpl.
    repeat constructor; simpl; intuition discriminate.
  - now apply uniqueKeys_reachable.
Qed.

Section StreakBadge.
Variable n : Z.
Variable badgeId : string.
Hypothesis n_positive : 0 < n.
Hypothesis not_nutrition : badgeId <> "healthy-eating".
Hypothesis awards_counted :
  forall earned es,
    count_occ string_dec (flat_map (fun e => entryAwards earned (snd e)) es) badgeId
    = if hasBadge badgeId earned then 0%nat else countAtLeast n es.

Lemma due_counted s u r :
  count_occ string_dec (dueBadges s u r) badgeId
  = if (badgesHeld s u badgeId =? 0)%nat
    then countAtLeast n (UserStreak.streaks r) else 0%nat.
Proof.
  unfold dueBadges. rewrite count_occ_app, awards_counted, hasBadge_held.
  assert (Hnut : count_occ string_dec
                   (if (7 <=? length (filter (isNutritionActivity u) (dailyHabits s)))%nat
                    then ["healthy-eating"] else []) badgeId = 0%nat).
  { destruct (7 <=? _)%nat; cbn [count_occ]; auto.
    destruct (string_dec "healthy-eating" badgeId); auto. congruence. }
  rewrite Hnut, Nat.add_0_r.
  destruct (badgesHeld s u badgeId =? 0)%nat; simpl; auto.
  unfold countAtLeast. apply filter_length_perm, entries_perm.
Qed.

Lemma kept_after_accept env u t c m s :
  Reachable s ->
  streakBadgeKept s u n badgeId ->
  streakBadgeKept (snd (accepted env u t c m s)) u n badgeId.
Proof.
  intros Hs [Hle Hheld].
  set (base := baseRecord env s u).
  set (v := stepStreak (Js.notStrictlyFalse c)
              (completedLog (find (sameLogKey u t (yesterday env)) (dailyHabits s)))
              (JsObj.get (UserStreak.streaks base) t)).
  set (r' := advance env s u t (Js.notStrictlyFalse c) base).
  set (s2 := withStreaks (withLog s (newLog env u t c m))
                         (storeRecord (userStreaks s) u r')).
  assert (Hstreaks : UserStreak.streaks r' = JsObj.set (UserStreak.streaks base) t v).
  { unfold r', advance; cbn [UserStreak.streaks]. apply nextStreaks_is_set. }
  assert (Hbase' : UserStreak.streaks
                     (baseRecord (envAt 0) (snd (accepted env u t c m s)) u)
                   = JsObj.set (UserStreak.streaks base) t v).
  { unfold baseRecord at 1. now rewrite recordOf_accepted_same. }
  assert (Hheld' : badgesHeld (snd (accepted env u t c m s)) u badgeId
                   = (badgesHeld s u badgeId
                      + if (badgesHeld s u badgeId =? 0)%nat
                        then countAtLeast n (JsObj.set (UserStreak.streaks base) t v)
                        else 0)%nat).
  { rewrite badgesHeld_accepted. cbv zeta. fold base. fold r'. fold s2.
    rewrite String.eqb_refl, due_counted, Hstreaks. reflexivity. }
  assert (Hold : forall k w, In (k, w) (UserStreak.streaks base) ->
                             Js.geb w (Js.Fin n) = true ->
                             badgesHeld s u badgeId = 1%nat).
  { intros k w Hin. apply (Hheld k w).
    destruct (baseRecord_counters env (envAt 0) s u) as [<- _]. exact Hin. }
  unfold streakBadgeKept. rewrite Hbase', Hheld'.
  destruct (badgesHeld s u badgeId =? 0)%nat eqn:Hz.
  - apply Nat.eqb_eq in Hz.
    assert (Hlow : forall k w, In (k, w) (UserStreak.streaks base) ->
                               Js.geb w (Js.Fin n) = false).
    { intros k w Hin. destruct (Js.geb w (Js.Fin n)) eqn:G; auto.
      specialize (Hold k w Hin G). lia. }
    rewrite countAtLeast_set;
      [|apply (uniqueKeys_base env s u Hs)|exact Hlow].
    rewrite Hz. split.
    + destruct (Js.geb v (Js.Fin n)); simpl; lia.
    + intros k w Hin Hge. apply set_in in Hin. destruct Hin as [Hin|Hin].
      * inversion Hin; subst k w. now rewrite Hge.
      * rewrite (Hlow k w Hin) in Hge. discriminate.
  - apply Nat.eqb_neq in Hz. rewrite Nat.add_0_r. split; [exact Hle|].
    intros _ _ _ _. lia.
Qed.

Lemma streakBadgeKept_reachable s :
  Reachable s -> forall u, streakBadgeKept s u n badgeId.
Proof.
  intros Hs.
  induction Hs as [|env req s Hs IH|lookup env u0 rid s _ IH|env u0 s _ IH];
    intros u.
  - split; [unfold badgesHeld; simpl; lia|]. intros k v Hin Hge. exfalso.
    destruct (wholeCounters_initial k v Hin) as (a & -> & _).
    simpl in Hin.
    repeat (destruct Hin as [Hin|Hin];
            [inversion Hin; subst; simpl in Hge; apply Z.geb_le in Hge; lia|]).
    contradiction.
  - destruct (logActivity_served env req s)
      as [[-> _]|(u0 & t & _ & _ & _ & _ & Hnone & ->)]; auto.
    destruct (string_dec u0 u) as [->|Hne].
    + apply kept_after_accept; auto.
    + destruct (IH u) as [Hle Hheld].
      unfold streakBadgeKept. rewrite badgesHeld_accepted. cbv zeta.
      apply String.eqb_neq in Hne. rewrite Hne, Nat.add_0_r.
      apply String.eqb_neq in Hne.
      unfold baseRecord. rewrite recordOf_accepted_other by congruence.
      split; auto.
  - destruct (redeemIn_effect lookup env u0 rid s) as [->|(e & _ & ->)]; auto.
    exact (IH u).
  - destruct (IH u) as [Hle Hheld]. unfold streakBadgeKept.
    rewrite baseRecord_lookup.
    assert (Hb : badgesHeld (snd (userStreakFor u0 env 0%nat s)) u badgeId
                 = badgesHeld s u badgeId).
    { rewrite userStreakFor_run. cbn [snd]. now destruct (recordOf s u0). }
    rewrite Hb. auto.
Qed.
End StreakBadge.

Lemma count_if_single (cond : bool) x b :
  count_occ string_dec (if cond then [x] else []) b
  = if cond && String.eqb x b then 1%nat else 0%nat.
Proof.
  destruct cond; simpl; auto.
  destruct (string_dec x b) as [->|Hne].
  - now rewrite String.eqb_refl.
  - apply String.eqb_neq in Hne. now rewrite Hne.
Qed.

Lemma countAtLeast_cons n e es :
  countAtLeast n (e :: es)
  = ((if Js.geb (snd e) (Js.Fin n) then 1 else 0) + countAtLeast n es)%nat.
Proof. unfold countAtLeast. simpl. now destruct (Js.geb _ _). Qed.

Lemma awards_counted_7 earned es :
  count_occ string_dec (flat_map (fun e => entryAwards earned (snd e)) es)
            "7-day-streak"
  = if hasBadge "7-day-streak" earned then 0%nat else countAtLeast 7 es.
Proof.
  induction es as [|e es IH].
  - simpl. now destruct (hasBadge _ _).
  - cbn [flat_map]. rewrite count_occ_app, IH, countAtLeast_cons.
    unfold entryAwards. rewrite count_occ_app, !count_if_single.
    change (String.eqb "7-day-streak" "7-day-streak") with true.
    change (String.eqb "30-day-streak" "7-day-streak") with false.
    rewrite andb_false_r, andb_true_r.
    destruct (hasBadge "7-day-streak" earned); simpl.
    + now rewrite andb_false_r.
    + rewrite andb_true_r. destruct (Js.geb (snd e) (Js.Fin 7)); simpl; lia.
Qed.

Lemma awards_counted_30 earned es :
  count_occ string_dec (flat_map (fun e => entryAwards earned (snd e)) es)
            "30-day-streak"
  = if hasBadge "30-day-streak" earned then 0%nat else countAtLeast 30 es.
Proof.
  induction es as [|e es IH].
  - simpl. now destruct (hasBadge _ _).
  - cbn [flat_map]. rewrite count_occ_app, IH, countAtLeast_cons.
    unfold entryAwards. rewrite count_occ_app, !count_if_single.
    change (String.eqb "30-day-streak" "30-day-streak") with true.
    change (String.eqb "7-day-streak" "30-day-streak") with false.
    rewrite andb_false_r, andb_true_r.
    destruct (hasBadge "30-day-streak" earned); simpl.
    + now rewrite andb_false_r.
    + rewrite andb_true_r. destruct (Js.geb (snd e) (Js.Fin 30)); simpl; lia.
Qed.

(** X4: whatever requests were served, no user holds the "7-day-streak"
    badge or the "30-day-streak" badge more than once, and a user one of
    whose current streaks has reached 7 (or 30) days holds the badge. *)
Theorem streak_badges_awarded_once s u :
  Reachable s ->
  (badgesHeld s u "7-day-streak" <= 1)%nat /\
  (badgesHeld s u "30-day-streak" <= 1)%nat /\
  (forall t a, streakOf s u t = Some (Js.Fin a) -> 7 <= a ->
               badgesHeld s u "7-day-streak" = 1%nat) /\
  (forall t a, streakOf s u t = Some (Js.Fin a) -> 30 <= a ->
               badgesHeld s u "30-day-streak" = 1%nat).
Proof.
  intros Hs.
  assert (H7 : streakBadgeKept s u 7 "7-day-streak").
  { apply streakBadgeKept_reachable; auto; try lia; try discriminate.
    apply awards_counted_7. }
  assert (H30 : streakBadgeKept s u 30 "30-day-streak").
  { apply streakBadgeKept_reachable; auto; try lia; try discriminate.
    apply awards_counted_30. }
  destruct H7 as [L7 K7], H30 as [L30 K30].
  repeat split; auto.
  - intros t a Hget Ha. apply (K7 t (Js.Fin a)).
    + now apply get_some_in.
    + simpl. apply Z.geb_le. lia.
  - intros t a Hget Ha. apply (K30 t (Js.Fin a)).
    + now apply get_some_in.
    + simpl. apply Z.geb_le. lia.
Qed.

Lemma streak_badges_awarded_once_witness :
  Nat.le (badgesHeld (snd (runLogs (dailyLogs "alice" "sleep" (Js.VBool true)
                                      [1; 2; 3; 4; 5; 6; 7; 8; 9]) emptyStore))
                     "alice" "7-day-streak") 1.
Proof.
  apply (streak_badges_awarded_once
           (snd (runLogs (dailyLogs "alice" "sleep" (Js.VBool true)
                            [1; 2; 3; 4; 5; 6; 7; 8; 9]) emptyStore)) "alice").
  apply reachable_runLogs. apply ReachEmpty.
Defined.

(** ** Responses of POST /log-activity *)

(** X5: every error response of POST /log-activity has status 400 and
    leaves all four arrays unchanged; it is the missing-fields answer
    exactly when userId or activityType is missing or empty, and the
    already-logged answer otherwise.  The route never answers 500: the
    badge check, the one step that can throw, always finds the record that
    the streak update has just stored. *)
Theorem log_errors_change_nothing env req s status error :
  fst (logActivity env req s) = LogError status error ->
  status = 400 /\
  snd (logActivity env req s) = s /\
  (LogError status error = ValidationError <->
   Js.truthyStr (req_userId req) && Js.truthyStr (req_activityType req) = false) /\
  (LogError status error <> ValidationError ->
   LogError status error = DuplicateLogError).
Proof.
  intros Herr.
  destruct (logActivity env req s) as [resp s'] eqn:E.
  pose proof (logActivity_cases _ _ _ _ _ E) as O. cbn [fst snd] in *.
  subst resp.
  inversion O as [Hinv Hresp Hs | u t old Hu Ht Hune Htne Hold Hresp Hs
                 | u t r' nb extra pa entries Hu Ht Hune Htne Hnone _ _ Hresp Hs].
  - inversion Hresp; subst.
    split; [reflexivity|]. split; [reflexivity|]. split.
    + split; auto.
    + intros H. now destruct H.
  - inversion Hresp; subst.
    split; [reflexivity|]. split; [reflexivity|]. split.
    + split; [discriminate|]. intros H. exfalso.
      rewrite Hu, Ht in H. simpl in H.
      apply String.eqb_neq in Hune, Htne. rewrite Hune, Htne in H. discriminate.
    + reflexivity.
Qed.

Lemma log_errors_change_nothing_witness :
  400 = 400 /\
  snd (logActivity (envAt 1) (mkLogRequest (Some "alice") None Js.VUndefined Js.VUndefined)
         emptyStore) = emptyStore.
Proof.
  destruct (log_errors_change_nothing (envAt 1)
              (mkLogRequest (Some "alice") None Js.VUndefined Js.VUndefined)
              emptyStore 400 "Missing required fields: userId, activityType"
              eq_refl) as (H1 & H2 & _).
  split; [exact H1 | exact H2].
Defined.

Lemma table_range t : 5 <= orElse (JsObj.get activityPoints t) 5 <= 20.
Proof.
  unfold activityPoints. cbn [JsObj.get].
  repeat match goal with
         | |- context [String.eqb ?a t] => destruct (String.eqb a t)
         end; cbn [orElse Z.eqb]; lia.
Qed.

(** X6: in an accepted log the two readings of [completed] differ.  The
    log is stored as completed, and the streak advanced, unless
    [completed] is exactly [false]; points are paid only when [completed]
    is truthy.  A truthy value earns the table value of the activity type
    (5 for a type not in the table), always between 5 and 20, in one new
    ledger entry; [undefined], [null], [0], [NaN] and the empty string are
    stored as completed and earn nothing.  The activity type is a plain
    key of the points table. *)
Theorem points_follow_truthiness env u t c m s :
  u <> "" -> t <> "" ->
  JsObj.plain t = true ->
  find (sameLogKey u t (today env)) (dailyHabits s) = None ->
  exists log streakUpdate newBadges pointsAwarded,
    fst (logActivity env (mkLogRequest (Some u) (Some t) c m) s)
      = LogOk log streakUpdate newBadges pointsAwarded /\
    ActivityLog.completed log = Js.notStrictlyFalse c /\
    (Js.truthy c = true ->
       pointsAwarded = orElse (JsObj.get activityPoints t) 5 /\
       5 <= pointsAwarded <= 20 /\
       exists id,
         rewardHistory (snd (logActivity env (mkLogRequest (Some u) (Some t) c m) s))
         = rewardHistory s ++
           [RewardEntry.Award id u t pointsAwarded (nowIso env)]) /\
    (Js.truthy c = false ->
       pointsAwarded = 0 /\
       rewardHistory (snd (logActivity env (mkLogRequest (Some u) (Some t) c m) s))
       = rewardHistory s).
Proof.
  intros Hu Ht _ Hnone.
  rewrite (logActivity_accepted env (mkLogRequest (Some u) (Some t) c m) s u t)
    by auto.
  cbn [req_completed req_metrics]. unfold accepted.
  destruct (Js.truthy c) eqn:Hc; cbn [fst snd].
  - eexists _, _, _, _. split; [reflexivity|]. split; [reflexivity|].
    split; [|discriminate]. intros _.
    split; [reflexivity|]. split; [apply table_range|].
    eexists. reflexivity.
  - eexists _, _, _, _. split; [reflexivity|]. split; [reflexivity|].
    split; [discriminate|]. intros _. auto.
Qed.

Lemma points_follow_truthiness_witness :
  exists log streakUpdate newBadges pointsAwarded,
    fst (logActivity (envAt 4)
           (mkLogRequest (Some "bob") (Some "meditation") (Js.VNumber (Js.Fin 0))
                         Js.VUndefined) emptyStore)
      = LogOk log streakUpdate newBadges pointsAwarded /\
    ActivityLog.completed log = true /\ pointsAwarded = 0.
Proof.
  destruct (points_follow_truthiness (envAt 4) "bob" "meditation"
              (Js.VNumber (Js.Fin 0)) Js.VUndefined emptyStore)
    as (log & su & nb & pa & E & Hc & _ & Hfalse).
  - discriminate.
  - discriminate.
  - reflexivity.
  - reflexivity.
  - exists log, su, nb, pa. split; [exact E|]. split; [exact Hc|].
    apply Hfalse. reflexivity.
Defined.

Lemma map_userId_writeAt l i x r :
  nth_error l i = Some x ->
  UserStreak.userId r = UserStreak.userId x ->
  map UserStreak.userId (writeAt i r l) = map UserStreak.userId l.
Proof.
  revert i. induction l as [|y l IH]; intros [|i] Hn Hr; simpl in *;
    try discriminate.
  - inversion Hn; subst. now rewrite Hr.
  - f_equal. now apply IH.
Qed.

(** X7: POST /log-activity only ever appends.  The logs, badges and ledger
    entries present before a request are afterwards still there, in the
    same order and unchanged; a request adds at most one log and at most
    one ledger entry, every badge it adds belongs to the requesting user,
    and the streak records keep their users and order, with at most one
    record added at the end. *)
Theorem log_only_appends env req s :
  exists logs minted entries records,
    dailyHabits (snd (logActivity env req s)) = dailyHabits s ++ logs /\
    userBadges (snd (logActivity env req s)) = userBadges s ++ minted /\
    rewardHistory (snd (logActivity env req s)) = rewardHistory s ++ entries /\
    map UserStreak.userId (userStreaks (snd (logActivity env req s)))
      = map UserStreak.userId (userStreaks s) ++ records /\
    (length logs <= 1)%nat /\ (length entries <= 1)%nat /\
    (length records <= 1)%nat /\
    Forall (fun b => Some (UserBadge.userId b) = req_userId req) minted.
Proof.
  destruct (logActivity_served env req s)
    as [[-> _]|(u & t & Hu & _ & _ & _ & Hnone & ->)].
  - exists [], [], [], []. rewrite !app_nil_r. simpl. repeat split; auto.
  - destruct (accepted_ledger env u t (req_completed req) (req_metrics req) s)
      as [id Hledger].
    eexists _, _, _,
      (match findRef (ofUser u) (userStreaks s) with
       | Some _ => []
       | None => [u]
       end).
    split; [apply accepted_habits|].
    split; [apply accepted_badges|].
    split; [exact Hledger|].
    split.
    { rewrite accepted_streaks. unfold storeRecord.
      pose proof (advance_owner env s u t (Js.notStrictlyFalse (req_completed req)))
        as Hown. apply ofUser_eq in Hown.
      destruct (findRef (ofUser u) (userStreaks s)) as [[i x]|] eqn:F.
      - rewrite app_nil_r. apply findRef_sound in F. destruct F as [Hn Hx].
        apply ofUser_eq in Hx. apply (map_userId_writeAt _ _ x); congruence.
      - rewrite map_app. cbn [map]. now rewrite Hown. }
    split; [simpl; lia|].
    split; [destruct (Js.truthy _); simpl; lia|].
    split; [destruct (findRef _ _); simpl; lia|].
    rewrite Hu. generalize 1%nat.
    induction (dueBadges _ u _) as [|b r IH]; intros k; simpl; constructor; auto.
Qed.

(** ** awardBadge and the catalogue *)

Lemma find_absent_key {V} (l : list (string * V)) b :
  ~ In b (map fst l) -> find (fun e => String.eqb (fst e) b) l = None.
Proof.
  intros H. apply find_none_intro. intros [k v] Hin. simpl.
  apply String.eqb_neq. intros ->. apply H.
  change b with (fst (b, v)). now apply in_map.
Qed.

Lemma flat_map_agree {A B} (f g : A -> list B) l :
  (forall a, In a l -> f a = g a) -> flat_map f l = flat_map g l.
Proof.
  induction l as [|x r IH]; simpl; intros H; auto.
  rewrite (H x), IH; auto.
Qed.

Lemma awardBadge_unknown u b env k s :
  ~ In b catalogueIds -> awardBadge u b env k s = (Some None, k, s).
Proof.
  intros H.
  assert (Hflat : flatEntries b
                  = flat_map (fun _ => [ItemUndefined]) (map snd BADGES)).
  { unfold flatEntries. change (JsObj.values BADGES) with (map snd BADGES).
    apply flat_map_agree. intros c Hc.
    assert (Hent : JsObj.entries c = c).
    { unfold BADGES in Hc. cbn [map snd] in Hc.
      repeat (destruct Hc as [<-|Hc]; [reflexivity|]). contradiction. }
    rewrite Hent, find_absent_key; auto.
    intros Hin. apply H. unfold catalogueIds.
    apply in_flat_map. apply in_map_iff in Hc.
    destruct Hc as (cat & <- & Hcat). exists cat. auto. }
  unfold awardBadge, resolveBadge. rewrite Hflat. reflexivity.
Qed.

(** X8: [awardBadge] pushes a record exactly for the twelve badge ids of
    the catalogue and returns [null], touching nothing, for every other
    id.  The record pushed never carries the catalogue entry: although
    every catalogue badge is worth at least 25 points, [badgeName],
    [badgeDescription] and [points] of the record are [undefined], because
    the lookup resolves to the second character of the id instead of the
    badge object. *)
Theorem award_badge_by_catalogue u b env k s :
  (In b catalogueIds ->
     awardBadge u b env k s
       = (Some (Some (badgeRecord env k u b)), S k,
          withBadges s [badgeRecord env k u b]) /\
     UserBadge.badgeName (badgeRecord env k u b) = None /\
     UserBadge.badgeDescription (badgeRecord env k u b) = None /\
     UserBadge.points (badgeRecord env k u b) = None /\
     25 <= catalogPoints b /\
     resolveBadge b = option_map (fun c => String c EmptyString) (String.get 1 b)) /\
  (~ In b catalogueIds -> awardBadge u b env k s = (Some None, k, s)).
Proof.
  split; [|apply awardBadge_unknown].
  unfold catalogueIds, BADGES. cbn [flat_map map fst snd app].
  intros Hin.
  repeat (destruct Hin as [<-|Hin];
          [repeat split; try reflexivity; vm_compute; discriminate|]).
  contradiction.
Qed.

Lemma award_badge_by_catalogue_witness :
  awardBadge "alice" "first-week" (envAt 1) 0%nat emptyStore
  = (Some (Some (badgeRecord (envAt 1) 0 "alice" "first-week")), 1%nat,
     withBadges emptyStore [badgeRecord (envAt 1) 0 "alice" "first-week"]) /\
  awardBadge "alice" "no-such-badge" (envAt 1) 0%nat emptyStore
  = (Some None, 0%nat, emptyStore).
Proof.
  destruct (award_badge_by_catalogue "alice" "first-week" (envAt 1) 0%nat emptyStore)
    as [Hin _].
  destruct (award_badge_by_catalogue "alice" "no-such-badge" (envAt 1) 0%nat
              emptyStore) as [_ Hout].
  split.
  - apply Hin. unfold catalogueIds; simpl. tauto.
  - apply Hout. unfold catalogueIds; simpl. intuition discriminate.
Defined.

(** ** Ranking *)



(** ** Limits of the leaderboard *)

Lemma board_size s :
  length (sortDesc (JsObj.entries (totalsByUser (rewardHistory s))))
  = length (distinctUsers s).
Proof.
  rewrite (Permutation_length (sortDesc_perm _)).
  rewrite (Permutation_length (entries_perm _)).
  rewrite <- (length_map fst).
  apply Permutation_length, NoDup_Permutation.
  - apply totalsByUser_nodup.
  - apply NoDup_nodup.
  - intros u. unfold distinctUsers, ledgerUsers. rewrite nodup_In.
    apply totalsByUser_keys.
Qed.

(** X11: how GET /leaderboard treats limits that are not a row count, when
    the user ids of the ledger are plain keys of [userPoints].  [NaN] (an
    unparsable limit) and 0 give an empty board; a negative limit -k is
    not rejected but drops the k lowest-ranked users; a limit beyond the
    number of users gives the full board. *)
Theorem leaderboard_limit_edges s type :
  plainUsers s = true ->
  generateLeaderboard s type Js.NaN = Some [] /\
  generateLeaderboard s type (Js.Fin 0) = Some [] /\
  (forall limit, limit < 0 ->
     generateLeaderboard s type (Js.Fin limit)
     = generateLeaderboard s type
         (Js.Fin (Z.max 0 (Z.of_nat (length (distinctUsers s)) + limit)))) /\
  (forall limit, Z.of_nat (length (distinctUsers s)) <= limit ->
     generateLeaderboard s type (Js.Fin limit)
     = generateLeaderboard s type (Js.Fin (Z.of_nat (length (distinctUsers s)))) /\
     option_map (@length LeaderboardRow) (generateLeaderboard s type (Js.Fin limit))
     = Some (length (distinctUsers s))).
Proof.
  intros Hplain. rewrite !(leaderboard_plain s type _ Hplain).
  unfold ranked, slice0. rewrite board_size.
  set (L := sortDesc (JsObj.entries (totalsByUser (rewardHistory s)))).
  set (n := Z.of_nat (length (distinctUsers s))).
  split; [reflexivity|].
  split; [cbn [Z.ltb Z.compare]; rewrite Z.min_l by (unfold n; lia); reflexivity|].
  split.
  - intros limit Hneg. rewrite !(leaderboard_plain s type _ Hplain).
    unfold ranked, slice0. rewrite board_size. fold L n.
    replace (limit <? 0) with true by (symmetry; apply Z.ltb_lt; lia).
    replace (Z.max 0 (n + limit) <? 0) with false by (symmetry; apply Z.ltb_ge; lia).
    do 4 f_equal. lia.
  - intros limit Hbig. rewrite !(leaderboard_plain s type _ Hplain).
    unfold ranked, slice0. rewrite board_size. fold L n.
    replace (limit <? 0) with false by (symmetry; apply Z.ltb_ge; lia).
    replace (n <? 0) with false by (symmetry; apply Z.ltb_ge; lia).
    rewrite Z.min_r by lia. rewrite Z.min_id. split; [reflexivity|].
    cbn [option_map]. f_equal.
    rewrite rows_length, length_map. unfold n. rewrite Nat2Z.id, <- board_size.
    fold L. now rewrite firstn_all.
Qed.

Lemma leaderboard_limit_edges_witness :
  option_map (map standing)
    (generateLeaderboard (snd (runLogs threeUserWeek emptyStore)) "points" (Js.Fin (-1)))
  = Some [(1, "ann", PNum 100); (2, "cat", PNum 75)].
Proof.
  rewrite (proj1 (proj2 (proj2 (leaderboard_limit_edges
                                  (snd (runLogs threeUserWeek emptyStore)) "points"
                                  eq_refl))) (-1)) by lia.
  reflexivity.
Defined.

(** ** Ties on the leaderboard *)





Lemma set_keys_present {V} (o : JsObj.t V) k v w :
  JsObj.get o k = Some w -> map fst (JsObj.set o k v) = map fst o.
Proof.
  induction o as [|[k0 v0] r IH]; simpl; [discriminate|].
  destruct (String.eqb k0 k); simpl; auto. intros H. now rewrite IH.
Qed.










(** ** The motivational message *)

Lemma mathMax_from l :
  forall m0,
    0 <= m0 ->
    (forall v, In v l -> exists a, v = Js.Fin a /\ 0 <= a) ->
    exists m,
      fold_left
        (fun acc x =>
           match acc, x with
           | Number Js.NaN, _ => Number Js.NaN
           | _, Js.NaN => Number Js.NaN
           | NegInfinity, Js.Fin z => Number (Js.Fin z)
           | Number (Js.Fin a), Js.Fin z => Number (Js.Fin (Z.max a z))
           end) l (Number (Js.Fin m0)) = Number (Js.Fin m) /\
      m0 <= m /\ (m = m0 \/ In (Js.Fin m) l) /\
      (forall a, In (Js.Fin a) l -> a <= m).
Proof.
  induction l as [|x r IH]; intros m0 Hm0 Hall.
  - exists m0. simpl. split; [reflexivity|]. split; [lia|]. split; [now left|].
    intros a [].
  - destruct (Hall x (or_introl eq_refl)) as (a & -> & Ha).
    destruct (IH (Z.max m0 a)) as (m & Hf & Hge & Hin & Hmax).
    + lia.
    + intros v Hv. apply Hall. now right.
    + exists m. cbn [fold_left]. rewrite Hf. split; [reflexivity|].
      split; [lia|]. split.
      * destruct Hin as [->|Hin]; [|right; now right].
        destruct (Z.max_spec m0 a) as [[_ ->]|[_ ->]]; [right; now left | now left].
      * intros b [Hb|Hb]; [inversion Hb; lia | now apply Hmax].
Qed.

Lemma mathMax_whole l :
  l <> [] ->
  (forall v, In v l -> exists a, v = Js.Fin a /\ 0 <= a) ->
  exists m,
    mathMax l = Number (Js.Fin m) /\ 0 <= m /\ In (Js.Fin m) l /\
    (forall a, In (Js.Fin a) l -> a <= m).
Proof.
  destruct l as [|x r]; [congruence|]. intros _ Hall.
  destruct (Hall x (or_introl eq_refl)) as (a & -> & Ha).
  destruct (mathMax_from r a Ha) as (m & Hf & Hge & Hin & Hmax).
  { intros v Hv. apply Hall. now right. }
  exists m. unfold mathMax. cbn [fold_left]. rewrite Hf.
  split; [reflexivity|]. split; [lia|]. split.
  - destruct Hin as [->|Hin]; [now left | now right].
  - intros b [Hb|Hb]; [inversion Hb; lia | now apply Hmax].
Qed.

Lemma values_in {V} (o : JsObj.t V) v :
  In v (JsObj.values o) <-> exists k, In (k, v) o.
Proof.
  unfold JsObj.values. rewrite in_map_iff. split.
  - intros ([k w] & <- & Hin). exists k.
    eapply Permutation_in; [apply entries_perm | exact Hin].
  - intros (k & Hin). exists (k, v). split; auto.
    eapply Permutation_in; [symmetry; apply entries_perm | exact Hin].
Qed.

Lemma streaks_nonempty s :
  Reachable s ->
  Forall (fun r => UserStreak.streaks r <> []) (userStreaks s).
Proof.
  apply reachable_records.
  - intros env u. discriminate.
  - intros env s' u t cb base _. unfold advance; cbn [UserStreak.streaks].
    rewrite nextStreaks_is_set.
    destruct (UserStreak.streaks base) as [|[k v] r]; simpl; [discriminate|].
    destruct (String.eqb k t); discriminate.
Qed.

(** X13: for every streak record that requests can produce, the
    motivational message is "Every journey begins with a single step!
    Start your health streak today!" exactly when every current streak of
    the record is 0; in all other cases it is one of the three messages
    ("Great start! ...", "Amazing! ...", "Incredible! ...") that name the
    largest current streak, which is then positive. *)
Theorem start_message_iff_no_streak s r :
  Reachable s -> In r (userStreaks s) ->
  (generateMotivationalMessage r = startMessage <->
   forall k v, In (k, v) (UserStreak.streaks r) -> v = Js.Fin 0) /\
  (generateMotivationalMessage r <> startMessage ->
   exists k m,
     In (k, Js.Fin m) (UserStreak.streaks r) /\ 0 < m /\
     (forall k' a, In (k', Js.Fin a) (UserStreak.streaks r) -> a <= m) /\
     generateMotivationalMessage r
     = if m <? 7 then
         ("Great start! You're on a " ++ NilZero.string_of_int (Z.to_int m)
            ++ "-day streak. Keep going!")%string
       else if m <? 30 then
         ("Amazing! " ++ NilZero.string_of_int (Z.to_int m)
            ++ " days strong! You're building great habits.")%string
       else
         ("Incredible! " ++ NilZero.string_of_int (Z.to_int m)
            ++ " days of consistency! You're an inspiration!")%string).
Proof.
  intros Hs Hr.
  destruct (reachable_whole s Hs) as [Hw _].
  pose proof (streaks_nonempty s Hs) as Hne.
  rewrite Forall_forall in Hw, Hne.
  destruct (Hw r Hr) as [Hwhole _]. specialize (Hne r Hr).
  destruct (mathMax_whole (JsObj.values (UserStreak.streaks r)))
    as (m & Hmax & Hm0 & Hin & Hle).
  { unfold JsObj.values. intros Hnil. apply map_eq_nil in Hnil.
    apply Hne. apply Permutation_nil. rewrite <- Hnil.
    apply entries_perm. }
  { intros v Hv. apply values_in in Hv. destruct Hv as [k Hk]. eauto. }
  apply values_in in Hin. destruct Hin as [km Hkm].
  assert (Hmsg : generateMotivationalMessage r
                 = if m =? 0 then startMessage
                   else if m <? 7 then
                     ("Great start! You're on a " ++ NilZero.string_of_int (Z.to_int m)
                        ++ "-day streak. Keep going!")%string
                   else if m <? 30 then
                     ("Amazing! " ++ NilZero.string_of_int (Z.to_int m)
                        ++ " days strong! You're building great habits.")%string
                   else
                     ("Incredible! " ++ NilZero.string_of_int (Z.to_int m)
                        ++ " days of consistency! You're an inspiration!")%string).
  { unfold generateMotivationalMessage. rewrite Hmax. reflexivity. }
  assert (Hother : (m =? 0) = false -> generateMotivationalMessage r <> startMessage).
  { intros Hz. rewrite Hmsg, Hz. unfold startMessage.
    destruct (m <? 7); [|destruct (m <? 30)]; cbn [String.append]; discriminate. }
  split.
  - split.
    + intros Hstart k v Hk.
      destruct (m =? 0) eqn:Hz; [|now destruct (Hother eq_refl)].
      apply Z.eqb_eq in Hz.
      destruct (Hwhole k v Hk) as (a & -> & Ha).
      assert (a <= m) by (apply (Hle a), values_in; eauto).
      f_equal. lia.
    + intros Hall. rewrite Hmsg.
      specialize (Hall km (Js.Fin m) Hkm). inversion Hall. reflexivity.
  - intros Hnot. exists km, m.
    destruct (Z.eq_dec m 0) as [Hz|Hz].
    + exfalso. apply Hnot. rewrite Hmsg.
      apply Z.eqb_eq in Hz. now rewrite Hz.
    + split; [exact Hkm|]. split; [lia|]. split.
      * intros k' a Hk'. apply (Hle a), values_in. eauto.
      * rewrite Hmsg. apply Z.eqb_neq in Hz. now rewrite Hz.
Qed.

Lemma start_message_iff_no_streak_witness :
  let s := snd (runLogs (dailyLogs "dana" "sleep" (Js.VBool true) [1; 2; 3])
                  emptyStore) in
  let r := baseRecord (envAt 0) s "dana" in
  generateMotivationalMessage r <> startMessage /\
  generateMotivationalMessage r
  = "Great start! You're on a 3-day streak. Keep going!".
Proof.
  cbv zeta.
  destruct (start_message_iff_no_streak
              (snd (runLogs (dailyLogs "dana" "sleep" (Js.VBool true) [1; 2; 3])
                      emptyStore))
              (baseRecord (envAt 0)
                 (snd (runLogs (dailyLogs "dana" "sleep" (Js.VBool true) [1; 2; 3])
                         emptyStore)) "dana"))
    as [[Hstart _] _].
  - apply reachable_runLogs. apply ReachEmpty.
  - left. reflexivity.
  - split; [|reflexivity].
    intros Heq. specialize (Hstart Heq "sleep" (Js.Fin 3)).
    assert (H3 : Js.Fin 3 = Js.Fin 0) by (apply Hstart; vm_compute; tauto).
    discriminate H3.
Defined.

(** ** The nutrition badge *)

Lemma no_nutrition_from_streaks earned (es : list (string * Js.num)) :
  count_occ string_dec (flat_map (fun e => entryAwards earned (snd e)) es)
            "healthy-eating" = 0%nat.
Proof.
  induction es as [|e es IH]; [reflexivity|].
  cbn [flat_map]. rewrite count_occ_app, IH.
  unfold entryAwards. rewrite count_occ_app, !count_if_single.
  change (String.eqb "7-day-streak" "healthy-eating") with false.
  change (String.eqb "30-day-streak" "healthy-eating") with false.
  now rewrite !andb_false_r.
Qed.

(** X14: every accepted log of a user who then has seven or more logs of
    type "healthy-eating" or "supplement-consistency" (completed or not)
    adds exactly one "healthy-eating" badge for that user, whatever the
    type of the log and however many such badges the user already holds;
    with fewer such logs it adds none. *)
Theorem nutrition_badge_every_log env u t c m s :
  u <> "" -> t <> "" ->
  find (sameLogKey u t (today env)) (dailyHabits s) = None ->
  badgesHeld (snd (logActivity env (mkLogRequest (Some u) (Some t) c m) s))
             u "healthy-eating"
  = (badgesHeld s u "healthy-eating"
     + if (7 <=? length
                   (filter (isNutritionActivity u)
                      (dailyHabits
                         (snd (logActivity env
                                 (mkLogRequest (Some u) (Some t) c m) s)))))%nat
       then 1 else 0)%nat.
Proof.
  intros Hu Ht Hnone.
  rewrite (logActivity_accepted env (mkLogRequest (Some u) (Some t) c m) s u t)
    by auto.
  cbn [req_completed req_metrics].
  rewrite badgesHeld_accepted, accepted_habits. cbv zeta.
  rewrite String.eqb_refl. f_equal.
  unfold dueBadges. rewrite count_occ_app, no_nutrition_from_streaks.
  cbn [withStreaks withLog dailyHabits].
  destruct (7 <=? _)%nat; reflexivity.
Qed.

Lemma nutrition_badge_every_log_witness :
  badgesHeld (snd (logActivity (envAt 9)
                     (mkLogRequest (Some "alice") (Some "sleep") (Js.VBool true)
                                   Js.VUndefined)
                     (snd (runLogs (dailyLogs "alice" "healthy-eating" (Js.VBool false)
                                      [1; 2; 3; 4; 5; 6; 7]) emptyStore))))
             "alice" "healthy-eating" = 2%nat.
Proof.
  rewrite (nutrition_badge_every_log (envAt 9) "alice" "sleep" (Js.VBool true)
             Js.VUndefined
             (snd (runLogs (dailyLogs "alice" "healthy-eating" (Js.VBool false)
                              [1; 2; 3; 4; 5; 6; 7]) emptyStore))).
  - reflexivity.
  - discriminate.
  - discriminate.
  - reflexivity.
Defined.

(** ** The longest streak in the reachable stores *)

(** X15: whatever requests were served, for each of the five activity
    types that a new record lists (nutrition, fitness, supplements,
    hydration, sleep) every user's current and longest streak are
    integers with 0 <= current <= longest. *)
Theorem listed_longest_covers_current s u t :
  Reachable s -> In t listedTypes ->
  exists a b,
    streakOf s u t = Some (Js.Fin a) /\
    longestOf s u t = Some (Js.Fin b) /\
    0 <= a <= b.
Proof.
  intros Hs Ht. unfold streakOf, longestOf.
  apply (invariant_base countersOk countersOk_fresh); auto.
  apply reachable_records; auto using countersOk_fresh, countersOk_advance.
Qed.

Lemma listed_longest_covers_current_witness :
  exists a b,
    streakOf (snd (runLogs (dailyLogs "alice" "sleep" (Js.VBool true) [1; 2; 4])
                     emptyStore)) "alice" "sleep" = Some (Js.Fin a) /\
    longestOf (snd (runLogs (dailyLogs "alice" "sleep" (Js.VBool true) [1; 2; 4])
                      emptyStore)) "alice" "sleep" = Some (Js.Fin b) /\
    0 <= a <= b.
Proof.
  apply (listed_longest_covers_current
           (snd (runLogs (dailyLogs "alice" "sleep" (Js.VBool true) [1; 2; 4])
                   emptyStore)) "alice" "sleep").
  - apply reachable_runLogs. apply ReachEmpty.
  - unfold listedTypes; simpl. tauto.
Defined.

Lemma nextLongest_keys streaks longest t cb :
  map fst (nextLongest streaks longest t cb) = map fst longest.
Proof.
  unfold nextLongest. destruct cb; auto.
  destruct (Js.gtb _ _) eqn:G; auto.
  destruct (JsObj.get streaks t) as [n|]; auto.
  destruct (JsObj.get longest t) as [w|] eqn:L.
  - now apply (set_keys_present _ _ _ w).
  - simpl in G. now rewrite gtb_NaN in G.
Qed.

(** X16: [updateStreak] never creates a longest-streak counter.  In every
    record that requests can produce, [longestStreaks] has exactly the
    five keys it was created with, in the same order, while [streaks] has
    a counter for every plain activity type the user has logged. *)
Theorem longest_streak_keys_fixed s :
  Reachable s ->
  (forall r, In r (userStreaks s) ->
             map fst (UserStreak.longestStreaks r) = listedTypes) /\
  (forall log, In log (dailyHabits s) ->
               JsObj.plain (ActivityLog.activityType log) = true ->
               streakOf s (ActivityLog.userId log) (ActivityLog.activityType log)
               <> None).
Proof.
  intros Hs. split.
  - apply Forall_forall. revert s Hs. apply reachable_records.
    + reflexivity.
    + intros env s u t cb base Hb. unfold advance; simpl.
      now rewrite nextLongest_keys.
  - intros log Hlog _. now apply (reachable_whole s Hs).
Qed.

Lemma longest_streak_keys_fixed_witness :
  (forall r,
     In r (userStreaks (snd (logActivity (envAt 1) (logReq "alice" "yoga" (Js.VBool true))
                               emptyStore))) ->
     map fst (UserStreak.longestStreaks r) = listedTypes) /\
  (forall log,
     In log (dailyHabits (snd (logActivity (envAt 1)
                                 (logReq "alice" "yoga" (Js.VBool true)) emptyStore))) ->
     JsObj.plain (ActivityLog.activityType log) = true ->
     streakOf (snd (logActivity (envAt 1) (logReq "alice" "yoga" (Js.VBool true))
                      emptyStore))
       (ActivityLog.userId log) (ActivityLog.activityType log) <> None).
Proof.
  apply (longest_streak_keys_fixed
           (snd (logActivity (envAt 1) (logReq "alice" "yoga" (Js.VBool true))
                   emptyStore))).
  apply ReachLog. apply ReachEmpty.
Defined.

(** ** A run of days and its end *)

(** X17: for every user and every plain activity type, completed logs on n + 1
    consecutive days, begun when the user has no log of that type on the
    day before or later, bring the current streak to n + 1, and a log that
    is not completed on the following day resets it to 0.  The longest
    streak becomes the larger of its old value and n + 1 when it is a
    number, and is not changed by the reset. *)
Theorem streak_counts_consecutive_days u t s start n :
  u <> "" -> t <> "" ->
  JsObj.plain t = true ->
  (forall log, In log (dailyHabits s) -> sameActivity u t log = true ->
               ActivityLog.date log < start - 1) ->
  streakOf (snd (runLogs (dailyLogs u t (Js.VBool true) (days start (S n))) s)) u t
    = Some (Js.Fin (Z.of_nat (S n))) /\
  longestOf (snd (runLogs (dailyLogs u t (Js.VBool true) (days start (S n))) s)) u t
    = raisedTo (longestOf s u t) (Z.of_nat (S n)) /\
  streakOf (snd (logActivity (envAt (start + Z.of_nat n + 1))
                   (logReq u t (Js.VBool false))
                   (snd (runLogs (dailyLogs u t (Js.VBool true) (days start (S n))) s))))
           u t = Some (Js.Fin 0) /\
  longestOf (snd (logActivity (envAt (start + Z.of_nat n + 1))
                    (logReq u t (Js.VBool false))
                    (snd (runLogs (dailyLogs u t (Js.VBool true) (days start (S n))) s))))
            u t = raisedTo (longestOf s u t) (Z.of_nat (S n)).
Proof.
  intros Hu Ht _ Hold.
  pose proof (streak_after_run u t Hu Ht s start n Hold) as Hrun.
  pose proof (run_ends u t Hu Ht _ _ _ _ Hrun) as Hend. cbv zeta in Hend.
  destruct Hrun as (H1 & H2 & _). destruct Hend as [H3 H4].
  auto.
Qed.

Lemma streak_counts_consecutive_days_witness :
  streakOf (snd (runLogs (dailyLogs "eve" "hydration" (Js.VBool true) (days 10 3))
                   emptyStore)) "eve" "hydration" = Some (Js.Fin 3).
Proof.
  apply (streak_counts_consecutive_days "eve" "hydration" emptyStore 10 2).
  - discriminate.
  - discriminate.
  - reflexivity.
  - intros log [].
Defined.

(** ** Lookups between logs *)

Lemma advance_agree env s1 s2 u t cb b1 b2 :
  dailyHabits s1 = dailyHabits s2 ->
  UserStreak.userId b1 = UserStreak.userId b2 ->
  UserStreak.streaks b1 = UserStreak.streaks b2 ->
  UserStreak.longestStreaks b1 = UserStreak.longestStreaks b2 ->
  advance env s1 u t cb b1 = advance env s2 u t cb b2.
Proof. intros H1 H2 H3 H4. unfold advance. now rewrite H1, H2, H3, H4. Qed.

Lemma lookup_keeps_rest env u s :
  dailyHabits (snd (userStreakFor u env 0%nat s)) = dailyHabits s /\
  userBadges (snd (userStreakFor u env 0%nat s)) = userBadges s /\
  rewardHistory (snd (userStreakFor u env 0%nat s)) = rewardHistory s.
Proof. rewrite userStreakFor_run. cbn [snd]. now destruct (recordOf s u). Qed.

Lemma baseRecord_after_lookup env env' u u' s :
  UserStreak.userId (baseRecord env' (snd (userStreakFor u env 0%nat s)) u')
    = UserStreak.userId (baseRecord env' s u') /\
  UserStreak.streaks (baseRecord env' (snd (userStreakFor u env 0%nat s)) u')
    = UserStreak.streaks (baseRecord env' s u') /\
  UserStreak.longestStreaks (baseRecord env' (snd (userStreakFor u env 0%nat s)) u')
    = UserStreak.longestStreaks (baseRecord env' s u').
Proof.
  rewrite userStreakFor_run. cbn [snd].
  destruct (recordOf s u) eqn:Hrec; auto.
  unfold baseRecord. rewrite (recordOf_created env s u u' Hrec).
  destruct (String.eqb u u') eqn:E; auto.
  apply String.eqb_eq in E. subst u'. now rewrite Hrec.
Qed.

(** X18: reading a user's streaks between two logs does not change what
    the logs answer: after any lookup of GET /:userId/streaks, for any
    user, POST /log-activity returns the same response (log, streak
    update, new badges, points) as it would have returned without the
    lookup. *)
Theorem lookup_does_not_change_responses env env' u req s :
  fst (logActivity env req (snd (userStreakFor u env' 0%nat s)))
  = fst (logActivity env req s).
Proof.
  set (s' := snd (userStreakFor u env' 0%nat s)).
  destruct (lookup_keeps_rest env' u s) as (Hh & Hb & _). fold s' in Hh, Hb.
  unfold logActivity. rewrite Hh.
  destruct (req_userId req) as [u0|]; [|reflexivity].
  destruct (req_activityType req) as [t|]; [|reflexivity].
  destruct (negb (Js.truthyStr (Some u0)) || negb (Js.truthyStr (Some t)));
    [reflexivity|].
  destruct (find (sameLogKey u0 t (today env)) (dailyHabits s)); [reflexivity|].
  destruct (logActivityBody_explicit env u0 t (req_completed req) (req_metrics req) s')
    as [k' ->].
  destruct (logActivityBody_explicit env u0 t (req_completed req) (req_metrics req) s)
    as [k ->].
  cbn [fst].
  destruct (baseRecord_after_lookup env' env u u0 s) as (Bu & Bs & Bl).
  fold s' in Bu, Bs, Bl.
  assert (Hadv : advance env s' u0 t (Js.notStrictlyFalse (req_completed req))
                   (baseRecord env s' u0)
                 = advance env s u0 t (Js.notStrictlyFalse (req_completed req))
                     (baseRecord env s u0)).
  { now apply advance_agree. }
  unfold accepted. rewrite Hadv.
  set (r' := advance env s u0 t (Js.notStrictlyFalse (req_completed req))
               (baseRecord env s u0)).
  assert (Hdue : forall l1 l2,
             dueBadges (withStreaks (withLog s' (newLog env u0 t (req_completed req)
                                                   (req_metrics req))) l1) u0 r'
             = dueBadges (withStreaks (withLog s (newLog env u0 t (req_completed req)
                                                    (req_metrics req))) l2) u0 r').
  { intros l1 l2. unfold dueBadges, earnedBy.
    cbn [withStreaks withLog userBadges dailyHabits]. now rewrite Hh, Hb. }
  rewrite (Hdue _ (storeRecord (userStreaks s) u0 r')).
  destruct (Js.truthy (req_completed req)); reflexivity.
Qed.

(** ** The badge check on its own *)

(** X19: [checkForNewBadges] depends on a streak record being there.  For
    a user without one it throws (reading [streaks] of [undefined]) and
    changes nothing; for a user with a record it never throws, returns
    one new badge per due badge id, in order and without [null], and
    appends exactly those badges to [userBadges]. *)
Theorem badge_check_needs_record u env k s :
  match recordOf s u with
  | None => checkForNewBadges u env k s = (None, k, s)
  | Some r =>
      exists badges,
        checkForNewBadges u env k s
        = (Some (map Some badges), (k + length badges)%nat, withBadges s badges) /\
        map UserBadge.badgeId badges = dueBadges s u r /\
        Forall (fun b => UserBadge.userId b = u) badges
  end.
Proof.
  destruct (recordOf s u) as [r|] eqn:Hrec.
  - exists (mint env u k (dueBadges s u r)).
    assert (Hlen : forall ids j, length (mint env u j ids) = length ids).
    { induction ids; intros j; simpl; auto. }
    rewrite Hlen. split; [now apply checkForNewBadges_explicit|]. split.
    + generalize k. induction (dueBadges s u r) as [|b l IH]; intros j; simpl;
        [reflexivity | now rewrite IH].
    + generalize k. induction (dueBadges s u r) as [|b l IH]; intros j; simpl;
        constructor; auto.
  - unfold checkForNewBadges, recordOf in *.
    unfold bind at 1. unfold getStore at 1. now rewrite Hrec.
Qed.

(** ** Other users *)

Lemma mint_owner env u ids :
  forall k, Forall (fun b => UserBadge.userId b = u) (mint env u k ids).
Proof. induction ids; intros k; simpl; constructor; auto. Qed.

(** X20: a log concerns its user only.  For every other user the total
    points, the badges held (and their order) and the streak record are
    the same after POST /log-activity as before, whether the request was
    accepted or rejected. *)
Theorem log_leaves_other_users_alone env req s u' :
  req_userId req <> Some u' ->
  calculateTotalPoints (snd (logActivity env req s)) u' = calculateTotalPoints s u' /\
  earnedBy (snd (logActivity env req s)) u' = earnedBy s u' /\
  recordOf (snd (logActivity env req s)) u' = recordOf s u'.
Proof.
  intros Hother.
  destruct (logActivity_served env req s)
    as [[-> _]|(u & t & Hu & _ & _ & _ & Hnone & ->)]; auto.
  assert (Hne : u' <> u) by congruence.
  split; [|split].
  - destruct (accepted_ledger env u t (req_completed req) (req_metrics req) s)
      as [id Hl].
    rewrite !calculateTotalPoints_ledger, Hl, ledgerTotal_app.
    destruct (Js.truthy (req_completed req)); unfold ledgerTotal at 2; simpl.
    + apply String.eqb_neq in Hne. rewrite String.eqb_sym in Hne.
      rewrite Hne. simpl. lia.
    + lia.
  - unfold earnedBy. rewrite accepted_badges. cbv zeta.
    rewrite filter_app.
    match goal with
    | |- _ ++ filter ?f (mint env u ?k ?ids) = _ =>
        assert (Hnil : filter f (mint env u k ids) = [])
    end.
    { pose proof (mint_owner env u (dueBadges
        (withStreaks (withLog s (newLog env u t (req_completed req) (req_metrics req)))
           (storeRecord (userStreaks s) u
              (advance env s u t (Js.notStrictlyFalse (req_completed req))
                 (baseRecord env s u)))) u
        (advance env s u t (Js.notStrictlyFalse (req_completed req))
           (baseRecord env s u))) 1%nat) as Hown.
      induction Hown as [|b l Hb _ IH]; [reflexivity|].
      simpl. rewrite Hb.
      apply String.eqb_neq in Hne. rewrite String.eqb_sym in Hne.
      now rewrite Hne. }
    rewrite Hnil. apply app_nil_r.
  - now apply recordOf_accepted_other.
Qed.

Lemma log_leaves_other_users_alone_witness :
  calculateTotalPoints
    (snd (logActivity (envAt 1) (logReq "alice" "workout" (Js.VBool true)) emptyStore))
    "bob" = calculateTotalPoints emptyStore "bob".
Proof.
  apply (log_leaves_other_users_alone (envAt 1)
           (logReq "alice" "workout" (Js.VBool true)) emptyStore "bob").
  discriminate.
Defined.

(** ** One record per user *)

Lemma find_none_userId l u :
  find (ofUser u) l = None -> ~ In u (map UserStreak.userId l).
Proof.
  intros Hnone Hin. apply in_map_iff in Hin. destruct Hin as (r & Hr & Hin).
  pose proof (find_none _ _ Hnone r Hin) as Hf.
  apply ofUser_eq in Hr. congruence.
Qed.

Lemma NoDup_snoc {A} (l : list A) x : NoDup l -> ~ In x l -> NoDup (l ++ [x]).
Proof.
  intros Hl Hx. apply NoDup_app; auto.
  - repeat constructor. intros [].
  - intros a Ha [<-|[]]. contradiction.
Qed.

(** X21: whatever requests were served, there is at most one streak
    record per user: a record is created only when the user has none. *)
Theorem one_streak_record_per_user s :
  Reachable s -> NoDup (map UserStreak.userId (userStreaks s)).
Proof.
  intros Hs.
  induction Hs as [|env req s _ IH|lookup env u rid s _ IH|env u s _ IH].
  - constructor.
  - destruct (logActivity_served env req s)
      as [[-> _]|(u & t & _ & _ & _ & _ & Hnone & ->)]; auto.
    rewrite accepted_streaks. unfold storeRecord.
    pose proof (advance_owner env s u t (Js.notStrictlyFalse (req_completed req)))
      as Hown. apply ofUser_eq in Hown.
    destruct (findRef (ofUser u) (userStreaks s)) as [[i x]|] eqn:F.
    + apply findRef_sound in F. destruct F as [Hn Hx]. apply ofUser_eq in Hx.
      rewrite (map_userId_writeAt _ _ x); auto. congruence.
    + rewrite map_app. cbn [map]. rewrite Hown.
      apply NoDup_snoc; auto. apply find_none_userId.
      rewrite findRef_find. now rewrite F.
  - destruct (redeemIn_effect lookup env u rid s) as [->|(e & _ & ->)]; auto.
  - rewrite userStreakFor_run. cbn [snd].
    destruct (recordOf s u) eqn:Hrec; auto.
    cbn [withStreaks userStreaks]. rewrite map_app.
    apply NoDup_snoc; auto. now apply find_none_userId.
Qed.

Lemma one_streak_record_per_user_witness :
  NoDup (map UserStreak.userId
           (userStreaks (snd (runLogs (dailyLogs "alice" "sleep" (Js.VBool true) [1; 2]
                                         ++ dailyLogs "bob" "sleep" (Js.VBool true) [2])
                                 emptyStore)))).
Proof.
  apply (one_streak_record_per_user
           (snd (runLogs (dailyLogs "alice" "sleep" (Js.VBool true) [1; 2]
                            ++ dailyLogs "bob" "sleep" (Js.VBool true) [2])
                   emptyStore))).
  apply reachable_runLogs. apply ReachEmpty.
Defined.

(** ** The response and the arrays *)

(** X22: the response of an accepted log reports what was stored.  Its
    log is the entry appended to the activity log, its current and
    longest streak are the values that the user's record holds afterwards
    for that activity type, and its new badges, none of them [null], are
    exactly the badges appended to [userBadges]. *)
Theorem response_reports_the_store env u t c m s :
  u <> "" -> t <> "" ->
  find (sameLogKey u t (today env)) (dailyHabits s) = None ->
  exists log streakUpdate badges pointsAwarded,
    fst (logActivity env (mkLogRequest (Some u) (Some t) c m) s)
      = LogOk log streakUpdate (map Some badges) pointsAwarded /\
    dailyHabits (snd (logActivity env (mkLogRequest (Some u) (Some t) c m) s))
      = dailyHabits s ++ [log] /\
    logKey log = (u, t, today env) /\
    userBadges (snd (logActivity env (mkLogRequest (Some u) (Some t) c m) s))
      = userBadges s ++ badges /\
    su_activityType streakUpdate = t /\
    currentStreak streakUpdate
      = streakOf (snd (logActivity env (mkLogRequest (Some u) (Some t) c m) s)) u t /\
    longestStreak streakUpdate
      = longestOf (snd (logActivity env (mkLogRequest (Some u) (Some t) c m) s)) u t.
Proof.
  intros Hu Ht Hnone.
  rewrite (logActivity_accepted env (mkLogRequest (Some u) (Some t) c m) s u t)
    by auto.
  cbn [req_completed req_metrics].
  assert (Hcur : forall t',
             streakOf (snd (accepted env u t c m s)) u t'
             = JsObj.get (UserStreak.streaks
                            (advance env s u t (Js.notStrictlyFalse c)
                               (baseRecord env s u))) t' /\
             longestOf (snd (accepted env u t c m s)) u t'
             = JsObj.get (UserStreak.longestStreaks
                            (advance env s u t (Js.notStrictlyFalse c)
                               (baseRecord env s u))) t').
  { intros t'. unfold streakOf, longestOf, baseRecord.
    now rewrite recordOf_accepted_same. }
  destruct (Hcur t) as [-> ->].
  rewrite accepted_habits, accepted_badges. cbv zeta.
  unfold accepted. destruct (Js.truthy c); cbn [fst];
    eexists _, _, _, _; repeat split; reflexivity.
Qed.

Lemma response_reports_the_store_witness :
  exists log streakUpdate badges pointsAwarded,
    fst (logActivity (envAt 5)
           (mkLogRequest (Some "alice") (Some "sleep") (Js.VBool true) Js.VUndefined)
           emptyStore)
      = LogOk log streakUpdate (map Some badges) pointsAwarded /\
    dailyHabits (snd (logActivity (envAt 5)
           (mkLogRequest (Some "alice") (Some "sleep") (Js.VBool true) Js.VUndefined)
           emptyStore))
      = dailyHabits emptyStore ++ [log] /\
    logKey log = ("alice", "sleep", today (envAt 5)) /\
    userBadges (snd (logActivity (envAt 5)
           (mkLogRequest (Some "alice") (Some "sleep") (Js.VBool true) Js.VUndefined)
           emptyStore))
      = userBadges emptyStore ++ badges /\
    su_activityType streakUpdate = "sleep" /\
    currentStreak streakUpdate
      = streakOf (snd (logActivity (envAt 5)
           (mkLogRequest (Some "alice") (Some "sleep") (Js.VBool true) Js.VUndefined)
           emptyStore)) "alice" "sleep" /\
    longestStreak streakUpdate
      = longestOf (snd (logActivity (envAt 5)
           (mkLogRequest (Some "alice") (Some "sleep") (Js.VBool true) Js.VUndefined)
           emptyStore)) "alice" "sleep".
Proof.
  apply (response_reports_the_store (envAt 5) "alice" "sleep" (Js.VBool true)
           Js.VUndefined emptyStore).
  - discriminate.
  - discriminate.
  - reflexivity.
Defined.
